(** * Financial-document pipeline (main.py): a shallow embedding

    The pipeline scans inline-tagged markup ([extract_features]), asks a
    remote assistant for the figures of a filing ([extract_financial_data]),
    writes the batch to a relational store ([save_financial_data]), runs a
    battery of queries over it ([run_analysis_queries]) and is driven by
    [main_flow].

    Conventions of the embedding.
    - A Python [str] is a [string] holding the UTF-8 bytes of the text;
      where the code looks at characters (a pattern, [float]) the bytes
      are read as code points ([Text.points]).
    - A Python [float] and an SQL REAL are binary64 numbers ([float]);
      conversions from decimal text are correctly rounded.
    - A Python [dict] is an association list in insertion order with
      unique keys.
    - Code that can raise returns a sum, [inl] carrying the exception. *)

From Stdlib Require Import ZArith List String Ascii Bool Lia Arith Permutation.
From Stdlib Require Import Floats.PrimFloat Floats.FloatOps Floats.SpecFloat.
From Stdlib Require Import DecimalString Sorted.
Import ListNotations.

Set Warnings "-register-all".
Local Open Scope string_scope.
Local Open Scope list_scope.

(* ================================================================== *)
(** * Python values *)
(* ================================================================== *)

Module Py.

(** The values [json.loads] can produce, which are also the values that
    travel through the batch map. *)
Inductive pyval : Type :=
| PNone
| PBool (b : bool)
| PInt (n : Z)
| PFloat (f : float)
| PStr (s : string)
| PList (l : list pyval)
| PDict (d : list (string * pyval)).

(** The exceptions of the run, with the class that matters to the
    handlers: [sqlite3.Error] against the rest of [Exception]. *)
Inductive exn : Type :=
| KeyError (key : string)
| TypeError (msg : string)
| IndexError
| AttributeError (attr : string)
| JSONDecodeError (msg : string)
| OverflowError
| UnicodeEncodeError
| IntegrityError (msg : string)      (* sqlite3.IntegrityError *)
| ProgrammingError (msg : string)    (* sqlite3.ProgrammingError *)
| OperationalError (msg : string)    (* sqlite3.OperationalError *)
| APIError (msg : string).           (* raised by the remote client *)

Definition is_sqlite_error (e : exn) : bool :=
  match e with
  | IntegrityError _ | ProgrammingError _ | OperationalError _ => true
  | _ => false
  end.

(** [str(e)], as the handlers print it; the position that the
    interpreter adds to the message of a decoding or an encoding error
    is left out. *)
Definition exn_text (e : exn) : string :=
  match e with
  | KeyError k => "'" ++ k ++ "'"
  | TypeError m => m
  | IndexError => "list index out of range"
  | AttributeError a => "object has no attribute '" ++ a ++ "'"
  | JSONDecodeError m => m
  | OverflowError => "Python int too large to convert to SQLite INTEGER"
  | UnicodeEncodeError => "'utf-8' codec can't encode character: surrogates not allowed"
  | IntegrityError m => m
  | ProgrammingError m => m
  | OperationalError m => m
  | APIError m => m
  end.

Definition result (A : Type) : Type := (exn + A)%type.

(** ** Dictionaries *)

Section Dict.
Context {V : Type}.

Fixpoint dict_get (d : list (string * V)) (k : string) : option V :=
  match d with
  | [] => None
  | (k', v) :: d' => if String.eqb k k' then Some v else dict_get d' k
  end.

(** [d[k] = v]: an existing key keeps its place, a new key goes last. *)
Fixpoint dict_set (d : list (string * V)) (k : string) (v : V)
  : list (string * V) :=
  match d with
  | [] => [(k, v)]
  | (k', v') :: d' =>
      if String.eqb k k' then (k', v) :: d' else (k', v') :: dict_set d' k v
  end.

Definition keys (d : list (string * V)) : list string := map fst d.

End Dict.

(** [v[k]] for a string key [k]. *)
Definition getitem (v : pyval) (k : string) : result pyval :=
  match v with
  | PDict d =>
      match dict_get d k with
      | Some x => inr x
      | None => inl (KeyError k)
      end
  | PList _ => inl (TypeError "list indices must be integers or slices, not str")
  | PStr _ => inl (TypeError "string indices must be integers, not 'str'")
  | PNone => inl (TypeError "'NoneType' object is not subscriptable")
  | PBool _ => inl (TypeError "'bool' object is not subscriptable")
  | PInt _ => inl (TypeError "'int' object is not subscriptable")
  | PFloat _ => inl (TypeError "'float' object is not subscriptable")
  end.

End Py.
Import Py.

(* ================================================================== *)
(** * Text helpers: [str.strip], [re.sub], [re.match], [float] *)
(* ================================================================== *)

Module Text.

Definition byte (c : ascii) : N := N_of_ascii c.

(** An ASCII digit. *)
Definition is_digit (c : ascii) : bool :=
  (48 <=? byte c)%N && (byte c <=? 57)%N.

(** One white-space code point at the head of the text, as
    [str.strip] understands white space: U+0009..000D, U+001C..0020,
    U+0085, U+00A0, U+1680, U+2000..200A, U+2028, U+2029, U+202F, U+205F
    and U+3000, in their UTF-8 form.  Returns the rest of the text. *)
Definition ws_head (s : string) : option string :=
  match s with
  | String a r =>
      let x := byte a in
      if ((9 <=? x) && (x <=? 13) || (28 <=? x) && (x <=? 32))%N then Some r
      else match r with
      | String b r2 =>
          let y := byte b in
          if ((x =? 194) && ((y =? 133) || (y =? 160)))%N then Some r2
          else match r2 with
          | String c r3 =>
              let z := byte c in
              if ((x =? 225) && (y =? 154) && (z =? 128)
                  || (x =? 226) && (y =? 128)
                     && ((128 <=? z) && (z <=? 138)
                         || (z =? 168) || (z =? 169) || (z =? 175))
                  || (x =? 226) && (y =? 129) && (z =? 159)
                  || (x =? 227) && (y =? 128) && (z =? 128))%N
              then Some r3 else None
          | EmptyString => None
          end
      | EmptyString => None
      end
  | EmptyString => None
  end.

(** The same code points read backwards, for the end of the text. *)
Definition ws_last (rev_s : list ascii) : option (list ascii) :=
  match rev_s with
  | a :: r =>
      let x := byte a in
      if ((9 <=? x) && (x <=? 13) || (28 <=? x) && (x <=? 32))%N then Some r
      else match r with
      | b :: r2 =>
          let y := byte b in
          if ((y =? 194) && ((x =? 133) || (x =? 160)))%N then Some r2
          else match r2 with
          | c :: r3 =>
              let z := byte c in
              if ((z =? 225) && (y =? 154) && (x =? 128)
                  || (z =? 226) && (y =? 128)
                     && ((128 <=? x) && (x <=? 138)
                         || (x =? 168) || (x =? 169) || (x =? 175))
                  || (z =? 226) && (y =? 129) && (x =? 159)
                  || (z =? 227) && (y =? 128) && (x =? 128))%N
              then Some r3 else None
          | [] => None
          end
      | [] => None
      end
  | [] => None
  end.

Fixpoint lstrip_fuel (fuel : nat) (s : string) : string :=
  match fuel with
  | O => s
  | S fuel' =>
      match ws_head s with
      | Some r => lstrip_fuel fuel' r
      | None => s
      end
  end.

Fixpoint rstrip_fuel (fuel : nat) (rev_s : list ascii) : list ascii :=
  match fuel with
  | O => rev_s
  | S fuel' =>
      match ws_last rev_s with
      | Some r => rstrip_fuel fuel' r
      | None => rev_s
      end
  end.

Definition lstrip (s : string) : string := lstrip_fuel (String.length s) s.

Definition rstrip (s : string) : string :=
  string_of_list_ascii
    (rev (rstrip_fuel (String.length s) (rev (list_ascii_of_string s)))).

(** [s.strip()] *)
Definition strip (s : string) : string := rstrip (lstrip s).

(** [re.sub(r",", "", s)] *)
Fixpoint remove_commas (s : string) : string :=
  match s with
  | EmptyString => EmptyString
  | String c r =>
      if Ascii.eqb c "," then remove_commas r else String c (remove_commas r)
  end.

(** A run of ASCII digits read greedily, the digits of the JSON and SQL
    grammars: the digits consumed and the rest. *)
Fixpoint span_digits (s : string) : string * string :=
  match s with
  | String c r =>
      if is_digit c then
        let (ds, rest) := span_digits r in (String c ds, rest)
      else (EmptyString, s)
  | EmptyString => (EmptyString, EmptyString)
  end.

Definition nonempty (s : string) : bool :=
  match s with EmptyString => false | _ => true end.

(** ** Code points *)

Definition continuation (c : ascii) : bool :=
  (128 <=? byte c)%N && (byte c <=? 191)%N.

(** The six bits a continuation byte carries. *)
Definition low6 (c : ascii) : N := (byte c - 128)%N.

(** A byte that belongs to no well-formed sequence stands for itself,
    out of the way of every character (U+DC80..U+DCFF). *)
Definition stray (c : ascii) : N := (56320 + byte c)%N.

(** The code points of a text, which is what a pattern and [float] see
    of a [str]: decoded from the UTF-8 bytes, sequences of one to four
    bytes, shortest form only. *)
Fixpoint points (s : string) : list N :=
  match s with
  | EmptyString => []
  | String a r1 =>
      let x := byte a in
      if (x <? 128)%N then x :: points r1
      else
        match r1 with
        | String b r2 =>
            if continuation b then
              if ((194 <=? x) && (x <=? 223))%N then
                ((x - 192) * 64 + low6 b)%N :: points r2
              else
                match r2 with
                | String c r3 =>
                    if continuation c then
                      let p3 := (((x - 224) * 64 + low6 b) * 64 + low6 c)%N in
                      if ((224 <=? x) && (x <=? 239) && (2048 <=? p3))%N then
                        p3 :: points r3
                      else
                        match r3 with
                        | String d r4 =>
                            let p4 := ((((x - 240) * 64 + low6 b) * 64
                                        + low6 c) * 64 + low6 d)%N in
                            if (continuation d && (240 <=? x) && (x <=? 244)
                                && (65536 <=? p4) && (p4 <=? 1114111))%N
                            then p4 :: points r4
                            else stray a :: points r1
                        | EmptyString => stray a :: points r1
                        end
                    else stray a :: points r1
                | EmptyString => stray a :: points r1
                end
            else stray a :: points r1
        | EmptyString => stray a :: points r1
        end
  end.

Definition minus_sign : N := 45.
Definition full_stop : N := 46.
Definition line_feed : N := 10.

(** The code points that write zero in the scripts with decimal digits
    (category Nd of Unicode 14, the table of the interpreter); the nine
    other digits of a script follow its zero. *)
Definition digit_zeros : list N :=
  [48; 1632; 1776; 1984; 2406; 2534; 2662; 2790; 2918; 3046; 3174; 3302;
   3430; 3558; 3664; 3792; 3872; 4160; 4240; 6112; 6160; 6470; 6608; 6784;
   6800; 6992; 7088; 7232; 7248; 42528; 43216; 43264; 43472; 43504; 43600;
   44016; 65296; 66720; 68912; 69734; 69872; 69942; 70096; 70384; 70736;
   70864; 71248; 71360; 71472; 71904; 72016; 72784; 73040; 73120; 92768;
   92864; 93008; 120782; 120792; 120802; 120812; 120822; 123200; 123632;
   125264; 130032]%N.

(** The digit a code point writes, if it is a decimal digit: what [\d]
    matches in a text pattern, and what [float] reads as a digit. *)
Definition decimal_digit (p : N) : option Z :=
  match find (fun z => (z <=? p) && (p <? z + 10))%N digit_zeros with
  | Some z => Some (Z.of_N (p - z))
  | None => None
  end.

Definition is_decimal (p : N) : bool :=
  match decimal_digit p with Some _ => true | None => false end.

(** [\d+] read greedily: the digits consumed, as their values, and the
    rest of the text. *)
Fixpoint span_decimals (text : list N) : list Z * list N :=
  match text with
  | p :: r =>
      match decimal_digit p with
      | Some d => let (ds, rest) := span_decimals r in (d :: ds, rest)
      | None => ([], text)
      end
  | [] => ([], [])
  end.

Definition some {A : Type} (l : list A) : bool :=
  match l with [] => false | _ => true end.

(** [$] without [re.MULTILINE]: the end of the text, or just before a
    line feed that ends the text. *)
Definition at_dollar (text : list N) : bool :=
  match text with
  | [] => true
  | [p] => (p =? line_feed)%N
  | _ => false
  end.

(** [re.match(r"^-?\d+(\.\d+)?$", s)] as a truth value. *)
Definition re_match_numeral (s : string) : bool :=
  let text := points s in
  let body := match text with
              | p :: r => if (p =? minus_sign)%N then r else text
              | [] => text
              end in
  let (ip, rest) := span_decimals body in
  some ip &&
  (at_dollar rest
   || match rest with
      | p :: r =>
          (p =? full_stop)%N &&
          (let (fp, rest') := span_decimals r in some fp && at_dollar rest')
      | [] => false
      end).

(** ** Decimal text to binary64 *)

(** The binary64 number nearest to [p / q] (ties to even), for positive
    [p] and [q]: the quotient is taken with more than 64 significant
    bits, a non-zero remainder is kept as a sticky last bit, and the
    result is rounded once. *)
Definition float_of_ratio (p q : Z) : float :=
  let k := Z.max 0 (Z.log2 q - Z.log2 p + 66) in
  let n := (p * 2 ^ k)%Z in
  let m := (n / q)%Z in
  let m' := if (n mod q =? 0)%Z then m else Z.lor m 1 in
  SF2Prim (binary_normalize prec emax m' (- k) false).

(** The binary64 number nearest to the integer [n]. *)
Definition float_of_Z (n : Z) : float :=
  SF2Prim (binary_normalize prec emax n 0 false).

(** The binary64 number nearest to [m * 10 ^ e10], with the sign [neg];
    [m] is not negative.  Magnitudes beyond the range of the format are
    settled without computing the power. *)
Definition float_of_decimal (neg : bool) (m e10 : Z) : float :=
  let signed (f : float) := if neg then PrimFloat.opp f else f in
  if (m <=? 0)%Z then signed PrimFloat.zero
  else
    let lo := (Z.log2 m * 30102 / 100000 + e10)%Z in
    let hi := ((Z.log2 m + 1) * 30103 / 100000 + 1 + e10)%Z in
    if (310 <? lo)%Z then signed PrimFloat.infinity
    else if (hi <? -330)%Z then signed PrimFloat.zero
    else if (0 <=? e10)%Z then signed (float_of_ratio (m * 10 ^ e10) 1)
    else signed (float_of_ratio m (10 ^ (- e10))).

Definition digit_value (c : ascii) : Z := Z.of_N (byte c) - 48.

(** The number written by a run of ASCII digits, after the digits
    [acc]. *)
Fixpoint digits_value (acc : Z) (s : string) : Z :=
  match s with
  | EmptyString => acc
  | String c r => digits_value (acc * 10 + digit_value c) r
  end.

(** The number written by the digits [ds], after the digits [acc]. *)
Fixpoint number (acc : Z) (ds : list Z) : Z :=
  match ds with
  | [] => acc
  | d :: r => number (acc * 10 + d) r
  end.

(** [float(s)] on a text accepted by [re_match_numeral]: sign, integer
    digits and fraction digits; [float] ignores the line feed that [$]
    may have let through. *)
Definition py_float (s : string) : float :=
  let text := points s in
  let (neg, body) := match text with
                     | p :: r =>
                         if (p =? minus_sign)%N then (true, r) else (false, text)
                     | [] => (false, text)
                     end in
  let (ip, rest) := span_decimals body in
  let fp := match rest with
            | p :: r => if (p =? full_stop)%N then fst (span_decimals r)
                        else []
            | [] => []
            end in
  float_of_decimal neg (number (number 0 ip) fp)
                   (- Z.of_nat (List.length fp)).

End Text.

(* ================================================================== *)
(** * The tag scanner: [extract_features] *)
(* ================================================================== *)

Module Soup.
Import Text.

(** The tree [BeautifulSoup(html_content, "html.parser")] hands to the
    scanner: text, tags with their attributes, and the strings that
    [tag.text] leaves out, of which comments are the common case.  The
    parser gives the names of tags and of attributes in lower case. *)
Inductive node : Type :=
| NavigableString (s : string)
| Comment (s : string)
| Tag (name : string) (attrs : list (string * string)) (contents : list node).

(** A node and everything below it, in document order. *)
Fixpoint descendants (n : node) : list node :=
  match n with
  | Tag _ _ contents => n :: flat_map descendants contents
  | _ => [n]
  end.

Definition is_tag_named (name : string) (n : node) : bool :=
  match n with
  | Tag name' _ _ => String.eqb name' name
  | _ => false
  end.

(** [soup.find_all(name)] *)
Definition find_all (name : string) (soup : list node) : list node :=
  filter (is_tag_named name) (flat_map descendants soup).

(** [tag.text]: the text below the node, comments left out. *)
Fixpoint get_text (n : node) : string :=
  match n with
  | NavigableString s => s
  | Comment _ => ""
  | Tag _ _ contents => String.concat "" (map get_text contents)
  end.

(** [tag.get(key, default)] *)
Definition get (n : node) (key default : string) : string :=
  match n with
  | Tag _ attrs _ =>
      match dict_get attrs key with
      | Some v => v
      | None => default
      end
  | _ => default
  end.

(** One row of the table the scanner returns. *)
Record row : Type := mk_row {
  row_tag : string;
  row_name : string;
  row_value : pyval;
  row_unit : string;
  row_decimals : string }.

(** The text of a numeric element as the pattern sees it:
    [re.sub(r",", "", tag.text.strip())]. *)
Definition numeric_text (t : node) : string :=
  remove_commas (strip (get_text t)).

Definition nonfraction_row (t : node) : row :=
  {| row_tag := "nonfraction";
     row_name := get t "name" "Unknown";
     row_value := PFloat (py_float (numeric_text t));
     row_unit := get t "unitRef" "Unknown";
     row_decimals := get t "decimals" "Unknown" |}.

Definition nonnumeric_row (t : node) : row :=
  {| row_tag := "nonnumeric";
     row_name := get t "name" "Unknown";
     row_value := PStr (strip (get_text t));
     row_unit := "N/A";
     row_decimals := "N/A" |}.

(** The body of the first loop: [value] is [None] unless the text
    matches, and a row is appended only for a value.  Nothing in the
    body raises ([float] reads every text the pattern accepts), so the
    handler of the loop is never entered. *)
Definition nonfraction_step (data : list row) (t : node) : list row :=
  if re_match_numeral (numeric_text t)
  then data ++ [nonfraction_row t]
  else data.

(** The body of the second loop, which cannot raise either. *)
Definition nonnumeric_step (data : list row) (t : node) : list row :=
  data ++ [nonnumeric_row t].

(** [extract_features]: the rows of the returned frame, in order. *)
Definition extract_features (soup : list node) : list row :=
  let data := [] in
  let data := fold_left nonfraction_step (find_all "ix:nonfraction" soup) data in
  let data := fold_left nonnumeric_step (find_all "ix:nonnumeric" soup) data in
  data.

(** The scan the specification describes, for comparison: one pass over
    the elements in document order, each tagged element giving its fact
    where it stands. *)
Definition fact_in_place (n : node) : list row :=
  if is_tag_named "ix:nonfraction" n then
    if re_match_numeral (numeric_text n) then [nonfraction_row n] else []
  else if is_tag_named "ix:nonnumeric" n then [nonnumeric_row n]
  else [].

Definition scan_in_document_order (soup : list node) : list row :=
  flat_map fact_in_place (flat_map descendants soup).

(** What one numeric element contributes to the table. *)
Definition yield (t : node) : list row :=
  if re_match_numeral (numeric_text t) then [nonfraction_row t] else [].

(** A name without capital letters, as the parser gives them. *)
Fixpoint no_capital (s : string) : bool :=
  match s with
  | EmptyString => true
  | String c r => negb ((65 <=? byte c) && (byte c <=? 90))%N && no_capital r
  end.

Definition is_nonfraction_row (r : row) : bool :=
  String.eqb (row_tag r) "nonfraction".

Definition is_nonnumeric_row (r : row) : bool :=
  String.eqb (row_tag r) "nonnumeric".

(** The numerals of the specification: an optional minus sign, one or
    more digits, and optionally a point followed by one or more digits.
    [written neg ip fp] is the text of the numeral with the integer
    digits [ip] and the fraction digits [fp]; without fraction digits
    there is no point. *)
Definition all_decimal (l : list N) : Prop :=
  Forall (fun p => is_decimal p = true) l.

Definition sign_text (neg : bool) : list N :=
  if neg then [minus_sign] else [].

Definition fraction_text (fp : list N) : list N :=
  match fp with
  | [] => []
  | _ => full_stop :: fp
  end.

Definition written (neg : bool) (ip fp : list N) : list N :=
  sign_text neg ++ ip ++ fraction_text fp.

Definition decimal_numeral (text : list N) : Prop :=
  exists (neg : bool) (ip fp : list N),
    ip <> [] /\ all_decimal ip /\ all_decimal fp /\ text = written neg ip fp.

Definition digit_values (l : list N) : list Z :=
  map (fun p => match decimal_digit p with Some d => d | None => 0%Z end) l.

(** The number a numeral writes, as the nearest binary64 number: the
    digits [ip] before the point and [fp] after it. *)
Definition numeral_value (neg : bool) (ip fp : list N) : float :=
  float_of_decimal neg (number 0 (digit_values (ip ++ fp)))
                   (- Z.of_nat (List.length fp)).

(** A text that does not go on with a digit. *)
Definition starts_without_digit (text : list N) : Prop :=
  match text with
  | p :: _ => is_decimal p = false
  | [] => True
  end.

Definition new_line : string := String "010" EmptyString.


(** A fragment of a filing: the name of the registrant, then a figure. *)
Definition filing_fragment : list node :=
  [ Tag "ix:nonnumeric" [("name", "dei:EntityRegistrantName")]
        [NavigableString "Apple Inc."];
    Tag "ix:nonfraction"
        [("name", "us-gaap:Revenues"); ("unitref", "usd"); ("decimals", "-6")]
        [NavigableString " 274,515 "] ].

(** A figure whose text ends, once the commas are gone, with a line
    feed. *)
Definition figure_with_line_feed : list node :=
  [ Tag "ix:nonfraction" [("name", "us-gaap:Assets")]
        [NavigableString ("1" ++ new_line ++ ",")] ].

(** A figure written with the digits of another script: one, two and
    three in Arabic-Indic digits (U+0661, U+0662, U+0663). *)
Definition figure_in_another_script : list node :=
  [ Tag "ix:nonfraction" [("name", "us-gaap:Liabilities")]
        [NavigableString
           (string_of_list_ascii
              (map ascii_of_nat [217; 161; 217; 162; 217; 163]))] ].

(** ** Markup as the parser gives it *)

(** No attribute of the node has a capital letter in its name. *)
Definition parsed_node (n : node) : Prop :=
  match n with
  | Tag _ attrs _ => Forall (fun kv => no_capital (fst kv) = true) attrs
  | _ => True
  end.

Definition parsed (soup : list node) : Prop :=
  Forall parsed_node (flat_map descendants soup).

(** A text with no white space at either end. *)
Definition trimmed (s : string) : Prop :=
  ws_head s = None /\ ws_last (rev (list_ascii_of_string s)) = None.

(** The numeric elements whose text the pattern accepts. *)
Definition accepted (soup : list node) : list node :=
  filter (fun e => re_match_numeral (numeric_text e))
         (find_all "ix:nonfraction" soup).

End Soup.

(* ================================================================== *)
(** * The decoder of the assistant's answer: [json.loads] *)
(* ================================================================== *)

Module Json.
Import Text.

Definition is_ws (c : ascii) : bool :=
  let x := byte c in ((x =? 32) || (x =? 9) || (x =? 10) || (x =? 13))%N.

Fixpoint skip_ws (s : string) : string :=
  match s with
  | String c r => if is_ws c then skip_ws r else s
  | EmptyString => s
  end.

(** [strip_prefix p s] is the rest of [s] after [p], when [s] starts
    with [p]. *)
Fixpoint strip_prefix (p s : string) : option string :=
  match p, s with
  | EmptyString, _ => Some s
  | String a p', String b s' => if Ascii.eqb a b then strip_prefix p' s' else None
  | String _ _, EmptyString => None
  end.

Definition hex_value (c : ascii) : option N :=
  let x := byte c in
  if ((48 <=? x) && (x <=? 57))%N then Some (x - 48)%N
  else if ((97 <=? x) && (x <=? 102))%N then Some (x - 87)%N
  else if ((65 <=? x) && (x <=? 70))%N then Some (x - 55)%N
  else None.

(** Four hexadecimal digits and the rest of the text. *)
Definition hex4 (s : string) : option (N * string) :=
  match s with
  | String a (String b (String c (String d r))) =>
      match hex_value a, hex_value b, hex_value c, hex_value d with
      | Some x, Some y, Some z, Some w =>
          Some (((x * 16 + y) * 16 + z) * 16 + w, r)%N
      | _, _, _, _ => None
      end
  | _ => None
  end.

Definition chr (n : N) : ascii := ascii_of_N n.

(** A code point in UTF-8 (a lone surrogate in the same three-byte form). *)
Definition utf8_encode (cp : N) : string :=
  (if cp <? 128 then String (chr cp) ""
   else if cp <? 2048 then
     String (chr (192 + cp / 64)) (String (chr (128 + cp mod 64)) "")
   else if cp <? 65536 then
     String (chr (224 + cp / 4096))
       (String (chr (128 + (cp / 64) mod 64))
          (String (chr (128 + cp mod 64)) ""))
   else
     String (chr (240 + cp / 262144))
       (String (chr (128 + (cp / 4096) mod 64))
          (String (chr (128 + (cp / 64) mod 64))
             (String (chr (128 + cp mod 64)) ""))))%N.

Definition decode_error {A : Type} (msg : string) : result A :=
  inl (JSONDecodeError msg).

(** A [\uXXXX] escape, after the [u]: the code point, a high surrogate
    joined with the low surrogate escape that follows it. *)
Definition unicode_escape (s : string) : option (N * string) :=
  match hex4 s with
  | Some (cp, r) =>
      if ((55296 <=? cp) && (cp <=? 56319))%N then
        match strip_prefix "\u" r with
        | Some r2 =>
            match hex4 r2 with
            | Some (lo, r3) =>
                if ((56320 <=? lo) && (lo <=? 57343))%N
                then Some (65536 + ((cp - 55296) * 1024 + (lo - 56320)), r3)%N
                else Some (cp, r)
            | None => Some (cp, r)
            end
        | None => Some (cp, r)
        end
      else Some (cp, r)
  | None => None
  end.

(** The body of a string literal, after the opening quote: the decoded
    text and what follows the closing quote. *)
Fixpoint scanstring (fuel : nat) (s : string) : result (string * string) :=
  match fuel with
  | O => decode_error "Unterminated string"
  | S fuel' =>
      match s with
      | EmptyString => decode_error "Unterminated string"
      | String c r =>
          if Ascii.eqb c "034" then inr ("", r)
          else if (byte c <? 32)%N then decode_error "Invalid control character"
          else if Ascii.eqb c "\" then
            match r with
            | EmptyString => decode_error "Unterminated string"
            | String e r2 =>
                let simple (d : ascii) :=
                  match scanstring fuel' r2 with
                  | inr (t, rest) => inr (String d t, rest)
                  | inl x => inl x
                  end in
                if Ascii.eqb e "034" then simple "034"%char
                else if Ascii.eqb e "\" then simple "\"%char
                else if Ascii.eqb e "/" then simple "/"%char
                else if Ascii.eqb e "b" then simple "008"%char
                else if Ascii.eqb e "f" then simple "012"%char
                else if Ascii.eqb e "n" then simple "010"%char
                else if Ascii.eqb e "r" then simple "013"%char
                else if Ascii.eqb e "t" then simple "009"%char
                else if Ascii.eqb e "u" then
                  match unicode_escape r2 with
                  | Some (cp, r3) =>
                      match scanstring fuel' r3 with
                      | inr (t, rest) => inr ((utf8_encode cp ++ t)%string, rest)
                      | inl x => inl x
                      end
                  | None => decode_error "Invalid \uXXXX escape"
                  end
                else decode_error "Invalid \escape"
            end
          else
            match scanstring fuel' r with
            | inr (t, rest) => inr (String c t, rest)
            | inl x => inl x
            end
      end
  end.

(** A number at the head of the text, as the scanner's pattern reads it:
    an optional minus sign, an integer part (a lone zero, or digits that
    do not start with zero), an optional fraction (a point and digits)
    and an optional exponent (e or E, an optional sign, digits).  The
    value is an [int] when there is neither fraction nor exponent, a
    [float] otherwise. *)
Definition scan_number (s : string) : option (pyval * string) :=
  let (neg, body) := match s with
                     | String c r =>
                         if Ascii.eqb c "-" then (true, r) else (false, s)
                     | EmptyString => (false, s)
                     end in
  let int_part :=
    match body with
    | String c r =>
        if Ascii.eqb c "0" then Some ("0", r)
        else if is_digit c then Some (span_digits body)
        else None
    | EmptyString => None
    end in
  match int_part with
  | None => None
  | Some (ip, rest) =>
      let (fp, rest1) :=
        match rest with
        | String c r =>
            if Ascii.eqb c "." then
              let (ds, r') := span_digits r in
              if nonempty ds then (ds, r') else ("", rest)
            else ("", rest)
        | EmptyString => ("", rest)
        end in
      let '(ex, rest2) :=
        match rest1 with
        | String c r =>
            if Ascii.eqb c "e" || Ascii.eqb c "E" then
              let (eneg, r1) :=
                match r with
                | String d r' =>
                    if Ascii.eqb d "-" then (true, r')
                    else if Ascii.eqb d "+" then (false, r')
                    else (false, r)
                | EmptyString => (false, r)
                end in
              let (ds, r2) := span_digits r1 in
              if nonempty ds
              then (Some (if eneg then (- digits_value 0 ds)%Z
                          else digits_value 0 ds), r2)
              else (None, rest1)
            else (None, rest1)
        | EmptyString => (None, rest1)
        end in
      let m := digits_value (digits_value 0 ip) fp in
      match fp, ex with
      | EmptyString, None => Some (PInt (if neg then (- m)%Z else m), rest2)
      | _, _ =>
          let e := match ex with Some e => e | None => 0%Z end in
          Some (PFloat (float_of_decimal neg m
                          (e - Z.of_nat (String.length fp))), rest2)
      end
  end.

(** The scalars that are neither strings nor containers. *)
Definition scan_scalar (s : string) : result (pyval * string) :=
  match strip_prefix "null" s with
  | Some r => inr (PNone, r)
  | None =>
  match strip_prefix "true" s with
  | Some r => inr (PBool true, r)
  | None =>
  match strip_prefix "false" s with
  | Some r => inr (PBool false, r)
  | None =>
  match scan_number s with
  | Some vr => inr vr
  | None =>
  match strip_prefix "NaN" s with
  | Some r => inr (PFloat PrimFloat.nan, r)
  | None =>
  match strip_prefix "Infinity" s with
  | Some r => inr (PFloat PrimFloat.infinity, r)
  | None =>
  match strip_prefix "-Infinity" s with
  | Some r => inr (PFloat PrimFloat.neg_infinity, r)
  | None => decode_error "Expecting value"
  end end end end end end end.

(** [dict(pairs)] *)
Definition dict_of_pairs (pairs : list (string * pyval))
  : list (string * pyval) :=
  fold_left (fun d kv => dict_set d (fst kv) (snd kv)) pairs [].

(** One value at the head of the text, and the rest of the text.  The
    fuel is spent on nesting and on the items of a container. *)
Fixpoint scan_once (fuel : nat) (s : string) : result (pyval * string) :=
  match fuel with
  | O => decode_error "Expecting value"
  | S fuel' =>
      match s with
      | EmptyString => decode_error "Expecting value"
      | String c r =>
          if Ascii.eqb c "034" then
            match scanstring (String.length r) r with
            | inr (t, rest) => inr (PStr t, rest)
            | inl x => inl x
            end
          else if Ascii.eqb c "{" then
            match skip_ws r with
            | String d r' =>
                if Ascii.eqb d "}" then inr (PDict [], r')
                else if Ascii.eqb d "034" then
                  match scan_members fuel' r' with
                  | inr (pairs, rest) => inr (PDict (dict_of_pairs pairs), rest)
                  | inl x => inl x
                  end
                else decode_error "Expecting property name enclosed in double quotes"
            | EmptyString =>
                decode_error "Expecting property name enclosed in double quotes"
            end
          else if Ascii.eqb c "[" then
            match skip_ws r with
            | String d r' =>
                if Ascii.eqb d "]" then inr (PList [], r')
                else
                  match scan_elements fuel' (String d r') with
                  | inr (vs, rest) => inr (PList vs, rest)
                  | inl x => inl x
                  end
            | EmptyString => decode_error "Expecting value"
            end
          else scan_scalar s
      end
  end

(** The members of an object, after the quote that opens a key. *)
with scan_members (fuel : nat) (s : string)
  : result (list (string * pyval) * string) :=
  match fuel with
  | O => decode_error "Expecting value"
  | S fuel' =>
      match scanstring (String.length s) s with
      | inl x => inl x
      | inr (key, r) =>
          match skip_ws r with
          | String c r1 =>
              if Ascii.eqb c ":" then
                match scan_once fuel' (skip_ws r1) with
                | inl x => inl x
                | inr (v, r2) =>
                    match skip_ws r2 with
                    | String d r3 =>
                        if Ascii.eqb d "}" then inr ([(key, v)], r3)
                        else if Ascii.eqb d "," then
                          match skip_ws r3 with
                          | String q r4 =>
                              if Ascii.eqb q "034" then
                                match scan_members fuel' r4 with
                                | inr (pairs, rest) => inr ((key, v) :: pairs, rest)
                                | inl x => inl x
                                end
                              else decode_error
                                     "Expecting property name enclosed in double quotes"
                          | EmptyString =>
                              decode_error
                                "Expecting property name enclosed in double quotes"
                          end
                        else decode_error "Expecting ',' delimiter"
                    | EmptyString => decode_error "Expecting ',' delimiter"
                    end
                end
              else decode_error "Expecting ':' delimiter"
          | EmptyString => decode_error "Expecting ':' delimiter"
          end
      end
  end

(** The elements of an array, from the first character of an element. *)
with scan_elements (fuel : nat) (s : string) : result (list pyval * string) :=
  match fuel with
  | O => decode_error "Expecting value"
  | S fuel' =>
      match scan_once fuel' s with
      | inl x => inl x
      | inr (v, r) =>
          match skip_ws r with
          | String d r1 =>
              if Ascii.eqb d "]" then inr ([v], r1)
              else if Ascii.eqb d "," then
                match scan_elements fuel' (skip_ws r1) with
                | inr (vs, rest) => inr (v :: vs, rest)
                | inl x => inl x
                end
              else decode_error "Expecting ',' delimiter"
          | EmptyString => decode_error "Expecting ',' delimiter"
          end
      end
  end.

(** [json.loads(s)] for a [str]: one value, white space around it and
    nothing else.  The scanner gets all the fuel it can use, twice the
    length of the text.  The interpreter's limit on the depth of nesting
    is left out: the model decodes a text however deep it nests. *)
Definition loads (s : string) : result pyval :=
  match strip_prefix (String (chr 239) (String (chr 187) (String (chr 191) ""))) s with
  | Some _ => decode_error "Unexpected UTF-8 BOM (decode using utf-8-sig)"
  | None =>
      match scan_once (2 * String.length s + 2) (skip_ws s) with
      | inl x => inl x
      | inr (v, rest) =>
          match skip_ws rest with
          | EmptyString => inr v
          | String _ _ => decode_error "Extra data"
          end
      end
  end.

(** For writing payloads down: the text with a double quote in the place
    of each apostrophe. *)
Fixpoint quoted (s : string) : string :=
  match s with
  | EmptyString => EmptyString
  | String c r => String (if Ascii.eqb c "'" then "034"%char else c) (quoted r)
  end.

End Json.

(* ================================================================== *)
(** * The remote assistant: sessions, polling and clean-up *)
(* ================================================================== *)

Module Remote.

Inductive content_block : Type :=
| TextBlock (value : string)
| ImageFileBlock (image_file_id : string).

Record message : Type := mk_message {
  role : string;
  content : list content_block }.

Record run_object : Type := mk_run {
  run_id : string;
  status : string }.

(** The dictionary [create_financial_assistant] returns. *)
Record assistant_info : Type := mk_info {
  assistant_id : string;
  thread_id : string;
  file_id : string }.

(** What the remote service answers during the processing of one
    document: each call returns or raises.  [runs_retrieve n] is the
    answer to the poll number [n]. *)
Record service : Type := mk_service {
  files_create : result string;
  assistants_create : result string;
  threads_create : result string;
  runs_create : result run_object;
  runs_retrieve : nat -> result run_object;
  messages_list : result (list message);
  assistants_delete : result unit;
  files_delete : result unit }.

(** The effects of a run that an observer sees: the calls the service
    completed, the pauses and the lines printed. *)
Inductive event : Type :=
| FileCreated (id : string)
| AssistantCreated (id : string)
| ThreadCreated (id : string)
| RunCreated (thread assistant : string)
| Slept (seconds : nat)
| RunRetrieved (thread run : string)
| MessagesListed (thread : string)
| AssistantDeleted (id : string)
| FileDeleted (id : string)
| Printed (line : string).

(** How a computation ends: it returns, it raises, or it is still
    polling when the fuel of the model is spent. *)
Inductive outcome (A : Type) : Type :=
| Returned (a : A)
| Raised (e : exn)
| Polling.
Arguments Returned {A} a.
Arguments Raised {A} e.
Arguments Polling {A}.

(** A computation: the events so far and the way it ended. *)
Definition io (A : Type) : Type := (list event * outcome A)%type.

Definition ret {A : Type} (a : A) : io A := ([], Returned a).

Definition bind {A B : Type} (m : io A) (k : A -> io B) : io B :=
  match m with
  | (t, Returned a) => let (t', o) := k a in (t ++ t', o)
  | (t, Raised e) => (t, Raised e)
  | (t, Polling) => (t, Polling)
  end.

Notation "x <- m ;; k" := (bind m (fun x => k))
  (at level 61, m at next level, right associativity).
Notation "m ;; k" := (bind m (fun _ => k))
  (at level 61, right associativity).

(** A call to the service: the event is seen when the call returns. *)
Definition call {A : Type} (ev : A -> event) (reply : result A) : io A :=
  match reply with
  | inr a => ([ev a], Returned a)
  | inl e => ([], Raised e)
  end.

Definition emit (ev : event) : io unit := ([ev], Returned tt).

Definition trace {A : Type} (m : io A) : list event := fst m.
Definition ending {A : Type} (m : io A) : outcome A := snd m.

(** [create_financial_assistant] *)
Definition create_financial_assistant (svc : service) (file_path : string)
  : io assistant_info :=
  fid <- call FileCreated (files_create svc) ;;
  aid <- call AssistantCreated (assistants_create svc) ;;
  tid <- call ThreadCreated (threads_create svc) ;;
  ret {| assistant_id := aid; thread_id := tid; file_id := fid |}.

Definition default_data : pyval :=
  PDict
    [("document_info",
      PDict [("company_name", PStr "Unknown");
             ("fiscal_year", PStr "2023");
             ("document_type", PStr "10-K")]);
     ("income_statement",
      PDict [("revenue", PInt 0);
             ("operating_income", PInt 0);
             ("net_income", PInt 0)]);
     ("balance_sheet",
      PDict [("total_assets", PInt 0);
             ("total_liabilities", PInt 0);
             ("total_equity", PInt 0)]);
     ("cash_flow",
      PDict [("operating_cash_flow", PInt 0);
             ("investing_cash_flow", PInt 0);
             ("financing_cash_flow", PInt 0)])].

Definition still_running (r : run_object) : bool :=
  String.eqb (status r) "queued" || String.eqb (status r) "in_progress".

(** [json.loads(message.content[0].text.value)] *)
Definition message_payload (m : message) : result pyval :=
  match content m with
  | [] => inl IndexError
  | TextBlock value :: _ => Json.loads value
  | ImageFileBlock _ :: _ => inl (AttributeError "text")
  end.

(** The loop over [messages.data]: the first message of the assistant
    decides. *)
Fixpoint first_assistant_message (data : list message) : io pyval :=
  match data with
  | [] => ret default_data
  | m :: rest =>
      if String.eqb (role m) "assistant" then
        match message_payload m with
        | inr v => ret v
        | inl e =>
            emit (Printed ("Error parsing response: " ++ exn_text e)) ;;
            ret default_data
        end
      else first_assistant_message rest
  end.

Section Extraction.
Variable svc : service.
Variable assistant_info0 : assistant_info.

(** The polling loop; [n] counts the polls made so far. *)
Fixpoint poll (fuel n : nat) (r : run_object) : io run_object :=
  if still_running r then
    match fuel with
    | O => ([], Polling)
    | S fuel' =>
        emit (Slept 2) ;;
        r' <- call (fun _ => RunRetrieved (thread_id assistant_info0) (run_id r))
                   (runs_retrieve svc n) ;;
        poll fuel' (S n) r'
    end
  else ret r.

(** [extract_financial_data] *)
Definition extract_financial_data (fuel : nat) : io pyval :=
  r <- call (fun _ => RunCreated (thread_id assistant_info0)
                                 (assistant_id assistant_info0))
            (runs_create svc) ;;
  poll fuel 0 r ;;
  messages <- call (fun _ => MessagesListed (thread_id assistant_info0))
                   (messages_list svc) ;;
  call (fun _ => AssistantDeleted (assistant_id assistant_info0))
       (assistants_delete svc) ;;
  call (fun _ => FileDeleted (file_id assistant_info0))
       (files_delete svc) ;;
  first_assistant_message messages.

End Extraction.

(** How often a resource was released in a trace. *)
Definition is_assistant_deleted (id : string) (ev : event) : bool :=
  match ev with AssistantDeleted id' => String.eqb id' id | _ => false end.

Definition is_file_deleted (id : string) (ev : event) : bool :=
  match ev with FileDeleted id' => String.eqb id' id | _ => false end.

Definition releases_of_assistant (id : string) (t : list event) : nat :=
  List.length (filter (is_assistant_deleted id) t).

Definition releases_of_file (id : string) (t : list event) : nat :=
  List.length (filter (is_file_deleted id) t).

Definition is_release (ev : event) : bool :=
  match ev with
  | AssistantDeleted _ | FileDeleted _ => true
  | _ => false
  end.

(** The poll number [k] ends the polling: it raises, or the run it
    shows is neither queued nor in progress. *)
Definition settles (svc : service) (k : nat) : Prop :=
  match runs_retrieve svc k with
  | inl _ => True
  | inr r => still_running r = false
  end.

(** The first message of the assistant, if there is one. *)
Definition assistant_message (data : list message) : option message :=
  find (fun m => String.eqb (role m) "assistant") data.

(** The record of the canonical schema: the four groups, each with its
    fields. *)
Definition has_fields (v : pyval) (group : string) (fields : list string)
  : bool :=
  match getitem v group with
  | inr (PDict g) =>
      forallb (fun f => match dict_get g f with Some _ => true | None => false end)
              fields
  | _ => false
  end.

Definition canonical (v : pyval) : bool :=
  has_fields v "document_info" ["company_name"; "fiscal_year"; "document_type"]
  && has_fields v "income_statement" ["revenue"; "operating_income"; "net_income"]
  && has_fields v "balance_sheet" ["total_assets"; "total_liabilities"; "total_equity"]
  && has_fields v "cash_flow"
       ["operating_cash_flow"; "investing_cash_flow"; "financing_cash_flow"].

(** ** Services and sessions for the examples *)

Definition session : assistant_info :=
  {| assistant_id := "asst_1"; thread_id := "thread_1"; file_id := "file_1" |}.

(** A service that works: the run is queued, in progress at the first
    poll and completed at the second; the thread then holds the request
    and the answer [payload] of the assistant. *)
Definition answering (payload : string) : service :=
  {| files_create := inr "file_1";
     assistants_create := inr "asst_1";
     threads_create := inr "thread_1";
     runs_create := inr {| run_id := "run_1"; status := "queued" |};
     runs_retrieve := fun n =>
       inr {| run_id := "run_1";
              status := if Nat.eqb n 0 then "in_progress" else "completed" |};
     messages_list :=
       inr [ {| role := "assistant"; content := [TextBlock payload] |};
             {| role := "user"; content := [TextBlock "Please analyze"] |} ];
     assistants_delete := inr tt;
     files_delete := inr tt |}.

(** A service that fails when the run is started. *)
Definition unreachable : service :=
  {| files_create := inr "file_1";
     assistants_create := inr "asst_1";
     threads_create := inr "thread_1";
     runs_create := inl (APIError "Connection error.");
     runs_retrieve := fun _ => inl (APIError "Connection error.");
     messages_list := inl (APIError "Connection error.");
     assistants_delete := inr tt;
     files_delete := inr tt |}.

(** An answer with three of the four groups. *)
Definition three_groups : string :=
  Json.quoted
    ("{'document_info': {'company_name': 'Apple Inc.', 'fiscal_year': '2022',"
     ++ " 'document_type': '10-K'},"
     ++ " 'income_statement': {'revenue': 394328, 'operating_income': 119437,"
     ++ " 'net_income': 99803},"
     ++ " 'balance_sheet': {'total_assets': 352755, 'total_liabilities': 302083,"
     ++ " 'total_equity': 50672}}").

(** The record that answer decodes to. *)
Definition three_groups_record : pyval :=
  PDict
    [("document_info",
      PDict [("company_name", PStr "Apple Inc.");
             ("fiscal_year", PStr "2022");
             ("document_type", PStr "10-K")]);
     ("income_statement",
      PDict [("revenue", PInt 394328);
             ("operating_income", PInt 119437);
             ("net_income", PInt 99803)]);
     ("balance_sheet",
      PDict [("total_assets", PInt 352755);
             ("total_liabilities", PInt 302083);
             ("total_equity", PInt 50672)])].

(** A whole answer for a fiscal year, and the record it decodes to. *)
Definition whole_answer (year : string) : string :=
  Json.quoted
    ("{'document_info': {'company_name': 'Apple Inc.', 'fiscal_year': '"
     ++ year ++ "', 'document_type': '10-K'},"
     ++ " 'income_statement': {'revenue': 100, 'operating_income': 30,"
     ++ " 'net_income': 20},"
     ++ " 'balance_sheet': {'total_assets': 300, 'total_liabilities': 200,"
     ++ " 'total_equity': 100},"
     ++ " 'cash_flow': {'operating_cash_flow': 40, 'investing_cash_flow': -10,"
     ++ " 'financing_cash_flow': -20}}").

Definition whole_record (year : string) : pyval :=
  PDict
    [("document_info",
      PDict [("company_name", PStr "Apple Inc.");
             ("fiscal_year", PStr year);
             ("document_type", PStr "10-K")]);
     ("income_statement",
      PDict [("revenue", PInt 100);
             ("operating_income", PInt 30);
             ("net_income", PInt 20)]);
     ("balance_sheet",
      PDict [("total_assets", PInt 300);
             ("total_liabilities", PInt 200);
             ("total_equity", PInt 100)]);
     ("cash_flow",
      PDict [("operating_cash_flow", PInt 40);
             ("investing_cash_flow", PInt (-10));
             ("financing_cash_flow", PInt (-20))])].

(** An answer cut short. *)
Definition truncated_answer : string :=
  Json.quoted "{'document_info': {'company_name': 'Apple Inc.', 'fiscal_ye".

(** ** Counting what a run does *)

Definition is_sleep (ev : event) : bool :=
  match ev with Slept _ => true | _ => false end.

(** The events of the polling loop. *)
Definition is_polling (ev : event) : bool :=
  match ev with
  | Slept _ | RunRetrieved _ _ => true
  | _ => false
  end.

(** The seconds a run spent in [time.sleep]. *)
Definition seconds_slept (t : list event) : nat :=
  fold_right (fun ev n => match ev with Slept s => s + n | _ => n end) 0 t.

(** What [k] turns of the polling loop do when the run shows the
    states [runs 0], [runs 1], ... one after the other: a pause of two
    seconds, then the retrieval under the id of the run last seen. *)
Definition polling_events (thread : string) (runs : nat -> run_object)
  (k : nat) : list event :=
  flat_map (fun i => [Slept 2; RunRetrieved thread (run_id (runs i))])
           (seq 0 k).

Definition is_assistant_created (id : string) (ev : event) : bool :=
  match ev with AssistantCreated id' => String.eqb id' id | _ => false end.

Definition is_file_created (id : string) (ev : event) : bool :=
  match ev with FileCreated id' => String.eqb id' id | _ => false end.

Definition creations_of_assistant (id : string) (t : list event) : nat :=
  List.length (filter (is_assistant_created id) t).

Definition creations_of_file (id : string) (t : list event) : nat :=
  List.length (filter (is_file_created id) t).

(** An event that is no creation of a file, an assistant or a thread. *)
Definition no_creation (ev : event) : Prop :=
  match ev with
  | FileCreated _ | AssistantCreated _ | ThreadCreated _ => False
  | _ => True
  end.

Definition is_thread_created (ev : event) : bool :=
  match ev with ThreadCreated _ => true | _ => false end.

(** A service whose run never leaves the state in progress. *)
Definition stalled : service :=
  {| files_create := inr "file_1";
     assistants_create := inr "asst_1";
     threads_create := inr "thread_1";
     runs_create := inr {| run_id := "run_1"; status := "queued" |};
     runs_retrieve := fun _ => inr {| run_id := "run_1"; status := "in_progress" |};
     messages_list := inr [];
     assistants_delete := inr tt;
     files_delete := inr tt |}.

(** A service that answers and then refuses to delete the assistant. *)
Definition undeletable (payload : string) : service :=
  {| files_create := inr "file_1";
     assistants_create := inr "asst_1";
     threads_create := inr "thread_1";
     runs_create := inr {| run_id := "run_1"; status := "completed" |};
     runs_retrieve := fun _ => inr {| run_id := "run_1"; status := "completed" |};
     messages_list :=
       inr [ {| role := "assistant"; content := [TextBlock payload] |} ];
     assistants_delete := inl (APIError "Internal server error");
     files_delete := inr tt |}.

(** The states the run of [answering] goes through. *)
Definition answering_run (n : nat) : run_object :=
  {| run_id := "run_1";
     status := match n with
               | 0 => "queued"
               | 1 => "in_progress"
               | _ => "completed"
               end |}.

End Remote.

(* ================================================================== *)
(** * The relational store *)
(* ================================================================== *)

Module Sqlite.
Import Text.
Local Open Scope Z_scope.

(** ** Values, parameters and column affinities *)

(** The storage classes the pipeline can produce (no [bytes] value
    reaches the store, so there is no BLOB). *)
Inductive sqlval : Type :=
| SNull
| SInt (n : Z)
| SReal (f : float)
| SText (s : string).

Definition int64_min : Z := - 2 ^ 63.
Definition int64_max : Z := 2 ^ 63 - 1.

Definition unsupported_type {A : Type} : result A :=
  inl (ProgrammingError "Error binding parameter: type is not supported").

(** A lone surrogate in a text, which [json.loads] lets through and
    UTF-8 has no form for: in the bytes of the model, 237 followed by a
    byte from 160 to 191. *)
Fixpoint has_surrogate (s : string) : bool :=
  match s with
  | String a r =>
      match r with
      | String b _ =>
          ((byte a =? 237) && (160 <=? byte b) && (byte b <=? 191))%N
          || has_surrogate r
      | EmptyString => false
      end
  | EmptyString => false
  end.

(** The binding of one Python value to a [?] of a statement. *)
Definition bind_param (v : pyval) : result sqlval :=
  match v with
  | PNone => inr SNull
  | PBool b => inr (SInt (if b then 1 else 0))
  | PInt n =>
      if (int64_min <=? n) && (n <=? int64_max) then inr (SInt n)
      else inl OverflowError
  | PFloat f => inr (if PrimFloat.is_nan f then SNull else SReal f)
  | PStr s => if has_surrogate s then inl UnicodeEncodeError else inr (SText s)
  | PList _ => unsupported_type
  | PDict _ => unsupported_type
  end.

Definition int_to_text (n : Z) : string :=
  NilZero.string_of_int (Z.to_int n).

(** [floor (log10 (num / den))] for positive [num] and [den]: an estimate
    from the binary logarithms, then the exact comparison. *)
Definition floor_log10 (num den : Z) : Z :=
  let est := (Z.log2 num - Z.log2 den) * 30103 / 100000 in
  let reaches (k : Z) : bool :=
    if 0 <=? k then den * 10 ^ k <=? num else den <=? num * 10 ^ (- k) in
  if reaches (est + 2) then est + 2
  else if reaches (est + 1) then est + 1
  else if reaches est then est
  else if reaches (est - 1) then est - 1
  else est - 2.

Fixpoint drop_zeros (rev_digits : list ascii) : list ascii :=
  match rev_digits with
  | c :: r => if Ascii.eqb c "0" then drop_zeros r else rev_digits
  | [] => []
  end.

(** The digits after the point: trailing zeros go, one digit stays. *)
Definition fraction_digits (ds : string) : string :=
  match rev (drop_zeros (rev (list_ascii_of_string ds))) with
  | [] => "0"
  | l => string_of_list_ascii l
  end.

Fixpoint zeros (n : nat) : string :=
  match n with
  | O => EmptyString
  | S n' => String "0" (zeros n')
  end.

(** The exact value of a finite real, as a fraction. *)
Definition exact_value (m : positive) (e : Z) : Z * Z :=
  if 0 <=? e then (Zpos m * 2 ^ e, 1) else (Zpos m, 2 ^ (- e)).

(** The text form of a REAL, fifteen significant digits with a decimal
    point always shown (the engine's [%!.15g]); the decimal digits are
    those of the exact binary value, rounded half up.  The engine gets
    its digits by arithmetic in extended precision and can differ in the
    last digit for a value within its rounding error of a tie. *)
Definition real_to_text (f : float) : string :=
  match Prim2SF f with
  | S754_nan => "NaN"
  | S754_zero _ => "0.0"
  | S754_infinity s => if s then "-Inf" else "Inf"
  | S754_finite s m e =>
      let (num, den) := exact_value m e in
      let e10 := floor_log10 num den in
      let (n2, d2) := if 14 <=? e10 then (num, den * 10 ^ (e10 - 14))
                      else (num * 10 ^ (14 - e10), den) in
      let d := (2 * n2 + d2) / (2 * d2) in
      let (d, e10) := if 10 ^ 15 <=? d then (d / 10, e10 + 1) else (d, e10) in
      let ds := NilEmpty.string_of_uint (N.to_uint (Z.to_N d)) in
      let exponent_sign := if e10 <? 0 then "-" else "+" in
      let exponent_pad := if Z.abs e10 <? 10 then "0" else "" in
      let body :=
        if (e10 <? -4) || (15 <=? e10) then
          (substring 0 1 ds ++ "." ++ fraction_digits (substring 1 14 ds)
           ++ "e" ++ exponent_sign ++ exponent_pad
           ++ int_to_text (Z.abs e10))%string
        else if 0 <=? e10 then
          (substring 0 (Z.to_nat (e10 + 1)) ds ++ "."
           ++ fraction_digits (substring (Z.to_nat (e10 + 1)) 15 ds))%string
        else
          ("0." ++ zeros (Z.to_nat (- e10 - 1)) ++ fraction_digits ds)%string in
      if s then String "-" body else body
  end.

Definition is_space (c : ascii) : bool :=
  let x := byte c in ((x =? 32) || ((9 <=? x) && (x <=? 13)))%N.

Fixpoint skip_spaces (s : string) : string :=
  match s with
  | String c r => if is_space c then skip_spaces r else s
  | EmptyString => s
  end.

(** How much of a text reads as a number: nothing, all of it, or a
    part at its start. *)
Inductive extent : Type := NotNumber | WholeText | PrefixOnly.

(** What a text reads as. *)
Record reading : Type := mk_reading {
  read_extent : extent;
  integral : bool;     (* neither a point nor an exponent was read *)
  negative : bool;
  mantissa : Z;        (* the digits read, as one integer *)
  exponent10 : Z }.    (* the power of ten that goes with them *)

(** The engine's reading of a text as a number: white space, a sign,
    digits with an optional point, an optional exponent, white space. *)
Definition read_number (s : string) : reading :=
  let s1 := skip_spaces s in
  let (neg, s2) := match s1 with
                   | String c r =>
                       if Ascii.eqb c "-" then (true, r)
                       else if Ascii.eqb c "+" then (false, r)
                       else (false, s1)
                   | EmptyString => (false, s1)
                   end in
  let (ip, s3) := span_digits s2 in
  let '(fp, s4, pointed) :=
    match s3 with
    | String c r =>
        if Ascii.eqb c "." then let (ds, r') := span_digits r in (ds, r', true)
        else (EmptyString, s3, false)
    | EmptyString => (EmptyString, s3, false)
    end in
  if negb (nonempty ip || nonempty fp) then
    {| read_extent := NotNumber; integral := true; negative := false;
       mantissa := 0; exponent10 := 0 |}
  else
    let '(ex, s5, complete) :=
      match s4 with
      | String c r =>
          if Ascii.eqb c "e" || Ascii.eqb c "E" then
            let (eneg, r1) := match r with
                              | String d r' =>
                                  if Ascii.eqb d "-" then (true, r')
                                  else if Ascii.eqb d "+" then (false, r')
                                  else (false, r)
                              | EmptyString => (false, r)
                              end in
            let (ds, r2) := span_digits r1 in
            if nonempty ds
            then (Some (if eneg then - digits_value 0 ds else digits_value 0 ds),
                  r2, true)
            else (None, s4, false)
          else (None, s4, true)
      | EmptyString => (None, s4, true)
      end in
    let at_end := match skip_spaces s5 with
                  | EmptyString => true
                  | String _ _ => false
                  end in
    {| read_extent := if complete && at_end then WholeText else PrefixOnly;
       integral := negb pointed && match ex with None => true | Some _ => false end;
       negative := neg;
       mantissa := digits_value (digits_value 0 ip) fp;
       exponent10 := match ex with Some e => e | None => 0 end
                     - Z.of_nat (String.length fp) |}.

Definition real_of_reading (x : reading) : float :=
  float_of_decimal (negative x) (mantissa x) (exponent10 x).

Definition signed_integer (x : reading) : Z :=
  if negative x then - mantissa x else mantissa x.

(** TEXT affinity: numbers are stored in their text form. *)
Definition text_affinity (v : sqlval) : sqlval :=
  match v with
  | SInt n => SText (int_to_text n)
  | SReal f => SText (real_to_text f)
  | _ => v
  end.

(** A real with no fraction is kept as an integer in a REAL column and
    read back as a real, which turns a negative zero into zero. *)
Definition stored_real (f : float) : sqlval :=
  SReal (if PrimFloat.is_zero f then PrimFloat.zero else f).

(** REAL affinity: a text that reads, all of it, as a number is stored
    as that number, and integers are stored as reals. *)
Definition real_affinity (v : sqlval) : sqlval :=
  match v with
  | SInt n => SReal (float_of_Z n)
  | SReal f => stored_real f
  | SText s =>
      match read_extent (read_number s) with
      | WholeText => stored_real (real_of_reading (read_number s))
      | _ => v
      end
  | SNull => v
  end.

(** ** Tables, connections and transactions *)

(** A row of [documents]; the three text columns are NOT NULL and have
    TEXT affinity, so a stored row holds texts.  The column [created_at]
    takes the clock's value and plays no part in what follows. *)
Record document_row : Type := mk_document {
  id : Z;
  company_name : string;
  fiscal_year : string;
  document_type : string }.

(** The three statement tables have one shape: a key, the document and
    three REAL columns. *)
Inductive statement : Type := income_statements | balance_sheets | cash_flows.

Record statement_row : Type := mk_statement {
  row_id : Z;
  document_id : Z;
  first_metric : sqlval;
  second_metric : sqlval;
  third_metric : sqlval }.

(** The columns by their names. *)
Definition revenue := first_metric.
Definition operating_income := second_metric.
Definition net_income := third_metric.
Definition total_assets := first_metric.
Definition total_liabilities := second_metric.
Definition total_equity := third_metric.
Definition operating_cash_flow := first_metric.
Definition investing_cash_flow := second_metric.
Definition financing_cash_flow := third_metric.

(** The group of the payload a table is filled from, and its keys. *)
Definition group_key (k : statement) : string :=
  match k with
  | income_statements => "income_statement"
  | balance_sheets => "balance_sheet"
  | cash_flows => "cash_flow"
  end.

Definition metric_keys (k : statement) : string * string * string :=
  match k with
  | income_statements => ("revenue", "operating_income", "net_income")
  | balance_sheets => ("total_assets", "total_liabilities", "total_equity")
  | cash_flows =>
      ("operating_cash_flow", "investing_cash_flow", "financing_cash_flow")
  end.

(** The content of the database file; the counters are the engine's
    record of the largest key each AUTOINCREMENT table has given out. *)
Record tables : Type := mk_tables {
  documents : list document_row;
  income_rows : list statement_row;
  balance_rows : list statement_row;
  cash_rows : list statement_row;
  documents_seq : Z;
  income_seq : Z;
  balance_seq : Z;
  cash_seq : Z }.

Definition rows_of (t : tables) (k : statement) : list statement_row :=
  match k with
  | income_statements => income_rows t
  | balance_sheets => balance_rows t
  | cash_flows => cash_rows t
  end.

Definition seq_of (t : tables) (k : statement) : Z :=
  match k with
  | income_statements => income_seq t
  | balance_sheets => balance_seq t
  | cash_flows => cash_seq t
  end.

Definition add_document (t : tables) (r : document_row) : tables :=
  {| documents := documents t ++ [r];
     income_rows := income_rows t;
     balance_rows := balance_rows t;
     cash_rows := cash_rows t;
     documents_seq := id r;
     income_seq := income_seq t;
     balance_seq := balance_seq t;
     cash_seq := cash_seq t |}.

Definition add_statement (t : tables) (k : statement) (r : statement_row)
  : tables :=
  match k with
  | income_statements =>
      {| documents := documents t;
         income_rows := income_rows t ++ [r];
         balance_rows := balance_rows t;
         cash_rows := cash_rows t;
         documents_seq := documents_seq t;
         income_seq := row_id r;
         balance_seq := balance_seq t;
         cash_seq := cash_seq t |}
  | balance_sheets =>
      {| documents := documents t;
         income_rows := income_rows t;
         balance_rows := balance_rows t ++ [r];
         cash_rows := cash_rows t;
         documents_seq := documents_seq t;
         income_seq := income_seq t;
         balance_seq := row_id r;
         cash_seq := cash_seq t |}
  | cash_flows =>
      {| documents := documents t;
         income_rows := income_rows t;
         balance_rows := balance_rows t;
         cash_rows := cash_rows t ++ [r];
         documents_seq := documents_seq t;
         income_seq := income_seq t;
         balance_seq := balance_seq t;
         cash_seq := row_id r |}
  end.

(** A connection: the file as committed, the file as the open
    transaction sees it, and the foreign-key switch. *)
Record connection : Type := mk_connection {
  committed : tables;
  working : tables;
  foreign_keys : bool }.

Definition connect (file : tables) : connection :=
  {| committed := file; working := file; foreign_keys := false |}.

(** [PRAGMA foreign_keys = ON] *)
Definition pragma_foreign_keys_on (c : connection) : connection :=
  {| committed := committed c; working := working c; foreign_keys := true |}.

Definition commit (c : connection) : connection :=
  {| committed := working c; working := working c;
     foreign_keys := foreign_keys c |}.

Definition rollback (c : connection) : connection :=
  {| committed := committed c; working := committed c;
     foreign_keys := foreign_keys c |}.

(** Closing drops what was not committed. *)
Definition close (c : connection) : tables := committed c.

Definition with_working (c : connection) (t : tables) : connection :=
  {| committed := committed c; working := t; foreign_keys := foreign_keys c |}.

Definition not_null (table column : string) (v : sqlval) : result string :=
  match text_affinity v with
  | SText s => inr s
  | _ => inl (IntegrityError
                ("NOT NULL constraint failed: " ++ table ++ "." ++ column))
  end.

(** Binding results thread the first exception through. *)
Definition and_then {A B : Type} (r : result A) (k : A -> result B)
  : result B :=
  match r with
  | inl e => inl e
  | inr a => k a
  end.

Notation "'let*' x := r 'in' k" := (and_then r (fun x => k))
  (at level 10, x name, r at level 100, k at level 200).

(** The key AUTOINCREMENT gives next: one more than the largest key the
    table ever held; the insertion fails once that was the largest
    integer. *)
Definition next_key (seq : Z) : result Z :=
  if int64_max <=? seq then inl (OperationalError "database or disk is full")
  else inr (seq + 1).

(** [INSERT INTO documents (company_name, fiscal_year, document_type)
    VALUES (?, ?, ?)]: the new connection state and [lastrowid]. *)
Definition insert_document (c : connection) (p1 p2 p3 : pyval)
  : result (connection * Z) :=
  let* v1 := bind_param p1 in
  let* v2 := bind_param p2 in
  let* v3 := bind_param p3 in
  let* name := not_null "documents" "company_name" v1 in
  let* year := not_null "documents" "fiscal_year" v2 in
  let* type := not_null "documents" "document_type" v3 in
  let* new_id := next_key (documents_seq (working c)) in
  inr (with_working c
         (add_document (working c)
            {| id := new_id; company_name := name;
               fiscal_year := year; document_type := type |}),
       new_id).

Definition document_exists (t : tables) (doc : Z) : bool :=
  existsb (fun d => id d =? doc) (documents t).

(** [INSERT INTO <table> (document_id, ..., ..., ...) VALUES (?, ?, ?, ?)]
    for one of the three statement tables. *)
Definition insert_statement (c : connection) (k : statement)
  (doc : Z) (p1 p2 p3 : pyval) : result connection :=
  let* v0 := bind_param (PInt doc) in
  let* v1 := bind_param p1 in
  let* v2 := bind_param p2 in
  let* v3 := bind_param p3 in
  let* new_id := next_key (seq_of (working c) k) in
  if foreign_keys c && negb (document_exists (working c) doc)
  then inl (IntegrityError "FOREIGN KEY constraint failed")
  else
    inr (with_working c
           (add_statement (working c) k
              {| row_id := new_id;
                 document_id := doc;
                 first_metric := real_affinity v1;
                 second_metric := real_affinity v2;
                 third_metric := real_affinity v3 |})).

(** ** [init_database] *)

(** The file is removed and the four tables are created empty. *)
Definition init_database : tables :=
  {| documents := []; income_rows := []; balance_rows := []; cash_rows := [];
     documents_seq := 0; income_seq := 0; balance_seq := 0; cash_seq := 0 |}.

(** ** [save_financial_data]: the relational phase *)

(** The statements of one document run against the connection; an
    exception leaves the connection as the statements before it made it. *)
Definition tx (A : Type) : Type := connection -> connection * result A.

Definition tx_bind {A B : Type} (m : tx A) (k : A -> tx B) : tx B :=
  fun c =>
    match m c with
    | (c', inr a) => k a c'
    | (c', inl e) => (c', inl e)
    end.

Notation "x <-- m ; k" := (tx_bind m (fun x => k))
  (at level 61, m at next level, right associativity).

(** An expression of the program: it has a value or raises, and leaves
    the connection alone. *)
Definition eval {A : Type} (r : result A) : tx A := fun c => (c, r).

(** A statement of the engine: on an error nothing of it is kept. *)
Definition execute {A B : Type} (stmt : connection -> result A)
  (new_state : A -> connection) (value : A -> B) : tx B :=
  fun c =>
    match stmt c with
    | inr a => (new_state a, inr (value a))
    | inl e => (c, inl e)
    end.

(** The three values of one group of the payload, and their insertion. *)
Definition insert_group (k : statement) (doc : Z) (data : pyval) : tx unit :=
  let '(k1, k2, k3) := metric_keys k in
  p1 <-- eval (let* g := getitem data (group_key k) in getitem g k1) ;
  p2 <-- eval (let* g := getitem data (group_key k) in getitem g k2) ;
  p3 <-- eval (let* g := getitem data (group_key k) in getitem g k3) ;
  execute (fun c => insert_statement c k doc p1 p2 p3) (fun c' => c')
          (fun _ => tt).

(** The four insertions of the inner [try]. *)
Definition document_statements (doc_info data : pyval) : tx unit :=
  p1 <-- eval (getitem doc_info "company_name") ;
  p2 <-- eval (getitem doc_info "fiscal_year") ;
  p3 <-- eval (getitem doc_info "document_type") ;
  doc <-- execute (fun c => insert_document c p1 p2 p3) fst snd ;
  _ <-- insert_group income_statements doc data ;
  _ <-- insert_group balance_sheets doc data ;
  insert_group cash_flows doc data.

(** The body of the inner [try], down to the commit. *)
Definition write_document (doc_info data : pyval) : tx unit :=
  _ <-- document_statements doc_info data ;
  fun c => (commit c, inr tt).

(** The line a handler prints. *)
Definition failure_line (filename : string) (e : exn) : string :=
  if is_sqlite_error e
  then "Error saving data for " ++ filename ++ ": " ++ exn_text e
  else "Unexpected error processing " ++ filename ++ ": " ++ exn_text e.

(** The loop over [results.items()]: the connection, the lines printed
    and the exception that left the loop, if one did.  The look-up of
    [document_info] stands before the inner [try]. *)
Fixpoint save_documents (items : list (string * pyval)) (c : connection)
  (log : list string) : connection * list string * option exn :=
  match items with
  | [] => (c, log, None)
  | (filename, data) :: rest =>
      match getitem data "document_info" with
      | inl e => (c, log, Some e)
      | inr doc_info =>
          match write_document doc_info data c with
          | (c', inr _) => save_documents rest c' log
          | (c', inl e) =>
              save_documents rest (rollback c')
                             (log ++ [failure_line filename e])
          end
      end
  end.

(** [save_financial_data], from the connection to its closing: the file
    afterwards, the lines printed, and the exception raised, if any.
    The snapshot files the function writes next are derived from the
    batch in memory and leave the store alone; they are not modelled. *)
Definition save_financial_data (results : list (string * pyval))
  (file : tables) : tables * list string * option exn :=
  let c := pragma_foreign_keys_on (connect file) in
  match save_documents results c [] with
  | (c', log, None) => (close (commit c'), log, None)
  | (c', log, Some e) => (close c', log, Some e)
  end.

(** ** The shape of a transaction *)

(** A step that leaves the committed file and the switch alone. *)
Definition keeps_committed {A : Type} (m : tx A) : Prop :=
  forall c c' r, m c = (c', r) ->
    committed c' = committed c /\ foreign_keys c' = foreign_keys c.

(** The rows a document adds when all four insertions pass. *)
Definition with_document (t : tables) (d : document_row)
  (x1 x2 x3 : statement_row) : tables :=
  add_statement
    (add_statement
       (add_statement (add_document t d) income_statements x1)
       balance_sheets x2)
    cash_flows x3.

(** Between two documents no transaction is open. *)
Definition at_rest (c : connection) : Prop :=
  working c = committed c /\ foreign_keys c = true.

(** ** What the store must look like *)

(** [t'] holds all that [t] holds, unchanged and in the same places. *)
Definition extends (t t' : tables) : Prop :=
  (exists ds, documents t' = documents t ++ ds) /\
  forall k, exists xs, rows_of t' k = rows_of t k ++ xs.

(** No document is partially written: a document of [documents] has
    exactly one row in each statement table, every statement row belongs
    to a document, and no key of [documents] is used twice. *)
Definition fully_written (t : tables) : Prop :=
  NoDup (map id (documents t)) /\
  forall k,
    (forall d, In d (documents t) ->
       count_occ Z.eq_dec (map document_id (rows_of t k)) (id d) = 1%nat) /\
    (forall x, In x (rows_of t k) ->
       exists d, In d (documents t) /\ id d = document_id x).

(** The form of a store the pipeline produces: the statement tables
    follow [documents] row by row, and the keys given out are distinct
    and recorded by the counter. *)
Record sound (t : tables) : Prop := mk_sound {
  sound_rows : forall k, map document_id (rows_of t k) = map id (documents t);
  sound_keys : NoDup (map id (documents t));
  sound_seq : Forall (fun d => id d <= documents_seq t) (documents t) }.

(** ** Which documents can be written *)

Definition bindable (v : pyval) : bool :=
  match bind_param v with
  | inr _ => true
  | inl _ => false
  end.

(** A value for a NOT NULL text column: it binds, and not to NULL. *)
Definition text_bindable (v : pyval) : bool :=
  match bind_param v with
  | inr SNull => false
  | inr _ => true
  | inl _ => false
  end.

Definition field (data : pyval) (group key : string) : result pyval :=
  let* g := getitem data group in getitem g key.

Definition group_storable (data : pyval) (k : statement) : bool :=
  let '(k1, k2, k3) := metric_keys k in
  match field data (group_key k) k1, field data (group_key k) k2,
        field data (group_key k) k3 with
  | inr p1, inr p2, inr p3 => bindable p1 && bindable p2 && bindable p3
  | _, _, _ => false
  end.

(** A document persistence does not fail on: the three texts of
    [document_info] are there and bind to texts, and the three figures of
    each group are there and bind. *)
Definition storable (data : pyval) : bool :=
  match field data "document_info" "company_name",
        field data "document_info" "fiscal_year",
        field data "document_info" "document_type" with
  | inr p1, inr p2, inr p3 =>
      text_bindable p1 && text_bindable p2 && text_bindable p3
      && group_storable data income_statements
      && group_storable data balance_sheets
      && group_storable data cash_flows
  | _, _, _ => false
  end.

(** The counters leave room for [n] more rows in every table. *)
Definition room (t : tables) (n : Z) : Prop :=
  (0 <= documents_seq t /\ documents_seq t + n <= int64_max) /\
  forall k, 0 <= seq_of t k /\ seq_of t k + n <= int64_max.

Definition storable_count (items : list (string * pyval)) : nat :=
  List.length (filter (fun item => storable (snd item)) items).

(** ** Records and batches for the examples *)

(** The record of a filing of the given fiscal year, with the given
    revenue and total liabilities. *)
Definition filing (year : string) (revenue_value liabilities : pyval)
  : pyval :=
  PDict
    [("document_info",
      PDict [("company_name", PStr "Apple Inc.");
             ("fiscal_year", PStr year);
             ("document_type", PStr "10-K")]);
     ("income_statement",
      PDict [("revenue", revenue_value);
             ("operating_income", PInt 30);
             ("net_income", PInt 20)]);
     ("balance_sheet",
      PDict [("total_assets", PInt 300);
             ("total_liabilities", liabilities);
             ("total_equity", PInt 100)]);
     ("cash_flow",
      PDict [("operating_cash_flow", PInt 40);
             ("investing_cash_flow", PInt (-10));
             ("financing_cash_flow", PInt (-20))])].

(** Scenario A: three fiscal years with revenues 100, 120 and 150. *)
Definition three_years : list (string * pyval) :=
  [("aapl-20200926.pdf", filing "2020" (PInt 100) (PInt 200));
   ("aapl-20210925.pdf", filing "2021" (PInt 120) (PInt 200));
   ("aapl-20220924.pdf", filing "2022" (PInt 150) (PInt 200))].

(** A record whose company name is null, between two good ones. *)
Definition nameless : pyval :=
  PDict
    [("document_info",
      PDict [("company_name", PNone);
             ("fiscal_year", PStr "2021");
             ("document_type", PStr "10-K")])].

Definition batch_with_nameless : list (string * pyval) :=
  [("aapl-20200926.pdf", filing "2020" (PInt 100) (PInt 200));
   ("nameless.pdf", nameless);
   ("aapl-20220924.pdf", filing "2022" (PInt 150) (PInt 200))].

(** An answer that is an empty object, before a good record. *)
Definition batch_with_empty_answer : list (string * pyval) :=
  [("empty.pdf", PDict []);
   ("aapl-20210925.pdf", filing "2021" (PInt 120) (PInt 200))].

(** ** Expressions of the queries *)

Inductive num : Type := NInt (n : Z) | NReal (f : float).

(** The number an operand of an arithmetic operator stands for; NULL
    stands for none.  A text counts for the number it starts with, zero
    when it starts with none: an integer when no point or exponent was
    read and the integer fits, a real otherwise. *)
Definition to_numeric (v : sqlval) : option num :=
  match v with
  | SNull => None
  | SInt n => Some (NInt n)
  | SReal f => Some (NReal f)
  | SText s =>
      let x := read_number s in
      let n := signed_integer x in
      if integral x && (int64_min <=? n) && (n <=? int64_max)
      then Some (NInt n)
      else Some (NReal (real_of_reading x))
  end.

Definition to_real (x : num) : float :=
  match x with
  | NInt n => float_of_Z n
  | NReal f => f
  end.

Definition fits_int64 (n : Z) : bool := (int64_min <=? n) && (n <=? int64_max).

Definition real_result (f : float) : sqlval :=
  if PrimFloat.is_nan f then SNull else SReal f.

Inductive operator : Type := Subtract | Multiply | Divide.

(** [a - b], [a * b] and [a / b]: integer arithmetic on two integers
    unless it overflows, real arithmetic otherwise; NULL for a NULL
    operand and for a division by zero. *)
Definition arithmetic (op : operator) (a b : sqlval) : sqlval :=
  match to_numeric a, to_numeric b with
  | None, _ | _, None => SNull
  | Some x, Some y =>
      let reals :=
        match op with
        | Subtract => real_result (PrimFloat.sub (to_real x) (to_real y))
        | Multiply => real_result (PrimFloat.mul (to_real x) (to_real y))
        | Divide =>
            if PrimFloat.eqb (to_real y) PrimFloat.zero then SNull
            else real_result (PrimFloat.div (to_real x) (to_real y))
        end in
      match x, y with
      | NInt i, NInt j =>
          match op with
          | Subtract => if fits_int64 (i - j) then SInt (i - j) else reals
          | Multiply => if fits_int64 (i * j) then SInt (i * j) else reals
          | Divide =>
              if j =? 0 then SNull
              else if fits_int64 (Z.quot i j) then SInt (Z.quot i j) else reals
          end
      | _, _ => reals
      end
  end.

(** The rounding of a real to two decimal places, the way the engine
    (SQLite 3.40) renders the value with two decimals and reads the text
    back.  To the magnitude it adds half a hundredth and, below 2^39,
    three parts in 10^16 of the magnitude, so that decimal ties a hair
    below in binary still round up; of the sum it keeps sixteen
    significant digits, and of these the ones down to the hundredths.  A
    magnitude above 2^52 has no fraction and is kept.  The engine works
    in extended precision; here the sum and its digits are exact. *)
Definition round_real2 (r : float) : float :=
  if PrimFloat.ltb 4503599627370496 (PrimFloat.abs r) then r
  else
    match Prim2SF r with
    | S754_finite s m e =>
        let (n, d) := exact_value m e in
        let fudge := if n <? 2 ^ 39 * d then 3 else 0 in
        (* the sum, as a fraction: (n/d) * (1 + fudge/10^16) + 1/200 *)
        let num := 200 * n * (10 ^ 16 + fudge) + d * 10 ^ 16 in
        let den := 200 * d * 10 ^ 16 in
        let e10 := floor_log10 num den in
        (* sixteen significant digits, the rest dropped *)
        let sixteen := if 15 <=? e10 then num / (den * 10 ^ (e10 - 15))
                       else (num * 10 ^ (15 - e10)) / den in
        (* in hundredths: sixteen * 10^(e10 - 15) * 100, rounded down *)
        let hundredths := if 13 <=? e10 then sixteen * 10 ^ (e10 - 13)
                          else sixteen / 10 ^ (13 - e10) in
        let f := if hundredths =? 0 then PrimFloat.zero
                 else float_of_ratio hundredths 100 in
        if s then PrimFloat.opp f else f
    | S754_zero _ => PrimFloat.zero
    | _ => r
    end.

(** [ROUND(x, 2)] *)
Definition round2 (v : sqlval) : sqlval :=
  match to_numeric v with
  | None => SNull
  | Some x => SReal (round_real2 (to_real x))
  end.

(** A value that counts for zero as a divisor. *)
Definition zero_valued (v : sqlval) : bool :=
  match to_numeric v with
  | Some (NInt n) => n =? 0
  | Some (NReal f) => PrimFloat.eqb f PrimFloat.zero
  | None => false
  end.

(** ** The queries of [run_analysis_queries] *)

(** [FROM documents d JOIN <table> x ON d.id = x.document_id] *)
Definition join (t : tables) (k : statement)
  : list (document_row * statement_row) :=
  flat_map (fun d =>
              map (pair d)
                  (filter (fun x => id d =? document_id x) (rows_of t k)))
           (documents t).

(** [ORDER BY fiscal_year]: the texts are compared byte by byte.  The
    engine does not say in which order it gives the rows of one fiscal
    year; the model keeps them in the order they came in. *)
Section OrderBy.
Context {A : Type}.
Variable year_of : A -> string.

Fixpoint insert_by_year (x : A) (l : list A) : list A :=
  match l with
  | [] => [x]
  | y :: l' =>
      if String.leb (year_of x) (year_of y) then x :: l
      else y :: insert_by_year x l'
  end.

Fixpoint order_by_year (l : list A) : list A :=
  match l with
  | [] => []
  | x :: l' => insert_by_year x (order_by_year l')
  end.

End OrderBy.

(** [LAG(value) OVER (ORDER BY fiscal_year)] on rows already in order:
    each row with the value of the row before it, NULL for the first. *)
Fixpoint with_lag (previous : sqlval) (rows : list (string * sqlval))
  : list (string * sqlval * sqlval) :=
  match rows with
  | [] => []
  | (year, value) :: rest => (year, value, previous) :: with_lag value rest
  end.

Definition is_not_null (v : sqlval) : bool :=
  match v with SNull => false | _ => true end.

(** The common table expression [revenue_data]. *)
Definition revenue_data (t : tables) : list (string * sqlval * sqlval) :=
  with_lag SNull
    (order_by_year fst
       (map (fun di => (fiscal_year (fst di), revenue (snd di)))
            (join t income_statements))).

(** Query 1, year-over-year revenue growth: the rows
    [(fiscal_year, revenue_growth_percent)]. *)
Definition year_over_year_revenue_growth (t : tables)
  : list (string * sqlval) :=
  order_by_year fst
    (map (fun row =>
            let '(year, revenue, prev_revenue) := row in
            (year,
             round2 (arithmetic Multiply
                       (arithmetic Divide
                          (arithmetic Subtract revenue prev_revenue)
                          prev_revenue)
                       (SInt 100))))
         (filter (fun row => is_not_null (snd row)) (revenue_data t))).

(** Query 5, the liquidity indicator: the rows
    [(fiscal_year, liquidity_ratio_percent)]. *)
Definition liquidity_indicator (t : tables) : list (string * sqlval) :=
  order_by_year fst
    (map (fun db =>
            (fiscal_year (fst db),
             round2 (arithmetic Multiply
                       (arithmetic Divide
                          (arithmetic Subtract (total_assets (snd db))
                                               (total_liabilities (snd db)))
                          (total_liabilities (snd db)))
                       (SInt 100))))
         (join t balance_sheets)).

(** ** What a stored row holds *)

(** The keys that follow [from], [n] of them. *)
Definition consecutive (from : Z) (n : nat) : list Z :=
  map (fun i => from + Z.of_nat i) (seq 1 n).

(** What a run of the loop adds to the committed file: documents with
    the keys that follow the counter, and statement rows numbered the
    same way that carry the keys of their documents. *)
Definition added_in_order (t t' : tables) (ds : list document_row) : Prop :=
  documents t' = documents t ++ ds /\
  map id ds = consecutive (documents_seq t) (List.length ds) /\
  documents_seq t' = documents_seq t + Z.of_nat (List.length ds) /\
  forall k, exists xs,
    rows_of t' k = rows_of t k ++ xs /\
    map document_id xs = map id ds /\
    map row_id xs = consecutive (seq_of t k) (List.length ds) /\
    seq_of t' k = seq_of t k + Z.of_nat (List.length ds).

(** What a NOT NULL text column keeps of a parameter, when it takes it. *)
Definition text_column (p : pyval) : option string :=
  match bind_param p with
  | inr v => match text_affinity v with SText s => Some s | _ => None end
  | inl _ => None
  end.

(** What a REAL column keeps of a parameter, when the parameter binds. *)
Definition real_column (p : pyval) : option sqlval :=
  match bind_param p with
  | inr v => Some (real_affinity v)
  | inl _ => None
  end.




(** ** The other queries of [run_analysis_queries] *)

(** [ROUND(a / b * 100, 2)], the ratio all the queries show. *)
Definition percent (a b : sqlval) : sqlval :=
  round2 (arithmetic Multiply (arithmetic Divide a b) (SInt 100)).

(** [ROUND((x - prev) / prev * 100, 2)] *)
Definition change_percent (x prev : sqlval) : sqlval :=
  percent (arithmetic Subtract x prev) prev.

(** Query 2, net margin by year: the rows
    [(fiscal_year, net_margin_percent)]. *)
Definition net_margin_by_year (t : tables) : list (string * sqlval) :=
  order_by_year fst
    (map (fun di => (fiscal_year (fst di),
                     percent (net_income (snd di)) (revenue (snd di))))
         (join t income_statements)).

(** Two [LAG] columns over one window. *)
Fixpoint with_lags (previous : sqlval * sqlval)
  (rows : list (string * (sqlval * sqlval)))
  : list (string * (sqlval * sqlval) * (sqlval * sqlval)) :=
  match rows with
  | [] => []
  | (year, values) :: rest => (year, values, previous) :: with_lags values rest
  end.

(** The common table expression [balance_data]: the fiscal year, the
    assets and the liabilities, and those of the row before. *)
Definition balance_data (t : tables)
  : list (string * (sqlval * sqlval) * (sqlval * sqlval)) :=
  with_lags (SNull, SNull)
    (order_by_year fst
       (map (fun db => (fiscal_year (fst db),
                        (total_assets (snd db), total_liabilities (snd db))))
            (join t balance_sheets))).

(** Query 3, assets against liabilities: the rows [(fiscal_year,
    assets_change_percent, liabilities_change_percent)]; only the
    assets of the row before are tested. *)
Definition assets_vs_liabilities_change (t : tables)
  : list (string * sqlval * sqlval) :=
  order_by_year (fun row => fst (fst row))
    (map (fun row =>
            let '(year, (assets, liabilities),
                  (prev_assets, prev_liabilities)) := row in
            (year, change_percent assets prev_assets,
             change_percent liabilities prev_liabilities))
         (filter (fun row => is_not_null (fst (snd row))) (balance_data t))).

(** [FROM documents d JOIN cash_flows c ON d.id = c.document_id
    JOIN income_statements i ON d.id = i.document_id] *)
Definition join_cash_income (t : tables)
  : list (document_row * statement_row * statement_row) :=
  flat_map (fun dc =>
              map (pair dc)
                  (filter (fun i => id (fst dc) =? document_id i)
                          (income_rows t)))
           (join t cash_flows).

(** Query 4, the trend of the operating cash flow: the rows
    [(fiscal_year, operating_cash_flow, ocf_to_revenue_percent)]. *)
Definition operating_cash_flow_trend (t : tables)
  : list (string * sqlval * sqlval) :=
  order_by_year (fun row => fst (fst row))
    (map (fun dci =>
            let '(d, c, i) := dci in
            (fiscal_year d, operating_cash_flow c,
             percent (operating_cash_flow c) (revenue i)))
         (join_cash_income t)).

(** [AVG] over the values of a column: NULL values are left out, the
    others are added as reals and the sum is divided by their number;
    without any value the result is NULL.  The engine adds the values in
    the order in which it produces the rows; the model adds them in the
    order of its join. *)
Definition avg (values : list sqlval) : sqlval :=
  match flat_map (fun v => match to_numeric v with
                           | Some x => [to_real x]
                           | None => []
                           end) values with
  | [] => SNull
  | x :: xs =>
      SReal (PrimFloat.div (fold_left PrimFloat.add (x :: xs) PrimFloat.zero)
                           (float_of_Z (Z.of_nat (List.length (x :: xs)))))
  end.

(** [ROUND(AVG(x / 1000), 2)] *)
Definition average_in_billions (values : list sqlval) : sqlval :=
  round2 (avg (map (fun v => arithmetic Divide v (SInt 1000)) values)).

(** [FROM documents d JOIN income_statements i ON d.id = i.document_id
    JOIN cash_flows c ON d.id = c.document_id] *)
Definition join_income_cash (t : tables)
  : list (document_row * statement_row * statement_row) :=
  flat_map (fun di =>
              map (pair di)
                  (filter (fun c => id (fst di) =? document_id c)
                          (cash_rows t)))
           (join t income_statements).

(** The summary statistics: one row with the three averages. *)
Definition summary_statistics (t : tables) : sqlval * sqlval * sqlval :=
  let rows := join_income_cash t in
  (average_in_billions (map (fun r => revenue (snd (fst r))) rows),
   average_in_billions (map (fun r => net_income (snd (fst r))) rows),
   average_in_billions (map (fun r => operating_cash_flow (snd r)) rows)).

(** The tables of the report as lists of rows of values. *)
Definition year_and_value (rows : list (string * sqlval))
  : list (list sqlval) :=
  map (fun row => [SText (fst row); snd row]) rows.

Definition year_and_values (rows : list (string * sqlval * sqlval))
  : list (list sqlval) :=
  map (fun row => [SText (fst (fst row)); snd (fst row); snd row]) rows.

(** [run_analysis_queries]: the titles of the report with the rows each
    query returns, in the order in which they are written.  How a table
    is laid out as text is the business of the frame that holds it and is
    left out. *)
Definition run_analysis_queries (t : tables)
  : list (string * list (list sqlval)) :=
  [ ("1. Year-over-Year Revenue Growth",
     year_and_value (year_over_year_revenue_growth t));
    ("2. Net Margin by Year", year_and_value (net_margin_by_year t));
    ("3. Assets vs Liabilities YoY Change",
     year_and_values (assets_vs_liabilities_change t));
    ("4. Operating Cash Flow Trend",
     year_and_values (operating_cash_flow_trend t));
    ("5. Liquidity Indicator", year_and_value (liquidity_indicator t));
    ("Summary Statistics",
     let '(a, b, c) := summary_statistics t in [[a; b; c]]) ].

(** The order of the report: fiscal years as texts, byte by byte. *)
Definition in_year_order {A : Type} (year_of : A -> string) (a b : A) : Prop :=
  String.leb (year_of a) (year_of b) = true.

(** The rows of the window of query 1, in the order of the window: the
    fiscal year and the revenue of every joined row. *)
Definition revenues_in_year_order (t : tables) : list (string * sqlval) :=
  order_by_year fst
    (map (fun di => (fiscal_year (fst di), revenue (snd di)))
         (join t income_statements)).

(** The report of a store without documents. *)
Definition empty_report : list (string * list (list sqlval)) :=
  [ ("1. Year-over-Year Revenue Growth", []);
    ("2. Net Margin by Year", []);
    ("3. Assets vs Liabilities YoY Change", []);
    ("4. Operating Cash Flow Trend", []);
    ("5. Liquidity Indicator", []);
    ("Summary Statistics", [[SNull; SNull; SNull]]) ].

(** A batch of two default records, as two failed extractions leave it. *)
Definition two_defaults : list (string * pyval) :=
  [("a.pdf", Remote.default_data); ("b.pdf", Remote.default_data)].

End Sqlite.

(* ================================================================== *)
(** * The flow: [main_flow] *)
(* ================================================================== *)

Module Flow.
Import Remote.

Fixpoint has_slash (p : string) : bool :=
  match p with
  | EmptyString => false
  | String c r => Ascii.eqb c "/" || has_slash r
  end.

(** [os.path.basename(p)]: what follows the last slash. *)
Fixpoint basename (p : string) : string :=
  match p with
  | EmptyString => EmptyString
  | String c r =>
      if has_slash r then basename r
      else if Ascii.eqb c "/" then r
      else p
  end.

(** One turn of the loop of [main_flow], up to the extracted data.  A
    job is a file path with what the remote service answers while that
    file is processed. *)
Definition process_file (fuel : nat) (job : string * service) : io pyval :=
  let (file_path, svc) := job in
  emit (Printed ("Processing " ++ file_path ++ "...")) ;;
  info <- create_financial_assistant svc file_path ;;
  extract_financial_data svc info fuel.

(** The loop of [main_flow]: [results[os.path.basename(file_path)] =
    financial_data]. *)
Fixpoint process_files (fuel : nat) (jobs : list (string * service))
  (results : list (string * pyval)) : io (list (string * pyval)) :=
  match jobs with
  | [] => ret results
  | job :: rest =>
      financial_data <- process_file fuel job ;;
      process_files fuel rest
        (dict_set results (basename (fst job)) financial_data)
  end.

(** [main_flow], from [init_database] to the end of the relational phase
    of [save_financial_data]: the events of the loop with the batch map
    it built, and, when the loop returned, what persistence made of a new
    database for that map (the store, the lines printed, the exception
    raised).  The snapshot files and the report of
    [run_analysis_queries] come after and change neither the map nor the
    store; when they return too, the flow returns the map. *)
Definition main_flow (fuel : nat) (jobs : list (string * service))
  : io (list (string * pyval))
    * option (Sqlite.tables * list string * option exn) :=
  let file := Sqlite.init_database in
  match process_files fuel jobs [] with
  | (t, Returned results) =>
      ((t, Returned results), Some (Sqlite.save_financial_data results file))
  | stopped => (stopped, None)
  end.

(** The batch map after the entries [(file_path, financial_data)] were
    stored one after the other. *)
Definition accumulate (results : list (string * pyval))
  (entries : list (string * pyval)) : list (string * pyval) :=
  fold_left (fun d entry => dict_set d (basename (fst entry)) (snd entry))
            entries results.

(** Two reports of one name in two directories, of two fiscal years. *)
Definition two_reports : list (string * service) :=
  [("./bronze/2021/report.pdf", answering (whole_answer "2021"));
   ("./bronze/2022/report.pdf", answering (whole_answer "2022"))].

(** ** The summary printed after the flow *)

(** [bool(v)], the test of a conditional expression. *)
Definition truthy (v : pyval) : bool :=
  match v with
  | PNone => false
  | PBool b => b
  | PInt n => negb (n =? 0)%Z
  | PFloat f => negb (PrimFloat.eqb f PrimFloat.zero)
  | PStr s => match s with EmptyString => false | _ => true end
  | PList l => match l with [] => false | _ => true end
  | PDict d => match d with [] => false | _ => true end
  end.

(** The two marks, U+2713 and U+2717. *)
Definition check_mark : string :=
  string_of_list_ascii (map ascii_of_nat [226; 156; 147]).
Definition cross_mark : string :=
  string_of_list_ascii (map ascii_of_nat [226; 156; 151]).

(** One line of the summary, by its parts: the mark, the file name and
    the fiscal year, which the line shows after the letters FY.  The
    fiscal year is looked up before the line is put together. *)
Definition summary_line (item : string * pyval)
  : result (string * string * pyval) :=
  let (file_name, data) := item in
  match getitem data "document_info" with
  | inl e => inl e
  | inr info =>
      match getitem info "fiscal_year" with
      | inl e => inl e
      | inr fiscal_year =>
          inr (if truthy data then check_mark else cross_mark,
               file_name, fiscal_year)
      end
  end.

(** The loop over [results.items()] that prints the summary: the lines
    printed and the exception that ended the loop, if one did. *)
Fixpoint print_summary (items : list (string * pyval))
  : list (string * string * pyval) * option exn :=
  match items with
  | [] => ([], None)
  | item :: rest =>
      match summary_line item with
      | inl e => ([], Some e)
      | inr line =>
          let (lines, raised) := print_summary rest in (line :: lines, raised)
      end
  end.

End Flow.

(* ================================================================== *)
(** * The snapshot files: the second phase of [save_financial_data] *)
(* ================================================================== *)

Module Snapshot.
Import Sqlite.

Fixpoint drop_leading (c : ascii) (l : list ascii) : list ascii :=
  match l with
  | x :: r => if Ascii.eqb x c then drop_leading c r else l
  | [] => []
  end.

(** [s.rstrip('s')] *)
Definition rstrip_s (s : string) : string :=
  string_of_list_ascii (rev (drop_leading "s" (rev (list_ascii_of_string s)))).

Definition categories : list string :=
  ["income_statements"; "balance_sheets"; "cash_flows"].

(** The entries [**v] puts into a dictionary display. *)
Definition unpack (v : pyval) : result (list (string * pyval)) :=
  match v with
  | PDict d => inr d
  | PNone => inl (TypeError "'NoneType' object is not a mapping")
  | PBool _ => inl (TypeError "'bool' object is not a mapping")
  | PInt _ => inl (TypeError "'int' object is not a mapping")
  | PFloat _ => inl (TypeError "'float' object is not a mapping")
  | PStr _ => inl (TypeError "'str' object is not a mapping")
  | PList _ => inl (TypeError "'list' object is not a mapping")
  end.

(** One row of a snapshot: the dictionary display with the company, the
    fiscal year and the entries of the group, evaluated from left to
    right; an entry of the group named like one of the first two
    replaces it. *)
Definition snapshot_row (category : string) (doc_data : pyval)
  : result (list (string * pyval)) :=
  let* info := getitem doc_data "document_info" in
  let* company := getitem info "company_name" in
  let* info' := getitem doc_data "document_info" in
  let* fiscal_year := getitem info' "fiscal_year" in
  let* group := getitem doc_data (rstrip_s category) in
  let* entries := unpack group in
  inr (fold_left (fun d kv => dict_set d (fst kv) (snd kv)) entries
         [("company", company); ("fiscal_year", fiscal_year)]).

(** The list [data] of one category: a row for each record of the batch,
    up to the first record that raises. *)
Fixpoint snapshot_rows (category : string) (items : list (string * pyval))
  : result (list (list (string * pyval))) :=
  match items with
  | [] => inr []
  | (document, doc_data) :: rest =>
      let* row := snapshot_row category doc_data in
      let* rows := snapshot_rows category rest in
      inr (row :: rows)
  end.

(** The file system and the Parquet writer, which the function uses as
    they are: each call returns or raises. *)
Record filesystem : Type := mk_filesystem {
  makedirs : string -> result unit;
  to_parquet : string -> list (list (string * pyval)) -> result unit }.

Inductive file_event : Type :=
| DirectoryMade (path : string)
| SnapshotWritten (path : string) (rows : list (list (string * pyval))).

Definition directory (category : string) : string := "gold/" ++ category.

Definition snapshot_path (category timestamp : string) : string :=
  "gold/" ++ category ++ "/" ++ category ++ "_" ++ timestamp ++ ".parquet".

(** The loop over the categories: what was done to the file system and
    the exception that ended the loop, if one did. *)
Fixpoint save_snapshots (fs : filesystem) (timestamp : string)
  (cats : list string) (results : list (string * pyval))
  : list file_event * option exn :=
  match cats with
  | [] => ([], None)
  | category :: rest =>
      match makedirs fs (directory category) with
      | inl e => ([], Some e)
      | inr _ =>
          match snapshot_rows category results with
          | inl e => ([DirectoryMade (directory category)], Some e)
          | inr [] =>
              let (done, raised) := save_snapshots fs timestamp rest results in
              (DirectoryMade (directory category) :: done, raised)
          | inr data =>
              match to_parquet fs (snapshot_path category timestamp) data with
              | inl e => ([DirectoryMade (directory category)], Some e)
              | inr _ =>
                  let (done, raised) :=
                    save_snapshots fs timestamp rest results in
                  (DirectoryMade (directory category)
                   :: SnapshotWritten (snapshot_path category timestamp) data
                   :: done, raised)
              end
          end
      end
  end.

(** [save_financial_data], both phases: the store, the lines printed,
    what was done to the file system and the exception raised, if any. *)
Definition save_financial_data (fs : filesystem) (timestamp : string)
  (results : list (string * pyval)) (file : tables)
  : tables * list string * list file_event * option exn :=
  match Sqlite.save_financial_data results file with
  | (t, log, Some e) => (t, log, [], Some e)
  | (t, log, None) =>
      let (done, raised) := save_snapshots fs timestamp categories results in
      (t, log, done, raised)
  end.

(** A record the snapshot phase can make its rows of. *)
Definition is_object (v : result pyval) : bool :=
  match v with inr (PDict _) => true | _ => false end.

Definition has_value (v : result pyval) : bool :=
  match v with inr _ => true | inl _ => false end.

Definition exportable (data : pyval) : bool :=
  has_value (field data "document_info" "company_name")
  && has_value (field data "document_info" "fiscal_year")
  && is_object (getitem data "income_statement")
  && is_object (getitem data "balance_sheet")
  && is_object (getitem data "cash_flow").

Definition rows_written (ev : file_event) : option nat :=
  match ev with
  | SnapshotWritten _ rows => Some (List.length rows)
  | DirectoryMade _ => None
  end.

Definition is_written (ev : file_event) : bool :=
  match ev with SnapshotWritten _ _ => true | DirectoryMade _ => false end.

(** A file system on which every call returns. *)
Definition working_filesystem : filesystem :=
  {| makedirs := fun _ => inr tt; to_parquet := fun _ _ => inr tt |}.

(** A complete record whose company name is null. *)
Definition anonymous_filing : pyval :=
  PDict
    [("document_info",
      PDict [("company_name", PNone);
             ("fiscal_year", PStr "2021");
             ("document_type", PStr "10-K")]);
     ("income_statement",
      PDict [("revenue", PInt 120);
             ("operating_income", PInt 30);
             ("net_income", PInt 20)]);
     ("balance_sheet",
      PDict [("total_assets", PInt 300);
             ("total_liabilities", PInt 200);
             ("total_equity", PInt 100)]);
     ("cash_flow",
      PDict [("operating_cash_flow", PInt 40);
             ("investing_cash_flow", PInt (-10));
             ("financing_cash_flow", PInt (-20))])].

Definition batch_with_anonymous : list (string * pyval) :=
  [("aapl-20200926.pdf", filing "2020" (PInt 100) (PInt 200));
   ("anonymous.pdf", anonymous_filing)].

End Snapshot.


(* ================================================================== *)
(** * Facts about the decoder *)
(* ================================================================== *)

Section DecoderFacts.
Import Text Json.

(** Case analysis on whatever the goal or a hypothesis branches on. *)
Ltac branch :=
  match goal with
  | |- context [match ?x with _ => _ end] => destruct x eqn:?
  | H : context [match ?x with _ => _ end] |- _ => destruct x eqn:?
  | H : inr _ = inr _ |- _ => injection H as ? ?; subst
  | H : Some _ = Some _ |- _ => injection H as ? ?; subst
  | H : (_, _) = (_, _) |- _ => injection H as ? ?; subst
  | H : inl _ = inr _ |- _ => discriminate H
  | H : decode_error _ = inr _ |- _ => discriminate H
  | H : None = Some _ |- _ => discriminate H
  end.

Lemma skip_ws_length (s : string) :
  String.length (skip_ws s) <= String.length s.
Proof.
  induction s as [|c s IH]; simpl; [lia|]. destruct (is_ws c); simpl; lia.
Qed.

Lemma strip_prefix_length (p s r : string) :
  strip_prefix p s = Some r ->
  String.length s = String.length p + String.length r.
Proof.
  revert s. induction p as [|a p IH]; intros s; simpl.
  - now intros [= ->].
  - destruct s as [|b s]; [discriminate|].
    destruct (Ascii.eqb a b); [|discriminate].
    intros H. apply IH in H. simpl. lia.
Qed.

Lemma span_digits_length (s ds r : string) :
  span_digits s = (ds, r) -> String.length r <= String.length s.
Proof.
  revert ds r. induction s as [|c s IH]; intros ds r; simpl.
  - intros [= <- <-]. simpl. lia.
  - destruct (is_digit c).
    + destruct (span_digits s) as [ds' r'] eqn:Hs. intros [= <- <-].
      specialize (IH _ _ eq_refl). lia.
    + intros [= <- <-]. simpl. lia.
Qed.

Lemma hex4_length (s : string) (cp : N) (r : string) :
  hex4 s = Some (cp, r) -> String.length s = 4 + String.length r.
Proof.
  unfold hex4. intros H. repeat branch. reflexivity.
Qed.

Lemma unicode_escape_length (s : string) (cp : N) (r : string) :
  unicode_escape s = Some (cp, r) -> String.length r < String.length s.
Proof.
  unfold unicode_escape. intros H.
  repeat branch;
    repeat match goal with
           | E : hex4 _ = Some _ |- _ => apply hex4_length in E
           | E : strip_prefix _ _ = Some _ |- _ =>
               apply strip_prefix_length in E; simpl in E
           end; lia.
Qed.

Lemma scanstring_length (n : nat) (s t r : string) :
  scanstring n s = inr (t, r) -> String.length r < String.length s.
Proof.
  revert s t r. induction n as [|n IH]; intros s t r; simpl; [discriminate|].
  intros H.
  repeat branch;
    repeat match goal with
           | E : scanstring n _ = inr _ |- _ => apply IH in E
           | E : unicode_escape _ = Some _ |- _ =>
               apply unicode_escape_length in E
           end; simpl in *; lia.
Qed.

(** The fuel of [scanstring] is enough from the length of the text on. *)
Lemma scanstring_enough (n n' : nat) (s : string) :
  String.length s <= n -> String.length s <= n' ->
  scanstring n s = scanstring n' s.
Proof.
  revert n' s. induction n as [|n IH]; intros n' s Hn Hn'.
  - destruct s; [|simpl in Hn; lia]. now destruct n'.
  - destruct n' as [|n'].
    + destruct s; [reflexivity|simpl in Hn'; lia].
    + simpl. destruct s as [|c r]; [reflexivity|]. simpl in Hn, Hn'.
      destruct (Ascii.eqb c "034"); [reflexivity|].
      destruct (byte c <? 32)%N; [reflexivity|].
      destruct (Ascii.eqb c "\").
      * destruct r as [|e r2]; [reflexivity|]. simpl in Hn, Hn'.
        rewrite (IH n' r2) by lia.
        destruct (unicode_escape r2) as [[cp r3]|] eqn:Hu; [|reflexivity].
        apply unicode_escape_length in Hu.
        now rewrite (IH n' r3) by lia.
      * now rewrite (IH n' r) by lia.
Qed.

Lemma scan_number_length (s : string) (v : pyval) (r : string) :
  scan_number s = Some (v, r) -> String.length r < String.length s.
Proof.
  unfold scan_number.
  match goal with
  | |- context [let (_, _) := ?x in _] => destruct x as [neg body] eqn:Hbody
  end.
  assert (H1 : String.length body <= String.length s).
  { destruct s as [|c s']; [injection Hbody as _ <-; simpl; lia|].
    destruct (Ascii.eqb c "-"); injection Hbody as _ <-; simpl; lia. }
  match goal with
  | |- context [match ?x with Some _ => _ | None => _ end] =>
      destruct x as [[ip rest]|] eqn:Hint; [|discriminate]
  end.
  assert (H2 : String.length rest < String.length body).
  { destruct body as [|c b]; [discriminate|].
    destruct (Ascii.eqb c "0"); [injection Hint as _ <-; simpl; lia|].
    destruct (is_digit c) eqn:Hc; [|discriminate].
    injection Hint as Hint. simpl in Hint. rewrite Hc in Hint.
    destruct (span_digits b) as [ds rest'] eqn:Hs.
    apply span_digits_length in Hs. injection Hint as _ <-. simpl. lia. }
  match goal with
  | |- context [let (_, _) := ?x in _] => destruct x as [fp rest1] eqn:Hfp
  end.
  assert (H3 : String.length rest1 <= String.length rest).
  { destruct rest as [|c b]; [injection Hfp as _ <-; simpl; lia|].
    destruct (Ascii.eqb c "."); [|injection Hfp as _ <-; simpl; lia].
    destruct (span_digits b) as [ds rest'] eqn:Hs.
    apply span_digits_length in Hs.
    destruct (nonempty ds); injection Hfp as _ <-; simpl; lia. }
  match goal with
  | |- context [let (_, _) := ?x in _] => destruct x as [ex rest2] eqn:Hex
  end.
  assert (H4 : String.length rest2 <= String.length rest1).
  { destruct rest1 as [|c b]; [injection Hex as _ <-; simpl; lia|].
    destruct (Ascii.eqb c "e" || Ascii.eqb c "E");
      [|injection Hex as _ <-; simpl; lia].
    match type of Hex with
    | context [let (_, _) := ?x in _] => destruct x as [eneg r1] eqn:Hsign
    end.
    assert (String.length r1 <= String.length b).
    { destruct b as [|d b']; [injection Hsign as _ <-; simpl; lia|].
      destruct (Ascii.eqb d "-"); [injection Hsign as _ <-; simpl; lia|].
      destruct (Ascii.eqb d "+"); injection Hsign as _ <-; simpl; lia. }
    destruct (span_digits r1) as [ds r2] eqn:Hs.
    apply span_digits_length in Hs.
    destruct (nonempty ds); injection Hex as _ <-; simpl; lia. }
  destruct fp, ex; intros [= _ <-]; lia.
Qed.

Lemma scan_scalar_length (s : string) (v : pyval) (r : string) :
  scan_scalar s = inr (v, r) -> String.length r < String.length s.
Proof.
  unfold scan_scalar, decode_error.
  repeat match goal with
         | |- context [match strip_prefix ?p s with _ => _ end] =>
             destruct (strip_prefix p s) eqn:?
         | |- context [match scan_number s with _ => _ end] =>
             destruct (scan_number s) as [[? ?]|] eqn:?
         end;
    try discriminate; intros [= <- <-];
    repeat match goal with
           | E : strip_prefix _ _ = Some _ |- _ =>
               apply strip_prefix_length in E; simpl in E
           | E : scan_number _ = Some _ |- _ => apply scan_number_length in E
           end; lia.
Qed.

#[local] Arguments scan_scalar : simpl never.
#[local] Arguments scanstring : simpl never.
#[local] Arguments skip_ws : simpl never.
#[local] Arguments String.length : simpl never.

Lemma length_String (c : ascii) (s : string) :
  String.length (String c s) = S (String.length s).
Proof. reflexivity. Qed.

(** Every value the scanner reads consumes some of the text. *)
Lemma scan_consumes (fuel : nat) :
  (forall s v r, scan_once fuel s = inr (v, r) ->
                 String.length r < String.length s) /\
  (forall s ps r, scan_members fuel s = inr (ps, r) ->
                  String.length r < String.length s) /\
  (forall s vs r, scan_elements fuel s = inr (vs, r) ->
                  String.length r < String.length s).
Proof.
  induction fuel as [|f (IH1 & IH2 & IH3)];
    [repeat split; intros; discriminate|].
  split; [|split].
  - intros s v r. simpl. destruct s as [|c s']; [discriminate|].
    rewrite length_String.
    destruct (Ascii.eqb c "034").
    { destruct (scanstring _ s') as [e|[t rest]] eqn:Hs; [discriminate|].
      intros [= _ <-]. apply scanstring_length in Hs. lia. }
    destruct (Ascii.eqb c "{").
    { pose proof (skip_ws_length s') as Hw.
      destruct (skip_ws s') as [|d r']; [discriminate|].
      rewrite length_String in Hw.
      destruct (Ascii.eqb d "}"); [intros [= _ <-]; lia|].
      destruct (Ascii.eqb d "034"); [|discriminate].
      destruct (scan_members f r') as [e|[ps rest]] eqn:Hm; [discriminate|].
      intros [= _ <-]. apply IH2 in Hm. lia. }
    destruct (Ascii.eqb c "[").
    { pose proof (skip_ws_length s') as Hw.
      destruct (skip_ws s') as [|d r']; [discriminate|].
      rewrite length_String in Hw.
      destruct (Ascii.eqb d "]"); [intros [= _ <-]; lia|].
      destruct (scan_elements f (String d r')) as [e|[vs rest]] eqn:Hm;
        [discriminate|].
      intros [= _ <-]. apply IH3 in Hm. rewrite length_String in Hm. lia. }
    intros H. apply scan_scalar_length in H. now rewrite length_String in H.
  - intros s ps r. simpl.
    destruct (scanstring _ s) as [e|[key r0]] eqn:Hs; [discriminate|].
    apply scanstring_length in Hs.
    pose proof (skip_ws_length r0) as Hw0.
    destruct (skip_ws r0) as [|c r1]; [discriminate|].
    rewrite length_String in Hw0.
    destruct (Ascii.eqb c ":"); [|discriminate].
    pose proof (skip_ws_length r1) as Hw1.
    destruct (scan_once f (skip_ws r1)) as [e|[v r2]] eqn:Hv; [discriminate|].
    apply IH1 in Hv.
    pose proof (skip_ws_length r2) as Hw2.
    destruct (skip_ws r2) as [|d r3]; [discriminate|].
    rewrite length_String in Hw2.
    destruct (Ascii.eqb d "}"); [intros [= _ <-]; lia|].
    destruct (Ascii.eqb d ","); [|discriminate].
    pose proof (skip_ws_length r3) as Hw3.
    destruct (skip_ws r3) as [|q r4]; [discriminate|].
    rewrite length_String in Hw3.
    destruct (Ascii.eqb q "034"); [|discriminate].
    destruct (scan_members f r4) as [e|[pairs rest]] eqn:Hm; [discriminate|].
    intros [= _ <-]. apply IH2 in Hm. lia.
  - intros s vs r. simpl.
    destruct (scan_once f s) as [e|[v r0]] eqn:Hv; [discriminate|].
    apply IH1 in Hv.
    pose proof (skip_ws_length r0) as Hw0.
    destruct (skip_ws r0) as [|d r1]; [discriminate|].
    rewrite length_String in Hw0.
    destruct (Ascii.eqb d "]"); [intros [= _ <-]; lia|].
    destruct (Ascii.eqb d ","); [|discriminate].
    pose proof (skip_ws_length r1) as Hw1.
    destruct (scan_elements f (skip_ws r1)) as [e|[vs' rest]] eqn:Hm;
      [discriminate|].
    intros [= _ <-]. apply IH3 in Hm. lia.
Qed.

(** The fuel of the scanner is enough from twice the length of the text
    on: more fuel changes nothing. *)
Lemma scan_enough (fuel : nat) :
  (forall fuel' s,
     2 * String.length s + 1 <= fuel -> 2 * String.length s + 1 <= fuel' ->
     scan_once fuel s = scan_once fuel' s) /\
  (forall fuel' s,
     2 * String.length s + 1 <= fuel -> 2 * String.length s + 1 <= fuel' ->
     scan_members fuel s = scan_members fuel' s) /\
  (forall fuel' s,
     2 * String.length s + 2 <= fuel -> 2 * String.length s + 2 <= fuel' ->
     scan_elements fuel s = scan_elements fuel' s).
Proof.
  induction fuel as [|f (IH1 & IH2 & IH3)];
    [repeat split; intros; lia|].
  split; [|split]; intros [|f'] s Hf Hf'; try lia; simpl.
  - destruct s as [|c s']; [reflexivity|]. rewrite length_String in Hf, Hf'.
    destruct (Ascii.eqb c "034"); [reflexivity|].
    destruct (Ascii.eqb c "{").
    { pose proof (skip_ws_length s') as Hw.
      destruct (skip_ws s') as [|d r']; [reflexivity|].
      rewrite length_String in Hw.
      destruct (Ascii.eqb d "}"); [reflexivity|].
      destruct (Ascii.eqb d "034"); [|reflexivity].
      now rewrite (IH2 f' r') by lia. }
    destruct (Ascii.eqb c "["); [|reflexivity].
    pose proof (skip_ws_length s') as Hw.
    destruct (skip_ws s') as [|d r'] eqn:Hs'; [reflexivity|].
    destruct (Ascii.eqb d "]"); [reflexivity|].
    now rewrite (IH3 f' (String d r')) by lia.
  - destruct (scanstring _ s) as [e|[key r0]] eqn:Hs; [reflexivity|].
    apply scanstring_length in Hs.
    pose proof (skip_ws_length r0) as Hw0.
    destruct (skip_ws r0) as [|c r1]; [reflexivity|].
    rewrite length_String in Hw0.
    destruct (Ascii.eqb c ":"); [|reflexivity].
    pose proof (skip_ws_length r1) as Hw1.
    rewrite (IH1 f' (skip_ws r1)) by lia.
    destruct (scan_once f' (skip_ws r1)) as [e|[v r2]] eqn:Hv; [reflexivity|].
    apply (proj1 (scan_consumes f')) in Hv.
    pose proof (skip_ws_length r2) as Hw2.
    destruct (skip_ws r2) as [|d r3]; [reflexivity|].
    rewrite length_String in Hw2.
    destruct (Ascii.eqb d "}"); [reflexivity|].
    destruct (Ascii.eqb d ","); [|reflexivity].
    pose proof (skip_ws_length r3) as Hw3.
    destruct (skip_ws r3) as [|q r4]; [reflexivity|].
    rewrite length_String in Hw3.
    destruct (Ascii.eqb q "034"); [|reflexivity].
    now rewrite (IH2 f' r4) by lia.
  - rewrite (IH1 f' s) by lia.
    destruct (scan_once f' s) as [e|[v r0]] eqn:Hv; [reflexivity|].
    apply (proj1 (scan_consumes f')) in Hv.
    pose proof (skip_ws_length r0) as Hw0.
    destruct (skip_ws r0) as [|d r1]; [reflexivity|].
    rewrite length_String in Hw0.
    destruct (Ascii.eqb d "]"); [reflexivity|].
    destruct (Ascii.eqb d ","); [|reflexivity].
    pose proof (skip_ws_length r1) as Hw1.
    now rewrite (IH3 f' (skip_ws r1)) by lia.
Qed.

(** [loads] gives the scanner all the fuel it can use. *)
Lemma loads_fuel_is_enough (s : string) (fuel : nat) :
  2 * String.length s + 2 <= fuel ->
  scan_once fuel (skip_ws s) = scan_once (2 * String.length s + 2) (skip_ws s).
Proof.
  intros H. pose proof (skip_ws_length s) as Hw.
  apply (proj1 (scan_enough fuel)); lia.
Qed.

End DecoderFacts.

(* ================================================================== *)
(** * Facts about the tag scanner *)
(* ================================================================== *)

Section ScannerFacts.
Import Text Soup.

Lemma fold_nonfraction_step (l : list node) (data : list row) :
  fold_left nonfraction_step l data = data ++ flat_map yield l.
Proof.
  revert data. induction l as [|t l IH]; intros data; simpl.
  - now rewrite app_nil_r.
  - rewrite IH. unfold nonfraction_step, yield.
    destruct (re_match_numeral (numeric_text t)); simpl.
    + now rewrite <- app_assoc.
    + reflexivity.
Qed.

Lemma fold_nonnumeric_step (l : list node) (data : list row) :
  fold_left nonnumeric_step l data = data ++ map nonnumeric_row l.
Proof.
  revert data. induction l as [|t l IH]; intros data; simpl.
  - now rewrite app_nil_r.
  - rewrite IH. unfold nonnumeric_step. now rewrite <- app_assoc.
Qed.

(** The two loops, closed: all numeric facts, then all the others. *)
Lemma extract_features_two_passes (soup : list node) :
  extract_features soup =
  flat_map yield (find_all "ix:nonfraction" soup)
  ++ map nonnumeric_row (find_all "ix:nonnumeric" soup).
Proof.
  unfold extract_features.
  now rewrite fold_nonnumeric_step, fold_nonfraction_step.
Qed.

Lemma yield_rows_are_nonfraction (l : list node) :
  filter is_nonfraction_row (flat_map yield l) = flat_map yield l.
Proof.
  induction l as [|t l IH]; simpl; [reflexivity|].
  rewrite filter_app, IH. f_equal.
  unfold yield. now destruct (re_match_numeral (numeric_text t)).
Qed.

Lemma nonnumeric_rows_are_not_nonfraction (l : list node) :
  filter is_nonfraction_row (map nonnumeric_row l) = [].
Proof. induction l as [|t l IH]; simpl; auto. Qed.

Lemma numeric_part (soup : list node) :
  filter is_nonfraction_row (extract_features soup) =
  flat_map yield (find_all "ix:nonfraction" soup).
Proof.
  rewrite extract_features_two_passes, filter_app.
  rewrite yield_rows_are_nonfraction, nonnumeric_rows_are_not_nonfraction.
  apply app_nil_r.
Qed.

(** ** Trimming *)

Lemma ws_head_length (s r : string) :
  ws_head s = Some r -> String.length r < String.length s.
Proof.
  unfold ws_head. intros H.
  destruct s as [|a [|b [|c r3]]]; simpl in *;
    repeat match type of H with
           | (if ?b then _ else _) = _ => destruct b
           end;
    try discriminate; injection H as <-; simpl; lia.
Qed.

Lemma ws_last_length (l r : list ascii) :
  ws_last l = Some r -> List.length r < List.length l.
Proof.
  unfold ws_last. intros H.
  destruct l as [|a [|b [|c r3]]]; simpl in *;
    repeat match type of H with
           | (if ?b then _ else _) = _ => destruct b
           end;
    try discriminate; injection H as <-; simpl; lia.
Qed.

(** The fuel of the trimming is enough from the length of the text on. *)
Lemma lstrip_enough (n n' : nat) (s : string) :
  String.length s <= n -> String.length s <= n' ->
  lstrip_fuel n s = lstrip_fuel n' s.
Proof.
  revert n' s. induction n as [|n IH]; intros n' s Hn Hn'.
  - destruct s; [|simpl in Hn; lia]. now destruct n'.
  - destruct n' as [|n'].
    + destruct s; [reflexivity|simpl in Hn'; lia].
    + simpl. destruct (ws_head s) as [r|] eqn:Hr; [|reflexivity].
      apply ws_head_length in Hr. apply IH; lia.
Qed.

Lemma rstrip_enough (n n' : nat) (l : list ascii) :
  List.length l <= n -> List.length l <= n' ->
  rstrip_fuel n l = rstrip_fuel n' l.
Proof.
  revert n' l. induction n as [|n IH]; intros n' l Hn Hn'.
  - destruct l; [|simpl in Hn; lia]. now destruct n'.
  - destruct n' as [|n'].
    + destruct l; [reflexivity|simpl in Hn'; lia].
    + simpl. destruct (ws_last l) as [r|] eqn:Hr; [|reflexivity].
      apply ws_last_length in Hr. apply IH; lia.
Qed.

(** ** The pattern and the numerals *)

Lemma decimal_is_no_mark (p : N) :
  is_decimal p = true ->
  p <> minus_sign /\ p <> full_stop /\ p <> line_feed.
Proof.
  intros H. repeat split; intros ->; vm_compute in H; discriminate H.
Qed.

Lemma decimal_digit_of (p : N) :
  is_decimal p = true ->
  decimal_digit p = Some (match decimal_digit p with Some d => d | None => 0%Z end).
Proof. unfold is_decimal. destruct (decimal_digit p); [reflexivity|discriminate]. Qed.

Lemma span_decimals_sound (text : list N) (ds : list Z) (rest : list N) :
  span_decimals text = (ds, rest) ->
  exists run, text = run ++ rest /\ all_decimal run /\
              ds = digit_values run /\ starts_without_digit rest.
Proof.
  revert ds rest. induction text as [|p text IH]; intros ds rest; simpl.
  - intros [= <- <-]. exists []. repeat split. constructor.
  - destruct (decimal_digit p) as [d|] eqn:Hp.
    + destruct (span_decimals text) as [ds' rest'] eqn:Hs.
      intros [= <- <-].
      destruct (IH _ _ eq_refl) as (run & -> & Hd & -> & Hr).
      exists (p :: run). split; [reflexivity|]. split.
      * constructor; [unfold is_decimal; now rewrite Hp|exact Hd].
      * split; [simpl; now rewrite Hp|exact Hr].
    + intros [= <- <-]. exists []. repeat split; [constructor|].
      simpl. unfold is_decimal. now rewrite Hp.
Qed.

Lemma span_decimals_complete (run rest : list N) :
  all_decimal run -> starts_without_digit rest ->
  span_decimals (run ++ rest) = (digit_values run, rest).
Proof.
  induction run as [|p run IH]; simpl; intros Hd Hr.
  - destruct rest as [|p r]; simpl in *; [reflexivity|].
    unfold is_decimal in Hr. now destruct (decimal_digit p).
  - inversion Hd as [|? ? Hp Hd']; subst.
    rewrite (decimal_digit_of p Hp), IH; auto.
Qed.

Lemma some_digit_values (run : list N) : some (digit_values run) = some run.
Proof. now destruct run. Qed.

Lemma some_nonempty {A : Type} (l : list A) : some l = true <-> l <> [].
Proof. destruct l; simpl; split; congruence. Qed.

(** What follows the digits of a numeral, and what [$] makes of it. *)
Lemma at_dollar_cases (text : list N) :
  at_dollar text = true <-> text = [] \/ text = [line_feed].
Proof.
  unfold at_dollar. split.
  - destruct text as [|p [|q r]]; intros H; [now left| |discriminate].
    right. apply N.eqb_eq in H. now subst.
  - intros [->| ->]; reflexivity.
Qed.

Lemma tail_starts_without_digit (tail : list N) :
  tail = [] \/ tail = [line_feed] -> starts_without_digit tail.
Proof. intros [->| ->]; simpl; auto. Qed.

Lemma fraction_text_cases (fp : list N) :
  fp = [] /\ fraction_text fp = [] \/
  fp <> [] /\ fraction_text fp = full_stop :: fp.
Proof.
  destruct fp; [left|right]; split; try reflexivity. discriminate.
Qed.

(** The digits, the fraction and the end, after the sign. *)
Lemma re_match_body (body : list N) :
  (let (ip, rest) := span_decimals body in
   some ip &&
   (at_dollar rest
    || match rest with
       | p :: r =>
           (p =? full_stop)%N &&
           (let (fp, rest') := span_decimals r in some fp && at_dollar rest')
       | [] => false
       end)) = true <->
  exists ip fp tail,
    ip <> [] /\ all_decimal ip /\ all_decimal fp /\
    (tail = [] \/ tail = [line_feed]) /\
    body = ip ++ fraction_text fp ++ tail.
Proof.
  split.
  - destruct (span_decimals body) as [ds rest] eqn:Hs.
    destruct (span_decimals_sound _ _ _ Hs) as (ip & -> & Hd & -> & Hr).
    intros H. apply andb_true_iff in H as [Hn H].
    rewrite some_digit_values in Hn. apply some_nonempty in Hn.
    apply orb_true_iff in H as [H|H].
    + apply at_dollar_cases in H. exists ip, [], rest.
      split; [exact Hn|]. split; [exact Hd|]. split; [constructor|].
      split; [exact H|reflexivity].
    + destruct rest as [|p r]; [discriminate|].
      apply andb_true_iff in H as [Hp H]. apply N.eqb_eq in Hp as ->.
      destruct (span_decimals r) as [ds' rest'] eqn:Hs'.
      destruct (span_decimals_sound _ _ _ Hs') as (fp & -> & Hd' & -> & Hr').
      apply andb_true_iff in H as [Hn' H]. apply at_dollar_cases in H.
      rewrite some_digit_values in Hn'. apply some_nonempty in Hn'.
      exists ip, fp, rest'.
      split; [exact Hn|]. split; [exact Hd|]. split; [exact Hd'|].
      split; [exact H|]. destruct fp; [congruence|reflexivity].
  - intros (ip & fp & tail & Hn & Hd & Hd' & Htail & ->).
    apply some_nonempty in Hn.
    destruct (fraction_text_cases fp) as [(Hf & Hfp)|(Hf & Hfp)]; rewrite Hfp.
    + rewrite span_decimals_complete;
        [|exact Hd|now apply tail_starts_without_digit].
      rewrite some_digit_values, Hn. simpl.
      apply orb_true_iff. left. now apply at_dollar_cases.
    + rewrite span_decimals_complete; [|exact Hd|reflexivity].
      rewrite some_digit_values, Hn. cbn [app andb].
      rewrite N.eqb_refl, span_decimals_complete;
        [|exact Hd'|now apply tail_starts_without_digit].
      apply some_nonempty in Hf. rewrite some_digit_values, Hf.
      apply orb_true_iff. right. now apply at_dollar_cases.
Qed.

(** The text after an optional minus sign. *)
Lemma after_the_sign (neg : bool) (ip rest : list N) :
  ip <> [] -> all_decimal ip ->
  match sign_text neg ++ ip ++ rest with
  | p :: r =>
      if (p =? minus_sign)%N then (true, r)
      else (false, sign_text neg ++ ip ++ rest)
  | [] => (false, sign_text neg ++ ip ++ rest)
  end = (neg, ip ++ rest).
Proof.
  intros Hn Hd. destruct neg; simpl; [reflexivity|].
  destruct ip as [|p ip]; [congruence|]. simpl.
  inversion Hd as [|? ? Hp _]; subst.
  destruct (decimal_is_no_mark p Hp) as (Hm & _).
  apply N.eqb_neq in Hm. now rewrite Hm.
Qed.

Lemma sign_of_text (text : list N) :
  exists neg,
    text = sign_text neg ++
           match text with
           | p :: r => if (p =? minus_sign)%N then r else text
           | [] => text
           end.
Proof.
  destruct text as [|p r]; [now exists false|].
  destruct (p =? minus_sign)%N eqn:Hp.
  - apply N.eqb_eq in Hp as ->. now exists true.
  - now exists false.
Qed.

(** The pattern accepts the numerals, and a numeral followed by one line
    feed, and nothing else. *)
Lemma re_match_numeral_spec (s : string) :
  re_match_numeral s = true <->
  decimal_numeral (points s) \/
  exists n, decimal_numeral n /\ points s = n ++ [line_feed].
Proof.
  unfold re_match_numeral. rewrite re_match_body. split.
  - intros (ip & fp & tail & Hn & Hd & Hd' & Htail & Hbody).
    destruct (sign_of_text (points s)) as (neg & Hs).
    rewrite Hbody in Hs.
    assert (Hw : points s = written neg ip fp ++ tail).
    { rewrite Hs. unfold written. now rewrite <- !app_assoc. }
    destruct Htail as [->| ->].
    + left. exists neg, ip, fp. rewrite app_nil_r in Hw. auto.
    + right. exists (written neg ip fp). split; [|exact Hw].
      exists neg, ip, fp. auto.
  - intros H.
    assert (Hw : exists neg ip fp tail,
               ip <> [] /\ all_decimal ip /\ all_decimal fp /\
               (tail = [] \/ tail = [line_feed]) /\
               points s = written neg ip fp ++ tail).
    { destruct H as [(neg & ip & fp & Hn & Hd & Hd' & H)
                    |(n & (neg & ip & fp & Hn & Hd & Hd' & ->) & H)].
      - exists neg, ip, fp, []. rewrite app_nil_r. auto 6.
      - exists neg, ip, fp, [line_feed]. auto 6. }
    destruct Hw as (neg & ip & fp & tail & Hn & Hd & Hd' & Htail & Hw).
    exists ip, fp, tail.
    split; [exact Hn|]. split; [exact Hd|]. split; [exact Hd'|].
    split; [exact Htail|].
    rewrite Hw. unfold written. rewrite <- !app_assoc.
    pose proof (after_the_sign neg ip (fraction_text fp ++ tail) Hn Hd) as Hb.
    destruct (sign_text neg ++ ip ++ fraction_text fp ++ tail) as [|p r].
    + now injection Hb as _ <-.
    + destruct (p =? minus_sign)%N; now injection Hb as _ <-.
Qed.

Lemma number_app (a b : list Z) (acc : Z) :
  number acc (a ++ b) = number (number acc a) b.
Proof. revert acc. induction a as [|d a IH]; intros acc; simpl; auto. Qed.

Lemma digit_values_app (a b : list N) :
  digit_values (a ++ b) = digit_values a ++ digit_values b.
Proof. apply map_app. Qed.

Lemma length_digit_values (l : list N) :
  List.length (digit_values l) = List.length l.
Proof. apply length_map. Qed.

(** [float] reads a numeral, with or without a line feed after it, as
    the number the numeral writes. *)
Lemma py_float_numeral (s : string) (neg : bool) (ip fp tail : list N) :
  ip <> [] -> all_decimal ip -> all_decimal fp ->
  (tail = [] \/ tail = [line_feed]) ->
  points s = written neg ip fp ++ tail ->
  py_float s = numeral_value neg ip fp.
Proof.
  intros Hn Hd Hd' Htail Hw. unfold py_float, numeral_value.
  rewrite Hw. unfold written. rewrite <- !app_assoc.
  rewrite (after_the_sign neg ip (fraction_text fp ++ tail) Hn Hd).
  destruct (fraction_text_cases fp) as [(Hf & Hfp)|(Hf & Hfp)]; rewrite Hfp.
  - rewrite span_decimals_complete;
      [|exact Hd|now apply tail_starts_without_digit].
    subst fp. rewrite app_nil_r. destruct Htail as [->| ->]; reflexivity.
  - rewrite span_decimals_complete; [|exact Hd|reflexivity]. cbn [app].
    rewrite N.eqb_refl, span_decimals_complete;
      [|exact Hd'|now apply tail_starts_without_digit].
    cbn [fst]. rewrite length_digit_values, digit_values_app, number_app.
    reflexivity.
Qed.

(** ** The facts of the numeric elements *)

(** C5: every numeric element whose text, white space trimmed and commas
    removed, is a decimal numeral gives exactly one fact, whose value is
    the number the numeral writes, as [float] reads it; every numeric
    element whose text the pattern rejects gives none.  [yielded] lists,
    element by element, what each numeric element of the document
    contributes to the table. *)
Theorem numeric_elements_yield_their_facts (soup : list node) :
  exists yielded : list (list row),
    filter is_nonfraction_row (extract_features soup) = List.concat yielded /\
    Forall2
      (fun e fs =>
         (forall (neg : bool) (ip fp : list N),
            ip <> [] -> all_decimal ip -> all_decimal fp ->
            points (numeric_text e) = written neg ip fp ->
            exists r, fs = [r] /\
                      row_value r = PFloat (py_float (numeric_text e)) /\
                      py_float (numeric_text e) = numeral_value neg ip fp) /\
         (re_match_numeral (numeric_text e) = false -> fs = []))
      (find_all "ix:nonfraction" soup) yielded.
Proof.
  exists (map yield (find_all "ix:nonfraction" soup)). split.
  - rewrite numeric_part. apply flat_map_concat_map.
  - induction (find_all "ix:nonfraction" soup) as [|e l IH]; simpl;
      constructor; [|exact IH].
    unfold yield. split.
    + intros neg ip fp Hn Hd Hd' Hw.
      assert (Hm : re_match_numeral (numeric_text e) = true).
      { apply re_match_numeral_spec. left. exists neg, ip, fp. auto. }
      rewrite Hm. eexists. split; [reflexivity|]. split; [reflexivity|].
      apply (py_float_numeral _ neg ip fp []); auto.
      now rewrite app_nil_r.
    + intros ->. reflexivity.
Qed.

(** ** The unit of a fact *)

(** The scanner asks for the attribute [unitRef], and the parser gives
    attribute names in lower case: the unit of a fact read from parsed
    markup is always the default. *)
Lemma unit_of_parsed_element (name : string) (attrs : list (string * string))
  (contents : list node) :
  Forall (fun kv => no_capital (fst kv) = true) attrs ->
  row_unit (nonfraction_row (Tag name attrs contents)) = "Unknown".
Proof.
  intros H. unfold nonfraction_row, get. cbn [row_unit].
  induction H as [|[k v] attrs Hk _ IH]; [reflexivity|].
  cbn [dict_get].
  destruct (String.eqb_spec "unitRef" k) as [<-|_]; [discriminate Hk|exact IH].
Qed.

(** ** The order of the facts *)

Lemma named_nonfraction_not_nonnumeric (n : node) :
  is_tag_named "ix:nonfraction" n = true ->
  is_tag_named "ix:nonnumeric" n = false.
Proof.
  destruct n as [| |name attrs cs]; simpl; try discriminate.
  intros H. apply String.eqb_eq in H. now subst.
Qed.

Lemma nonfraction_facts_of_scan (nodes : list node) :
  filter is_nonfraction_row (flat_map fact_in_place nodes) =
  flat_map yield (filter (is_tag_named "ix:nonfraction") nodes).
Proof.
  induction nodes as [|n nodes IH]; simpl; [reflexivity|].
  rewrite filter_app, IH. unfold fact_in_place.
  destruct (is_tag_named "ix:nonfraction" n) eqn:Hn; simpl.
  - f_equal. unfold yield.
    destruct (re_match_numeral (numeric_text n)); reflexivity.
  - destruct (is_tag_named "ix:nonnumeric" n); reflexivity.
Qed.

Lemma nonnumeric_facts_of_scan (nodes : list node) :
  filter is_nonnumeric_row (flat_map fact_in_place nodes) =
  map nonnumeric_row (filter (is_tag_named "ix:nonnumeric") nodes).
Proof.
  induction nodes as [|n nodes IH]; simpl; [reflexivity|].
  rewrite filter_app, IH. unfold fact_in_place.
  destruct (is_tag_named "ix:nonfraction" n) eqn:Hn; simpl.
  - rewrite (named_nonfraction_not_nonnumeric n Hn).
    destruct (re_match_numeral (numeric_text n)); reflexivity.
  - destruct (is_tag_named "ix:nonnumeric" n); reflexivity.
Qed.

Lemma scan_rows_have_one_kind (nodes : list node) :
  Forall (fun r => is_nonnumeric_row r = negb (is_nonfraction_row r))
         (flat_map fact_in_place nodes).
Proof.
  induction nodes as [|n nodes IH]; simpl; [constructor|].
  apply Forall_app. split; [|exact IH]. unfold fact_in_place.
  destruct (is_tag_named "ix:nonfraction" n).
  - destruct (re_match_numeral (numeric_text n)); repeat constructor.
  - destruct (is_tag_named "ix:nonnumeric" n); repeat constructor.
Qed.

Lemma split_by_kind_is_permutation {A : Type} (p q : A -> bool) (l : list A) :
  Forall (fun x => q x = negb (p x)) l ->
  Permutation (filter p l ++ filter q l) l.
Proof.
  induction 1 as [|x l Hx _ IH]; simpl; [constructor|].
  rewrite Hx. destruct (p x); simpl.
  - now constructor.
  - symmetry. apply Permutation_cons_app. now symmetry.
Qed.

(** C9, as the code has it: the numeric facts come first and the
    non-numeric facts after them; inside each group the facts stand in
    the order of the document, and every fact of the document-order scan
    is kept, as often as it occurs. *)
Theorem facts_grouped_by_kind (soup : list node) :
  extract_features soup =
    filter is_nonfraction_row (scan_in_document_order soup)
    ++ filter is_nonnumeric_row (scan_in_document_order soup) /\
  Permutation (extract_features soup) (scan_in_document_order soup).
Proof.
  assert (H : extract_features soup =
              filter is_nonfraction_row (scan_in_document_order soup)
              ++ filter is_nonnumeric_row (scan_in_document_order soup)).
  { rewrite extract_features_two_passes. unfold scan_in_document_order.
    now rewrite nonfraction_facts_of_scan, nonnumeric_facts_of_scan. }
  split; [exact H|]. rewrite H.
  apply split_by_kind_is_permutation, scan_rows_have_one_kind.
Qed.

(** C9, as stated, fails on [filing_fragment]: the name of the
    registrant stands before the figure in the document and after it in
    the table. *)
Lemma document_order_is_not_kept :
  extract_features filing_fragment =
    [ nonfraction_row (nth 1 filing_fragment (Comment ""));
      nonnumeric_row (nth 0 filing_fragment (Comment "")) ] /\
  scan_in_document_order filing_fragment =
    [ nonnumeric_row (nth 0 filing_fragment (Comment ""));
      nonfraction_row (nth 1 filing_fragment (Comment "")) ] /\
  extract_features filing_fragment <> scan_in_document_order filing_fragment.
Proof.
  split; [reflexivity|]. split; [reflexivity|].
  intros H. vm_compute in H. discriminate H.
Qed.

(** A numeral ends with a digit. *)
Lemma numeral_ends_with_digit (text : list N) :
  decimal_numeral text ->
  exists pre p, text = pre ++ [p] /\ is_decimal p = true.
Proof.
  intros (neg & ip & fp & Hn & Hd & Hd' & ->). unfold written.
  destruct fp as [|f fp]; simpl.
  - destruct (exists_last Hn) as (pre & p & ->).
    apply Forall_app in Hd as [_ Hp]. inversion Hp; subst.
    exists (sign_text neg ++ pre), p.
    rewrite app_nil_r, app_assoc. auto.
  - assert (Hf : f :: fp <> []) by discriminate.
    destruct (exists_last Hf) as (pre & p & Heq). rewrite Heq in *.
    apply Forall_app in Hd' as [_ Hp]. inversion Hp; subst.
    exists (sign_text neg ++ ip ++ full_stop :: pre), p.
    rewrite <- !app_assoc. auto.
Qed.

(** The pattern lets a line feed through: this figure is no numeral
    once trimmed and freed of commas, and still gives a fact. *)
Lemma line_feed_passes_the_pattern :
  numeric_text (nth 0 figure_with_line_feed (Comment ""))
    = ("1" ++ new_line)%string /\
  ~ decimal_numeral (points ("1" ++ new_line)) /\
  map row_value (extract_features figure_with_line_feed) = [PFloat 1%float].
Proof.
  split; [reflexivity|]. split; [|reflexivity].
  intros H. apply numeral_ends_with_digit in H as (pre & p & Heq & Hp).
  change (points ("1" ++ new_line)) with ([49%N] ++ [line_feed]) in Heq.
  apply app_inj_tail in Heq as [_ <-]. discriminate Hp.
Qed.

(** The figure of the fragment, commas and white space gone. *)
Lemma figure_of_the_fragment :
  numeric_text (nth 1 filing_fragment (Comment "")) = "274515" /\
  map row_value (filter is_nonfraction_row (extract_features filing_fragment))
    = [PFloat 274515%float].
Proof. split; reflexivity. Qed.

(** The pattern and [float] know the digits of every script: this
    figure gives the fact 123. *)
Lemma digits_of_another_script :
  points (numeric_text (nth 0 figure_in_another_script (Comment "")))
    = [1633; 1634; 1635]%N /\
  map row_value (extract_features figure_in_another_script)
    = [PFloat 123%float].
Proof. split; reflexivity. Qed.

End ScannerFacts.

(* ================================================================== *)
(** * Facts about the extraction from the remote assistant *)
(* ================================================================== *)

Section ExtractionFacts.
Import Remote.

Lemma bind_returned {A B : Type} (m : io A) (k : A -> io B)
  (t : list event) (b : B) :
  bind m k = (t, Returned b) ->
  exists t1 a t2,
    m = (t1, Returned a) /\ k a = (t2, Returned b) /\ t = t1 ++ t2.
Proof.
  unfold bind. destruct m as [t1 [a|e|]]; try discriminate.
  destruct (k a) as [t2 o] eqn:Hk. intros [= <- ->].
  exists t1, a, t2. auto.
Qed.

Lemma call_returned {A : Type} (ev : A -> event) (reply : result A)
  (t : list event) (a : A) :
  call ev reply = (t, Returned a) -> reply = inr a /\ t = [ev a].
Proof.
  unfold call. destruct reply as [e|a']; [discriminate|].
  intros [= <- <-]. auto.
Qed.

Lemma releases_of_assistant_app (id : string) (t1 t2 : list event) :
  releases_of_assistant id (t1 ++ t2) =
  releases_of_assistant id t1 + releases_of_assistant id t2.
Proof. unfold releases_of_assistant. now rewrite filter_app, length_app. Qed.

Lemma releases_of_file_app (id : string) (t1 t2 : list event) :
  releases_of_file id (t1 ++ t2) =
  releases_of_file id t1 + releases_of_file id t2.
Proof. unfold releases_of_file. now rewrite filter_app, length_app. Qed.

Lemma no_release_counts (id : string) (t : list event) :
  Forall (fun ev => is_release ev = false) t ->
  releases_of_assistant id t = 0 /\ releases_of_file id t = 0.
Proof.
  unfold releases_of_assistant, releases_of_file.
  induction 1 as [|ev t Hev _ [IH1 IH2]]; simpl; [auto|].
  destruct ev; simpl in *; try discriminate; auto.
Qed.

(** Polling releases nothing, however it ends. *)
Lemma poll_releases_nothing (svc : service) (info : assistant_info)
  (fuel n : nat) (r : run_object) :
  Forall (fun ev => is_release ev = false) (trace (poll svc info fuel n r)).
Proof.
  revert n r. induction fuel as [|fuel IH]; intros n r; simpl;
    destruct (still_running r); try (constructor; fail).
  destruct (runs_retrieve svc n) as [e|r']; simpl.
  - repeat constructor.
  - specialize (IH (S n) r'). unfold trace in *.
    destruct (poll svc info fuel (S n) r') as [t o]. simpl in *.
    destruct o; repeat constructor; auto.
Qed.

(** Neither does the reading of the messages. *)
Lemma first_assistant_message_releases_nothing (data : list message) :
  Forall (fun ev => is_release ev = false)
         (trace (first_assistant_message data)).
Proof.
  induction data as [|m data IH]; simpl; [constructor|].
  destruct (String.eqb (role m) "assistant"); [|exact IH].
  destruct (message_payload m); simpl; repeat constructor.
Qed.

(** The reading of the messages always returns, with the payload of the
    first message of the assistant or with the default record. *)
Lemma first_assistant_message_returns (data : list message) :
  ending (first_assistant_message data) =
  Returned match assistant_message data with
           | Some m => match message_payload m with
                       | inr raw => raw
                       | inl _ => default_data
                       end
           | None => default_data
           end.
Proof.
  unfold assistant_message.
  induction data as [|m data IH]; simpl; [reflexivity|].
  destruct (String.eqb (role m) "assistant"); [|exact IH].
  destruct (message_payload m); reflexivity.
Qed.

(** The shape of every run that returns: the run is started, polled,
    the messages are listed, the assistant and the file are deleted, and
    the messages are read. *)
Lemma extract_returned (svc : service) (info : assistant_info) (fuel : nat)
  (t : list event) (v : pyval) :
  extract_financial_data svc info fuel = (t, Returned v) ->
  exists t_poll t_read data,
    messages_list svc = inr data /\
    first_assistant_message data = (t_read, Returned v) /\
    Forall (fun ev => is_release ev = false) t_poll /\
    t = [RunCreated (thread_id info) (assistant_id info)] ++ t_poll
        ++ [MessagesListed (thread_id info)]
        ++ [AssistantDeleted (assistant_id info)]
        ++ [FileDeleted (file_id info)] ++ t_read.
Proof.
  unfold extract_financial_data. intros H.
  apply bind_returned in H as (t1 & r & ta & H1 & H & ->).
  apply call_returned in H1 as [_ ->].
  apply bind_returned in H as (t2 & r2 & tb & H2 & H & ->).
  apply bind_returned in H as (t3 & data & tc & H3 & H & ->).
  apply call_returned in H3 as [Hdata ->].
  apply bind_returned in H as (t4 & u4 & td & H4 & H & ->).
  apply call_returned in H4 as [_ ->].
  apply bind_returned in H as (t5 & u5 & t6 & H5 & H & ->).
  apply call_returned in H5 as [_ ->].
  exists t2, t6, data. split; [exact Hdata|]. split; [exact H|].
  split; [|reflexivity].
  pose proof (poll_releases_nothing svc info fuel 0 r) as Hp.
  now rewrite H2 in Hp.
Qed.

(** On every path on which the function returns, the assistant and the
    file have each been deleted exactly once. *)
Lemma clean_up_before_return (svc : service) (info : assistant_info)
  (fuel : nat) (t : list event) (v : pyval) :
  extract_financial_data svc info fuel = (t, Returned v) ->
  releases_of_assistant (assistant_id info) t = 1 /\
  releases_of_file (file_id info) t = 1.
Proof.
  intros H.
  apply extract_returned in H as (t_poll & t_read & data & _ & Hread & Hp & ->).
  pose proof (first_assistant_message_releases_nothing data) as Hr.
  rewrite Hread in Hr. simpl in Hr.
  destruct (no_release_counts (assistant_id info) _ Hp) as [Ha Hf].
  destruct (no_release_counts (file_id info) _ Hp) as [_ Hf'].
  destruct (no_release_counts (assistant_id info) _ Hr) as [Ha2 _].
  destruct (no_release_counts (file_id info) _ Hr) as [_ Hf2].
  rewrite !releases_of_assistant_app, !releases_of_file_app.
  rewrite Ha, Ha2, Hf', Hf2.
  unfold releases_of_assistant, releases_of_file. simpl.
  rewrite !String.eqb_refl. auto.
Qed.

(** On no path is anything released twice, and the file is released only
    after the assistant. *)
Lemma never_released_twice (svc : service) (info : assistant_info)
  (fuel : nat) :
  let t := trace (extract_financial_data svc info fuel) in
  releases_of_file (file_id info) t <= releases_of_assistant (assistant_id info) t
  /\ releases_of_assistant (assistant_id info) t <= 1.
Proof.
  unfold extract_financial_data, trace.
  destruct (runs_create svc) as [e|r]; simpl; [auto|].
  pose proof (poll_releases_nothing svc info fuel 0 r) as Hp.
  destruct (poll svc info fuel 0 r) as [tp o]. simpl in Hp.
  destruct (no_release_counts (assistant_id info) _ Hp) as [Ha _].
  destruct (no_release_counts (file_id info) _ Hp) as [_ Hf].
  unfold releases_of_assistant, releases_of_file in *.
  destruct o as [r'|e|]; simpl; rewrite ?Ha, ?Hf; auto.
  destruct (messages_list svc) as [e|data]; simpl;
    [rewrite app_nil_r, Ha, Hf; auto|].
  pose proof (first_assistant_message_releases_nothing data) as Hr.
  destruct (first_assistant_message data) as [tr o']. simpl in Hr.
  destruct (no_release_counts (assistant_id info) _ Hr) as [Ha' _].
  destruct (no_release_counts (file_id info) _ Hr) as [_ Hf'].
  unfold releases_of_assistant, releases_of_file in *.
  destruct (assistants_delete svc) as [e|u]; simpl;
    [rewrite !filter_app, !length_app, Ha, Hf; simpl; auto|].
  destruct (files_delete svc) as [e|u']; simpl;
    rewrite !filter_app, !length_app, ?Ha, ?Hf; simpl;
    rewrite ?String.eqb_refl; simpl; rewrite ?Ha', ?Hf'; auto.
Qed.

(** C1, as the code has it: on no path is the assistant or the file
    released twice; and on every path on which the function returns,
    whether the answer was parsed or the default record was taken, each
    of the two has been released exactly once before the return. *)
Theorem released_once_when_returning (svc : service) (info : assistant_info)
  (fuel : nat) :
  let run := extract_financial_data svc info fuel in
  releases_of_assistant (assistant_id info) (trace run) <= 1 /\
  releases_of_file (file_id info) (trace run) <= 1 /\
  forall v : pyval,
    ending run = Returned v ->
    releases_of_assistant (assistant_id info) (trace run) = 1 /\
    releases_of_file (file_id info) (trace run) = 1.
Proof.
  intros run.
  destruct (never_released_twice svc info fuel) as [Hfile Hassistant].
  fold run in Hfile, Hassistant.
  split; [exact Hassistant|]. split; [lia|].
  intros v Hv. apply (clean_up_before_return svc info fuel (trace run) v).
  unfold ending, trace in *. subst run.
  destruct (extract_financial_data svc info fuel) as [t o].
  simpl in *. now subst o.
Qed.

Lemma released_once_when_returning_witness :
  ending (extract_financial_data (answering "{}") session 5)
    = Returned (PDict []) /\
  releases_of_assistant "asst_1"
    (trace (extract_financial_data (answering "{}") session 5)) = 1 /\
  releases_of_file "file_1"
    (trace (extract_financial_data (answering "{}") session 5)) = 1.
Proof.
  split; [reflexivity|].
  apply (proj2 (proj2 (released_once_when_returning (answering "{}") session 5))
           (PDict [])).
  reflexivity.
Defined.

(** C1, as stated, fails when a call before the clean-up raises: the
    run ends and nothing is released. *)
Lemma nothing_released_when_the_run_cannot_start :
  extract_financial_data unreachable session 5
    = ([], Raised (APIError "Connection error.")) /\
  ~ (releases_of_assistant "asst_1"
       (trace (extract_financial_data unreachable session 5)) = 1 /\
     releases_of_file "file_1"
       (trace (extract_financial_data unreachable session 5)) = 1).
Proof.
  split; [reflexivity|]. intros [H _]. discriminate H.
Qed.

(** ** The run ends when the service settles *)

Lemma poll_ends (svc : service) (info : assistant_info) (fuel : nat) :
  forall (n : nat) (r : run_object) (k : nat),
    n <= k < n + fuel -> settles svc k ->
    ending (poll svc info fuel n r) <> Polling.
Proof.
  induction fuel as [|fuel IH]; intros n r k Hk Hs; [lia|]. simpl.
  destruct (still_running r); [|discriminate]. unfold settles in Hs.
  destruct (runs_retrieve svc n) as [e|r'] eqn:Hn; simpl; [discriminate|].
  destruct (Nat.eq_dec k n) as [->|Hne].
  - rewrite Hn in Hs. destruct fuel; simpl; rewrite Hs; discriminate.
  - specialize (IH (S n) r' k ltac:(lia) Hs). unfold ending in *.
    destruct (poll svc info fuel (S n) r') as [t o]. simpl in *.
    destruct o; auto; discriminate.
Qed.

(** With fuel beyond a poll that settles, the model of the function
    returns or raises. *)
Lemma extract_ends (svc : service) (info : assistant_info) (fuel k : nat) :
  settles svc k -> k < fuel ->
  ending (extract_financial_data svc info fuel) <> Polling.
Proof.
  intros Hs Hk. unfold extract_financial_data, ending.
  destruct (runs_create svc) as [e|r]; simpl; [discriminate|].
  pose proof (poll_ends svc info fuel 0 r k ltac:(lia) Hs) as Hp.
  unfold ending in Hp.
  destruct (poll svc info fuel 0 r) as [tp o]. simpl in Hp.
  destruct o as [r'|e|]; simpl; [|discriminate|congruence].
  destruct (messages_list svc) as [e|data]; simpl; [discriminate|].
  pose proof (first_assistant_message_returns data) as Hr. unfold ending in Hr.
  destruct (first_assistant_message data) as [tr o']. simpl in Hr. subst o'.
  destruct (assistants_delete svc) as [e|u]; simpl; [discriminate|].
  destruct (files_delete svc) as [e|u']; simpl; discriminate.
Qed.

(** When every call returns and the run settles, the function returns. *)
Lemma extract_returns (svc : service) (info : assistant_info) (fuel k : nat)
  (r : run_object) (data : list message) :
  runs_create svc = inr r ->
  (forall n, exists r', runs_retrieve svc n = inr r') ->
  settles svc k -> k < fuel ->
  messages_list svc = inr data ->
  assistants_delete svc = inr tt -> files_delete svc = inr tt ->
  exists v, ending (extract_financial_data svc info fuel) = Returned v.
Proof.
  intros Hc Hall Hs Hk Hm Ha Hf.
  pose proof (extract_ends svc info fuel k Hs Hk) as He. revert He.
  unfold extract_financial_data, ending. rewrite Hc. simpl.
  assert (Hp : forall f n r0, match snd (poll svc info f n r0) with
                              | Raised _ => False | _ => True end).
  { induction f as [|f IH]; intros n r0; simpl;
      destruct (still_running r0); simpl; auto.
    destruct (Hall n) as [r' ->]. simpl. specialize (IH (S n) r').
    destruct (poll svc info f (S n) r') as [t o]. simpl in *.
    now destruct o. }
  specialize (Hp fuel 0 r).
  destruct (poll svc info fuel 0 r) as [tp o]. simpl in *.
  destruct o as [r'|e|]; simpl; [|contradiction|congruence].
  rewrite Hm, Ha, Hf. simpl.
  pose proof (first_assistant_message_returns data) as Hr. unfold ending in Hr.
  destruct (first_assistant_message data) as [tr o']. simpl in *. subst o'.
  intros _. eauto.
Qed.

(** ** What is handed downstream *)

(** What a run that returns hands back: the decoded answer of the first
    message of the assistant, or the default record. *)
Lemma returned_record (svc : service) (info : assistant_info)
  (fuel : nat) (t : list event) (v : pyval) :
  extract_financial_data svc info fuel = (t, Returned v) ->
  exists data, messages_list svc = inr data /\
    v = match assistant_message data with
        | Some m => match message_payload m with
                    | inr raw => raw
                    | inl _ => default_data
                    end
        | None => default_data
        end.
Proof.
  intros H.
  apply extract_returned in H as (_ & t_read & data & Hd & Hread & _ & _).
  exists data. split; [exact Hd|].
  pose proof (first_assistant_message_returns data) as Hr.
  rewrite Hread in Hr. simpl in Hr. now injection Hr as ->.
Qed.

(** C2, as the code has it: the record handed downstream is the parsed
    answer of the assistant as it is, so that a group the answer lacks is
    lacking downstream too; the zero-filled default is taken only as a
    whole record, when there is no answer that parses. *)
Theorem payload_handed_down_unchanged (svc : service) (info : assistant_info)
  (fuel : nat) (t : list event) (v : pyval) :
  extract_financial_data svc info fuel = (t, Returned v) ->
  exists data, messages_list svc = inr data /\
    match assistant_message data with
    | Some m =>
        match message_payload m with
        | inr raw =>
            v = raw /\
            forall group, getitem raw group = inl (KeyError group) ->
                          getitem v group = inl (KeyError group)
        | inl _ => v = default_data
        end
    | None => v = default_data
    end.
Proof.
  intros H. apply returned_record in H as (data & Hd & ->).
  exists data. split; [exact Hd|].
  destruct (assistant_message data) as [m|]; [|reflexivity].
  destruct (message_payload m) as [e|raw]; [reflexivity|]. auto.
Qed.

Lemma payload_handed_down_unchanged_witness :
  exists data, messages_list (answering three_groups) = inr data /\
    match assistant_message data with
    | Some m =>
        match message_payload m with
        | inr raw =>
            three_groups_record = raw /\
            forall group, getitem raw group = inl (KeyError group) ->
                          getitem three_groups_record group
                          = inl (KeyError group)
        | inl _ => three_groups_record = default_data
        end
    | None => three_groups_record = default_data
    end.
Proof.
  apply (payload_handed_down_unchanged (answering three_groups) session 5
           (trace (extract_financial_data (answering three_groups) session 5))).
  vm_compute. reflexivity.
Defined.

(** C2, as stated, fails on an answer with three groups: the record
    handed downstream has no [cash_flow] group, where the claim puts the
    zero-filled one. *)
Lemma absent_group_stays_absent :
  Json.loads three_groups = inr three_groups_record /\
  ending (extract_financial_data (answering three_groups) session 5)
    = Returned three_groups_record /\
  getitem three_groups_record "cash_flow" = inl (KeyError "cash_flow") /\
  getitem three_groups_record "cash_flow" <> getitem default_data "cash_flow".
Proof.
  split; [vm_compute; reflexivity|]. split; [vm_compute; reflexivity|].
  split; [reflexivity|]. discriminate.
Qed.

(** C6, as the code has it: when the first message of the assistant
    cannot be read as JSON (it has no content, no text, or text that
    [json.loads] rejects), or when no message is the assistant's, the
    function returns the fixed default record, whose company is
    "Unknown", fiscal year "2023", type "10-K" and whose nine figures are
    all 0. *)
Theorem default_record_when_unparsable (svc : service) (info : assistant_info)
  (fuel : nat) (t : list event) (v : pyval) (data : list message) :
  extract_financial_data svc info fuel = (t, Returned v) ->
  messages_list svc = inr data ->
  (assistant_message data = None \/
   exists m e, assistant_message data = Some m /\ message_payload m = inl e) ->
  v = default_data /\
  (getitem v "document_info" =
     inr (PDict [("company_name", PStr "Unknown");
                 ("fiscal_year", PStr "2023");
                 ("document_type", PStr "10-K")])) /\
  forall k : Sqlite.statement,
    let '(k1, k2, k3) := Sqlite.metric_keys k in
    getitem v (Sqlite.group_key k)
    = inr (PDict [(k1, PInt 0); (k2, PInt 0); (k3, PInt 0)]).
Proof.
  intros H Hd Hcase.
  apply returned_record in H as (data' & Hd' & H).
  rewrite Hd in Hd'. injection Hd' as <-.
  assert (Hv : v = default_data).
  { destruct Hcase as [Hnone|(m & e & Hm & He)].
    - now rewrite Hnone in H.
    - now rewrite Hm, He in H. }
  rewrite Hv. split; [reflexivity|]. split; [reflexivity|].
  intros []; reflexivity.
Qed.

Lemma default_record_when_unparsable_witness :
  default_data = default_data /\
  (getitem default_data "document_info" =
     inr (PDict [("company_name", PStr "Unknown");
                 ("fiscal_year", PStr "2023");
                 ("document_type", PStr "10-K")])) /\
  forall k : Sqlite.statement,
    let '(k1, k2, k3) := Sqlite.metric_keys k in
    getitem default_data (Sqlite.group_key k)
    = inr (PDict [(k1, PInt 0); (k2, PInt 0); (k3, PInt 0)]).
Proof.
  apply (default_record_when_unparsable (answering truncated_answer) session 5
           (trace (extract_financial_data (answering truncated_answer) session 5))
           default_data
           [ {| role := "assistant"; content := [TextBlock truncated_answer] |};
             {| role := "user"; content := [TextBlock "Please analyze"] |} ]).
  - vm_compute. reflexivity.
  - reflexivity.
  - right. eexists. eexists. split; [reflexivity|]. vm_compute. reflexivity.
Defined.

(** C6, as stated, fails on an answer that is valid JSON and not of the
    canonical schema: the empty object is returned as it is, not the
    default record. *)
Lemma valid_json_off_schema_is_returned :
  Json.loads "{}" = inr (PDict []) /\
  canonical (PDict []) = false /\
  extract_financial_data (answering "{}") session 5
  = ([ RunCreated "thread_1" "asst_1"; Slept 2; RunRetrieved "thread_1" "run_1";
       Slept 2; RunRetrieved "thread_1" "run_1"; MessagesListed "thread_1";
       AssistantDeleted "asst_1"; FileDeleted "file_1" ],
     Returned (PDict [])) /\
  PDict [] <> default_data.
Proof.
  split; [reflexivity|]. split; [reflexivity|]. split; [reflexivity|].
  discriminate.
Qed.

End ExtractionFacts.

(* ================================================================== *)
(** * Facts about the store *)
(* ================================================================== *)

Section StoreFacts.
Import Sqlite.
Local Open Scope Z_scope.

(** ** Statements touch the open transaction only *)


Lemma keeps_committed_bind {A B : Type} (m : tx A) (k : A -> tx B) :
  keeps_committed m -> (forall a, keeps_committed (k a)) ->
  keeps_committed (tx_bind m k).
Proof.
  intros Hm Hk c c' r. unfold tx_bind.
  destruct (m c) as [c1 [e|a]] eqn:H1.
  - intros [= <- <-]. exact (Hm _ _ _ H1).
  - intros H2. destruct (Hm _ _ _ H1) as [Ha Hb].
    destruct (Hk a _ _ _ H2) as [Hc Hd]. split; congruence.
Qed.

Lemma keeps_committed_eval {A : Type} (r : result A) :
  keeps_committed (eval r).
Proof. intros c c' r' [= <- <-]. auto. Qed.

Lemma insert_document_inv (c c' : connection) (p1 p2 p3 : pyval) (n : Z) :
  insert_document c p1 p2 p3 = inr (c', n) ->
  exists d, id d = n /\ n = documents_seq (working c) + 1 /\
            c' = with_working c (add_document (working c) d).
Proof.
  unfold insert_document, and_then.
  destruct (bind_param p1); [discriminate|].
  destruct (bind_param p2); [discriminate|].
  destruct (bind_param p3); [discriminate|].
  destruct (not_null _ _ _); [discriminate|].
  destruct (not_null _ _ _); [discriminate|].
  destruct (not_null _ _ _); [discriminate|].
  unfold next_key. destruct (int64_max <=? _); [discriminate|].
  intros [= <- <-]. eexists (mk_document _ _ _ _). simpl.
  split; [reflexivity|]. split; reflexivity.
Qed.

Lemma insert_statement_inv (c c' : connection) (k : statement) (doc : Z)
  (p1 p2 p3 : pyval) :
  insert_statement c k doc p1 p2 p3 = inr c' ->
  exists x, document_id x = doc /\ row_id x = seq_of (working c) k + 1 /\
            c' = with_working c (add_statement (working c) k x).
Proof.
  unfold insert_statement, and_then.
  destruct (bind_param (PInt doc)); [discriminate|].
  destruct (bind_param p1); [discriminate|].
  destruct (bind_param p2); [discriminate|].
  destruct (bind_param p3); [discriminate|].
  unfold next_key. destruct (int64_max <=? _); [discriminate|].
  destruct (foreign_keys c && _); [discriminate|].
  intros [= <-]. eexists (mk_statement _ _ _ _ _). simpl.
  split; [reflexivity|]. split; reflexivity.
Qed.

Lemma insert_group_inv (k : statement) (doc : Z) (data : pyval)
  (c c' : connection) (r : result unit) :
  insert_group k doc data c = (c', r) ->
  match r with
  | inr _ => exists x, document_id x = doc /\
                       row_id x = seq_of (working c) k + 1 /\
                       c' = with_working c (add_statement (working c) k x)
  | inl _ => c' = c
  end.
Proof.
  unfold insert_group. destruct (metric_keys k) as [[k1 k2] k3].
  unfold tx_bind, eval, execute.
  destruct (let* g := getitem data (group_key k) in getitem g k1) as [e|q1];
    [intros [= <- <-]; reflexivity|].
  destruct (let* g := getitem data (group_key k) in getitem g k2) as [e|q2];
    [intros [= <- <-]; reflexivity|].
  destruct (let* g := getitem data (group_key k) in getitem g k3) as [e|q3];
    [intros [= <- <-]; reflexivity|].
  destruct (insert_statement c k doc q1 q2 q3) as [e|c1] eqn:Hi;
    intros [= <- <-]; [reflexivity|].
  exact (insert_statement_inv _ _ _ _ _ _ _ Hi).
Qed.

Lemma insert_group_keeps_committed (k : statement) (doc : Z) (data : pyval) :
  keeps_committed (insert_group k doc data).
Proof.
  intros c c' r H. apply insert_group_inv in H.
  destruct r as [e|u]; [now subst|].
  destruct H as (x & _ & _ & ->). auto.
Qed.

Lemma document_statements_keeps_committed (doc_info data : pyval) :
  keeps_committed (document_statements doc_info data).
Proof.
  unfold document_statements.
  apply keeps_committed_bind; [apply keeps_committed_eval|intros q1].
  apply keeps_committed_bind; [apply keeps_committed_eval|intros q2].
  apply keeps_committed_bind; [apply keeps_committed_eval|intros q3].
  apply keeps_committed_bind; [|intros doc].
  - intros c c' r. unfold execute.
    destruct (insert_document c q1 q2 q3) as [e|[c1 n]] eqn:Hi;
      intros [= <- <-]; [auto|].
    apply insert_document_inv in Hi as (d & _ & _ & ->). auto.
  - apply keeps_committed_bind;
      [apply insert_group_keeps_committed|intros _].
    apply keeps_committed_bind;
      [apply insert_group_keeps_committed|intros _].
    apply insert_group_keeps_committed.
Qed.


Lemma document_statements_inv (doc_info data : pyval) (c c' : connection) :
  document_statements doc_info data c = (c', inr tt) ->
  exists d x1 x2 x3,
    id d = documents_seq (working c) + 1 /\
    document_id x1 = id d /\ document_id x2 = id d /\ document_id x3 = id d /\
    row_id x1 = income_seq (working c) + 1 /\
    row_id x2 = balance_seq (working c) + 1 /\
    row_id x3 = cash_seq (working c) + 1 /\
    c' = with_working c (with_document (working c) d x1 x2 x3).
Proof.
  unfold document_statements, tx_bind, eval.
  destruct (getitem doc_info "company_name") as [e|q1]; [discriminate|].
  destruct (getitem doc_info "fiscal_year") as [e|q2]; [discriminate|].
  destruct (getitem doc_info "document_type") as [e|q3]; [discriminate|].
  unfold execute at 1.
  destruct (insert_document c q1 q2 q3) as [e|[c1 n]] eqn:Hd; [discriminate|].
  apply insert_document_inv in Hd as (d & Hid & Hn & ->). simpl fst. simpl snd.
  destruct (insert_group income_statements n data _) as [c2 [e|u]] eqn:H1;
    [discriminate|].
  apply insert_group_inv in H1 as (x1 & Hx1 & Hr1 & ->).
  destruct (insert_group balance_sheets n data _) as [c3 [e|u']] eqn:H2;
    [discriminate|].
  apply insert_group_inv in H2 as (x2 & Hx2 & Hr2 & ->).
  intros H3. apply insert_group_inv in H3 as (x3 & Hx3 & Hr3 & ->).
  exists d, x1, x2, x3. subst n. simpl in Hr1, Hr2, Hr3.
  repeat split; try congruence.
Qed.

(** A document is written whole and committed, or the committed file is
    as it was. *)
Lemma write_document_inv (doc_info data : pyval) (c c' : connection)
  (r : result unit) :
  write_document doc_info data c = (c', r) ->
  foreign_keys c' = foreign_keys c /\
  match r with
  | inr _ =>
      exists d x1 x2 x3,
        id d = documents_seq (working c) + 1 /\
        document_id x1 = id d /\ document_id x2 = id d /\
        document_id x3 = id d /\
        row_id x1 = income_seq (working c) + 1 /\
        row_id x2 = balance_seq (working c) + 1 /\
        row_id x3 = cash_seq (working c) + 1 /\
        committed c' = with_document (working c) d x1 x2 x3 /\
        working c' = committed c'
  | inl _ => committed c' = committed c
  end.
Proof.
  unfold write_document, tx_bind.
  destruct (document_statements doc_info data c) as [c1 [e|[]]] eqn:Hs.
  - intros [= <- <-].
    destruct (document_statements_keeps_committed _ _ _ _ _ Hs). auto.
  - intros [= <- <-].
    apply document_statements_inv in Hs
      as (d & x1 & x2 & x3 & Hd & H1 & H2 & H3 & R1 & R2 & R3 & ->).
    split; [reflexivity|]. exists d, x1, x2, x3. simpl. auto 12.
Qed.

Lemma extends_refl (t : tables) : extends t t.
Proof.
  split; [exists []|intros k; exists []]; now rewrite app_nil_r.
Qed.

Lemma extends_trans (t1 t2 t3 : tables) :
  extends t1 t2 -> extends t2 t3 -> extends t1 t3.
Proof.
  intros [[ds1 Hd1] Hr1] [[ds2 Hd2] Hr2]. split.
  - exists (ds1 ++ ds2). now rewrite Hd2, Hd1, app_assoc.
  - intros k. destruct (Hr1 k) as [xs1 H1]. destruct (Hr2 k) as [xs2 H2].
    exists (xs1 ++ xs2). now rewrite H2, H1, app_assoc.
Qed.

Lemma with_document_extends (t : tables) (d : document_row)
  (x1 x2 x3 : statement_row) :
  extends t (with_document t d x1 x2 x3).
Proof.
  split; [exists [d]; reflexivity|].
  intros []; eexists; reflexivity.
Qed.

Lemma with_document_sound (t : tables) (d : document_row)
  (x1 x2 x3 : statement_row) :
  sound t -> id d = documents_seq t + 1 ->
  document_id x1 = id d -> document_id x2 = id d -> document_id x3 = id d ->
  sound (with_document t d x1 x2 x3).
Proof.
  intros [Hrows Hkeys Hseq] Hd H1 H2 H3. constructor.
  - pose proof (Hrows income_statements) as Ha.
    pose proof (Hrows balance_sheets) as Hb.
    pose proof (Hrows cash_flows) as Hc. simpl in Ha, Hb, Hc.
    intros []; simpl; rewrite !map_app; simpl; congruence.
  - simpl. rewrite map_app. simpl.
    apply NoDup_app; [exact Hkeys|repeat constructor; simpl; tauto|].
    intros z Hz [<-|[]]. rewrite Forall_forall in Hseq.
    apply in_map_iff in Hz as (d' & Hz & Hin). specialize (Hseq _ Hin). lia.
  - simpl. apply Forall_app. split.
    + eapply Forall_impl; [|exact Hseq]. simpl. intros. lia.
    + repeat constructor. lia.
Qed.

Lemma init_database_sound : sound init_database.
Proof. repeat constructor. intros []; reflexivity. Qed.

Lemma sound_fully_written (t : tables) : sound t -> fully_written t.
Proof.
  intros [Hrows Hkeys Hseq]. split; [exact Hkeys|]. intros k. split.
  - intros d Hd. rewrite Hrows.
    apply NoDup_count_occ'; [exact Hkeys|now apply in_map].
  - intros x Hx.
    assert (Hin : In (document_id x) (map id (documents t)))
      by (rewrite <- (Hrows k); now apply in_map).
    apply in_map_iff in Hin as (d & Hd & Hin). eauto.
Qed.

(** ** The loop over the batch *)


Lemma rollback_at_rest (c c' : connection) :
  at_rest c -> committed c' = committed c ->
  foreign_keys c' = foreign_keys c -> rollback c' = c.
Proof.
  intros [Hw Hf] Hc Hk. destruct c, c'. unfold rollback. simpl in *.
  congruence.
Qed.

(** A document whose [document_info] is found and whose write raises,
    whatever the exception, leaves the store as it was before that
    document; its failure is printed with its label, and the loop goes
    on with the next document. *)
Lemma write_failure_is_isolated (filename : string) (data doc_info : pyval)
  (rest : list (string * pyval)) (c c1 : connection) (log : list string)
  (e : exn) :
  at_rest c ->
  getitem data "document_info" = inr doc_info ->
  write_document doc_info data c = (c1, inl e) ->
  rollback c1 = c /\
  save_documents ((filename, data) :: rest) c log
  = save_documents rest c (log ++ [failure_line filename e]).
Proof.
  intros Hc Hi Hw.
  destruct (write_document_inv _ _ _ _ _ Hw) as [Hk Hcm].
  assert (Hr : rollback c1 = c) by now apply rollback_at_rest.
  split; [exact Hr|]. simpl. now rewrite Hi, Hw, Hr.
Qed.

Lemma save_documents_inv (items : list (string * pyval)) :
  forall (c : connection) (log : list string) (c' : connection)
         (log' : list string) (raised : option exn),
    save_documents items c log = (c', log', raised) ->
    at_rest c -> sound (committed c) ->
    at_rest c' /\ sound (committed c') /\
    extends (committed c) (committed c') /\
    exists failed,
      log' = log ++ failed /\
      (raised = None ->
       (List.length (documents (committed c')) + List.length failed
        = List.length (documents (committed c)) + List.length items)%nat).
Proof.
  induction items as [|[filename data] rest IH];
    intros c log c' log' raised H Hrest Hsound; simpl in H.
  - injection H as <- <- <-. split; [exact Hrest|]. split; [exact Hsound|].
    split; [apply extends_refl|]. exists []. rewrite app_nil_r. simpl.
    split; [reflexivity|lia].
  - destruct (getitem data "document_info") as [e|doc_info] eqn:Hi.
    + injection H as <- <- <-. split; [exact Hrest|]. split; [exact Hsound|].
      split; [apply extends_refl|]. exists []. rewrite app_nil_r.
      split; [reflexivity|discriminate].
    + destruct (write_document doc_info data c) as [c1 [e|u]] eqn:Hw.
      * destruct (write_failure_is_isolated filename data doc_info rest c c1
                    log e Hrest Hi Hw) as [Hr _].
        rewrite Hr in H.
        destruct (IH _ _ _ _ _ H Hrest Hsound)
          as (Hrest' & Hsound' & Hext & failed & -> & Hcount).
        split; [exact Hrest'|]. split; [exact Hsound'|].
        split; [exact Hext|]. exists (failure_line filename e :: failed).
        rewrite <- app_assoc. split; [reflexivity|].
        intros Hn. specialize (Hcount Hn). simpl. lia.
      * destruct (write_document_inv _ _ _ _ _ Hw)
          as (Hk & d & x1 & x2 & x3 & Hd & H1 & H2 & H3 & _ & _ & _
              & Hcm & Hwk).
        destruct Hrest as [Hw0 Hf0]. rewrite Hw0 in Hcm, Hd.
        assert (Hrest1 : at_rest c1) by (split; congruence).
        assert (Hsound1 : sound (committed c1))
          by (rewrite Hcm; now apply with_document_sound).
        destruct (IH _ _ _ _ _ H Hrest1 Hsound1)
          as (Hrest' & Hsound' & Hext & failed & -> & Hcount).
        split; [exact Hrest'|]. split; [exact Hsound'|]. split.
        -- eapply extends_trans; [|exact Hext]. rewrite Hcm.
           apply with_document_extends.
        -- exists failed. split; [reflexivity|].
           intros Hn. specialize (Hcount Hn). rewrite Hcm in Hcount.
           simpl in Hcount. rewrite length_app in Hcount. simpl in *. lia.
Qed.

(** ** Which writes pass *)

Lemma not_null_passes (table column : string) (p : pyval) :
  match bind_param p with
  | inr v =>
      if text_bindable p then exists s, not_null table column v = inr s
      else exists e, not_null table column v = inl e
  | inl _ => text_bindable p = false
  end.
Proof.
  unfold text_bindable, not_null.
  destruct (bind_param p) as [e|[]]; simpl; eauto.
Qed.

Lemma insert_document_passes (c : connection) (p1 p2 p3 : pyval) :
  documents_seq (working c) < int64_max ->
  if text_bindable p1 && text_bindable p2 && text_bindable p3
  then exists c' n, insert_document c p1 p2 p3 = inr (c', n)
  else exists e, insert_document c p1 p2 p3 = inl e.
Proof.
  intros Hseq. unfold insert_document, and_then.
  pose proof (not_null_passes "documents" "company_name" p1) as H1.
  pose proof (not_null_passes "documents" "fiscal_year" p2) as H2.
  pose proof (not_null_passes "documents" "document_type" p3) as H3.
  destruct (bind_param p1) as [e|v1]; [rewrite H1; simpl; eauto|].
  destruct (bind_param p2) as [e|v2];
    [rewrite H2, andb_false_r; simpl; eauto|].
  destruct (bind_param p3) as [e|v3]; [rewrite H3, andb_false_r; eauto|].
  destruct (text_bindable p1); destruct H1 as [s1 ->]; simpl; eauto.
  destruct (text_bindable p2); destruct H2 as [s2 ->]; simpl; eauto.
  destruct (text_bindable p3); destruct H3 as [s3 ->]; simpl; eauto.
  unfold next_key. destruct (Z.leb_spec int64_max (documents_seq (working c)));
    [lia|eauto].
Qed.

Lemma bind_param_key (n : Z) :
  int64_min <= n <= int64_max -> bind_param (PInt n) = inr (SInt n).
Proof.
  intros [H0 H1]. simpl.
  destruct (Z.leb_spec int64_min n); [|lia].
  destruct (Z.leb_spec n int64_max); [|lia]. reflexivity.
Qed.

Lemma insert_group_passes (k : statement) (doc : Z) (data : pyval)
  (c : connection) :
  int64_min <= doc <= int64_max ->
  seq_of (working c) k < int64_max ->
  document_exists (working c) doc = true ->
  if group_storable data k
  then exists c', insert_group k doc data c = (c', inr tt)
  else exists e, insert_group k doc data c = (c, inl e).
Proof.
  intros Hdoc Hseq Hex. unfold group_storable, insert_group, field.
  destruct (metric_keys k) as [[k1 k2] k3]. unfold tx_bind, eval, execute.
  destruct (let* g := getitem data (group_key k) in getitem g k1) as [e|q1];
    [eauto|].
  destruct (let* g := getitem data (group_key k) in getitem g k2) as [e|q2];
    [eauto|].
  destruct (let* g := getitem data (group_key k) in getitem g k3) as [e|q3];
    [eauto|].
  unfold insert_statement, and_then, bindable.
  rewrite (bind_param_key doc Hdoc).
  destruct (bind_param q1) as [e|v1]; simpl; [eauto|].
  destruct (bind_param q2) as [e|v2]; simpl; [eauto|].
  destruct (bind_param q3) as [e|v3]; simpl; [eauto|].
  unfold next_key. destruct (Z.leb_spec int64_max (seq_of (working c) k));
    [lia|].
  rewrite Hex, andb_false_r. eauto.
Qed.

Lemma document_exists_add_document (t : tables) (d : document_row) :
  document_exists (add_document t d) (id d) = true.
Proof.
  unfold document_exists. simpl. rewrite existsb_app. simpl.
  now rewrite Z.eqb_refl, orb_true_r.
Qed.

(** With room for one more row in every table, a document is written
    exactly when it is [storable]. *)
Lemma write_document_passes (data doc_info : pyval) (c : connection) :
  getitem data "document_info" = inr doc_info ->
  room (working c) 1 ->
  if storable data
  then exists c', write_document doc_info data c = (c', inr tt)
  else exists c' e, write_document doc_info data c = (c', inl e).
Proof.
  intros Hi [[Hd0 Hd1] Hroom].
  pose proof (Hroom income_statements) as [Hi0 Hi1].
  pose proof (Hroom balance_sheets) as [Hb0 Hb1].
  pose proof (Hroom cash_flows) as [Hc0 Hc1]. simpl in *.
  unfold storable, field, write_document, document_statements.
  rewrite Hi. unfold and_then, tx_bind, eval, execute.
  destruct (getitem doc_info "company_name") as [e|q1]; [eauto|].
  destruct (getitem doc_info "fiscal_year") as [e|q2]; [eauto|].
  destruct (getitem doc_info "document_type") as [e|q3]; [eauto|].
  pose proof (insert_document_passes c q1 q2 q3 ltac:(lia)) as Hins.
  destruct (text_bindable q1 && text_bindable q2 && text_bindable q3);
    [|destruct Hins as [e ->]; simpl; eauto].
  destruct Hins as (c1 & n & Hins). rewrite Hins. simpl fst. simpl snd.
  cbv beta iota.
  apply insert_document_inv in Hins as (d & Hid & Hn & Hcn1).
  assert (Hw1 : working c1 = add_document (working c) d) by now subst c1.
  assert (Hrange : int64_min <= n <= int64_max)
    by (unfold int64_min, int64_max in *; lia).
  assert (Hex : document_exists (working c1) n = true)
    by (rewrite Hw1, <- Hid; apply document_exists_add_document).
  clear Hcn1.
  pose proof (insert_group_passes income_statements n data c1 Hrange
                ltac:(rewrite Hw1; simpl; lia) Hex) as H1.
  destruct (group_storable data income_statements);
    [|destruct H1 as [e ->]; simpl; eauto].
  destruct H1 as [c2 H1]. rewrite H1. cbv beta iota.
  apply insert_group_inv in H1 as (x1 & _ & _ & Hcn2).
  assert (Hw2 : working c2 = add_statement (working c1) income_statements x1)
    by now subst c2.
  clear Hcn2.
  pose proof (insert_group_passes balance_sheets n data c2 Hrange
                ltac:(rewrite Hw2, Hw1; simpl; lia)
                ltac:(rewrite Hw2; exact Hex)) as H2.
  destruct (group_storable data balance_sheets);
    [|destruct H2 as [e ->]; simpl; eauto].
  destruct H2 as [c3 H2]. rewrite H2. cbv beta iota.
  apply insert_group_inv in H2 as (x2 & _ & _ & Hcn3).
  assert (Hw3 : working c3 = add_statement (working c2) balance_sheets x2)
    by now subst c3.
  clear Hcn3.
  pose proof (insert_group_passes cash_flows n data c3 Hrange
                ltac:(rewrite Hw3, Hw2, Hw1; simpl; lia)
                ltac:(rewrite Hw3; rewrite Hw2 in *; exact Hex)) as H3.
  destruct (group_storable data cash_flows);
    [|destruct H3 as [e ->]; simpl; eauto].
  destruct H3 as [c4 ->]. simpl. eauto.
Qed.

Lemma room_less (t : tables) (n m : Z) : m <= n -> room t n -> room t m.
Proof.
  intros Hm [[H0 H1] Hk]. split; [lia|]. intros k.
  destruct (Hk k). lia.
Qed.

Lemma save_documents_count (items : list (string * pyval)) :
  forall (c : connection) (log : list string) (c' : connection)
         (log' : list string),
    save_documents items c log = (c', log', None) ->
    at_rest c -> room (committed c) (Z.of_nat (List.length items)) ->
    List.length (documents (committed c'))
    = (List.length (documents (committed c)) + storable_count items)%nat.
Proof.
  induction items as [|[filename data] rest IH];
    intros c log c' log' H Hrest Hroom; simpl in H.
  - injection H as <- <-. unfold storable_count. simpl. lia.
  - destruct (getitem data "document_info") as [e|doc_info] eqn:Hi;
      [discriminate|].
    assert (Hroom1 : room (working c) 1).
    { destruct Hrest as [-> _]. eapply room_less; [|exact Hroom].
      simpl List.length. lia. }
    pose proof (write_document_passes data doc_info c Hi Hroom1) as Hp.
    unfold storable_count. simpl.
    destruct (write_document doc_info data c) as [c1 [e|u]] eqn:Hw.
    + destruct (storable data);
        [destruct Hp as [c2 Hp]; discriminate Hp|].
      destruct (write_failure_is_isolated filename data doc_info rest c c1
                  log e Hrest Hi Hw) as [Hr _].
      rewrite Hr in H. apply IH in H; [exact H|exact Hrest|].
      eapply room_less; [|exact Hroom]. simpl List.length. lia.
    + destruct (storable data);
        [|destruct Hp as (c2 & e & Hp); discriminate Hp].
      destruct (write_document_inv _ _ _ _ _ Hw)
        as (Hk & d & x1 & x2 & x3 & Hd & _ & _ & _ & R1 & R2 & R3
            & Hcm & Hwk).
      destruct Hrest as [Hw0 Hf0]. rewrite Hw0 in *.
      apply IH in H.
      * rewrite H, Hcm. simpl. rewrite length_app. simpl.
        unfold storable_count. lia.
      * split; congruence.
      * rewrite Hcm. destruct Hroom as [[H0 H1] Hk']. simpl List.length in *.
        pose proof (Hk' income_statements) as [? ?].
        pose proof (Hk' balance_sheets) as [? ?].
        pose proof (Hk' cash_flows) as [? ?]. simpl in *.
        split; [simpl; lia|]. intros []; simpl; lia.
Qed.

Lemma save_documents_app (pre post : list (string * pyval)) :
  forall (c : connection) (log : list string),
    save_documents (pre ++ post) c log =
    match save_documents pre c log with
    | (c1, log1, None) => save_documents post c1 log1
    | stopped => stopped
    end.
Proof.
  induction pre as [|[filename data] pre IH]; intros c log; simpl;
    [reflexivity|].
  destruct (getitem data "document_info") as [e|doc_info]; [reflexivity|].
  destruct (write_document doc_info data c) as [c1 [e|u]]; apply IH.
Qed.

Lemma connect_at_rest (t : tables) : at_rest (pragma_foreign_keys_on (connect t)).
Proof. split; reflexivity. Qed.

(** What [save_financial_data] leaves is what the loop committed. *)
Lemma save_financial_data_store (batch : list (string * pyval)) (t0 : tables) :
  exists c', save_documents batch (pragma_foreign_keys_on (connect t0)) []
             = (c', snd (fst (save_financial_data batch t0)),
                snd (save_financial_data batch t0)) /\
             fst (fst (save_financial_data batch t0)) = committed c' /\
             at_rest c'.
Proof.
  unfold save_financial_data.
  destruct (save_documents batch _ []) as [[c' log] raised] eqn:H.
  exists c'.
  assert (Hrest : at_rest c').
  { pose proof (connect_at_rest t0) as H0.
    revert H H0. generalize (pragma_foreign_keys_on (connect t0)).
    generalize (@nil string). clear. revert c' log raised.
    induction batch as [|[filename data] rest IH];
      intros c' log' raised log c H Hc; simpl in H.
    - now injection H as <- _ _.
    - destruct (getitem data "document_info") as [e|doc_info] eqn:Hi;
        [now injection H as <- _ _|].
      destruct (write_document doc_info data c) as [c1 [e|u]] eqn:Hw.
      + destruct (write_failure_is_isolated filename data doc_info rest c c1
                    log e Hc Hi Hw) as [Hr _].
        rewrite Hr in H. exact (IH _ _ _ _ _ H Hc).
      + apply (IH _ _ _ _ _ H).
        destruct (write_document_inv _ _ _ _ _ Hw)
          as (Hk & d & x1 & x2 & x3 & _ & _ & _ & _ & _ & _ & _ & _ & Hwk).
        destruct Hc. split; congruence. }
  destruct raised as [e|]; simpl; (split; [reflexivity|]); split; auto.
  apply Hrest.
Qed.

(** C4: when persistence returns, the number of documents it committed
    is the number of documents of the batch it does not fail on (the
    [storable] ones), and one line was printed for each of the others;
    whatever happens to a document, the store as it stood after the
    documents before it is still there, unchanged, in the final store; and
    the final store holds no document partially: each document has
    exactly one row in each of the three statement tables and every
    statement row belongs to a document. *)
Theorem committed_documents_are_whole (batch : list (string * pyval))
  (t0 t' : tables) (log : list string) (raised : option exn) :
  sound t0 -> room t0 (Z.of_nat (List.length batch)) ->
  save_financial_data batch t0 = (t', log, raised) ->
  (raised = None ->
   List.length (documents t')
   = (List.length (documents t0) + storable_count batch)%nat /\
   (List.length (documents t') + List.length log
    = List.length (documents t0) + List.length batch)%nat) /\
  (forall pre post, batch = pre ++ post ->
     extends t0 (fst (fst (save_financial_data pre t0))) /\
     extends (fst (fst (save_financial_data pre t0))) t') /\
  fully_written t'.
Proof.
  intros Hsound Hroom Hsave.
  destruct (save_financial_data_store batch t0) as (c' & Hloop & Hst & Hrest).
  rewrite Hsave in Hloop, Hst. simpl in Hloop, Hst. subst t'.
  pose proof (connect_at_rest t0) as Hc0.
  destruct (save_documents_inv _ _ _ _ _ _ Hloop Hc0 Hsound)
    as (_ & Hsound' & Hext & failed & Hlog & Hcount).
  simpl in Hlog. subst log. split; [|split].
  - intros ->. split.
    + exact (save_documents_count _ _ _ _ _ Hloop Hc0 Hroom).
    + now apply Hcount.
  - intros pre post ->.
    destruct (save_financial_data_store pre t0) as (c1 & Hpre & Hst1 & Hrest1).
    rewrite Hst1.
    destruct (save_documents_inv _ _ _ _ _ _ Hpre Hc0 Hsound)
      as (_ & Hsound1 & Hext1 & _).
    split; [exact Hext1|].
    rewrite save_documents_app, Hpre in Hloop.
    destruct (snd (save_financial_data pre t0)) as [e|].
    + injection Hloop as <- _ _. apply extends_refl.
    + destruct (save_documents_inv _ _ _ _ _ _ Hloop Hrest1 Hsound1)
        as (_ & _ & Hext2 & _). exact Hext2.
  - now apply sound_fully_written.
Qed.

Lemma room_in_new_database (n : nat) :
  Z.of_nat n <= int64_max -> room init_database (Z.of_nat n).
Proof.
  intros H. split; [simpl; lia|]. intros []; simpl; lia.
Qed.

Lemma committed_documents_are_whole_witness :
  (@None exn = None ->
   List.length (documents (fst (fst (save_financial_data batch_with_nameless
                                       init_database))))
   = (List.length (documents init_database)
      + storable_count batch_with_nameless)%nat /\
   (List.length (documents (fst (fst (save_financial_data batch_with_nameless
                                        init_database))))
    + List.length ["Error saving data for nameless.pdf: NOT NULL constraint failed: documents.company_name"]
    = List.length (documents init_database)
      + List.length batch_with_nameless)%nat) /\
  (forall pre post, batch_with_nameless = pre ++ post ->
     extends init_database (fst (fst (save_financial_data pre init_database)))
     /\
     extends (fst (fst (save_financial_data pre init_database)))
             (fst (fst (save_financial_data batch_with_nameless
                          init_database)))) /\
  fully_written (fst (fst (save_financial_data batch_with_nameless
                             init_database))).
Proof.
  apply (committed_documents_are_whole batch_with_nameless init_database).
  - exact init_database_sound.
  - apply (room_in_new_database 3). vm_compute. discriminate.
  - vm_compute. reflexivity.
Defined.

(** C3 fails on a batch whose first answer is an empty object: the
    look-up of [document_info] stands outside the inner [try], so its
    [KeyError] leaves the loop and the function; nothing is printed for
    the document, and the good record after it, which persistence writes
    when it comes alone, is never written. *)
Theorem missing_document_info_aborts_the_batch :
  save_financial_data batch_with_empty_answer init_database
    = (init_database, [], Some (KeyError "document_info")) /\
  storable (filing "2021" (PInt 120) (PInt 200)) = true /\
  map fiscal_year
      (documents
         (fst (fst (save_financial_data
                      [("aapl-20210925.pdf",
                        filing "2021" (PInt 120) (PInt 200))]
                      init_database)))) = ["2021"].
Proof.
  split; [reflexivity|]. split; [vm_compute; reflexivity|].
  vm_compute. reflexivity.
Qed.

End StoreFacts.

(* ================================================================== *)
(** * Facts about the queries *)
(* ================================================================== *)

Section QueryFacts.
Import Sqlite.
Local Open Scope Z_scope.

Lemma insert_by_year_permutation {A : Type} (year_of : A -> string)
  (x : A) (l : list A) :
  Permutation (insert_by_year year_of x l) (x :: l).
Proof.
  induction l as [|y l IH]; simpl; [reflexivity|].
  destruct (String.leb (year_of x) (year_of y)); [reflexivity|].
  rewrite IH. apply perm_swap.
Qed.

(** [ORDER BY] keeps every row. *)
Lemma order_by_year_permutation {A : Type} (year_of : A -> string)
  (l : list A) :
  Permutation (order_by_year year_of l) l.
Proof.
  induction l as [|x l IH]; simpl; [reflexivity|].
  rewrite insert_by_year_permutation. now constructor.
Qed.

Lemma in_join (t : tables) (k : statement) (d : document_row)
  (x : statement_row) :
  In (d, x) (join t k) <->
  In d (documents t) /\ In x (rows_of t k) /\ document_id x = id d.
Proof.
  unfold join. rewrite in_flat_map. split.
  - intros (d' & Hd & Hin). apply in_map_iff in Hin as (x' & [= <- <-] & Hx).
    apply filter_In in Hx as [Hx He]. apply Z.eqb_eq in He. auto.
  - intros (Hd & Hx & He). exists d. split; [exact Hd|].
    apply in_map, filter_In. split; [exact Hx|]. now apply Z.eqb_eq.
Qed.

(** ** Division by zero *)

Lemma divide_by_zero (x y : sqlval) :
  zero_valued y = true -> arithmetic Divide x y = SNull.
Proof.
  unfold zero_valued, arithmetic.
  destruct (to_numeric x) as [[i|f]|]; destruct (to_numeric y) as [[j|g]|];
    try discriminate; try reflexivity; intros H.
  - now rewrite H.
  - simpl. now rewrite H.
  - apply Z.eqb_eq in H. subst j. reflexivity.
  - simpl. now rewrite H.
Qed.

(** C8: for every store with a balance sheet whose total liabilities are
    zero, the liquidity query is evaluated to the end: the row of that
    fiscal year is there with NULL for the ratio, and the query returns
    one row for each balance sheet of a document. *)
Theorem zero_liabilities_give_null (t : tables) (d : document_row)
  (b : statement_row) :
  In d (documents t) -> In b (balance_rows t) -> document_id b = id d ->
  zero_valued (total_liabilities b) = true ->
  In (fiscal_year d, SNull) (liquidity_indicator t) /\
  List.length (liquidity_indicator t)
  = List.length (join t balance_sheets).
Proof.
  intros Hd Hb Hid Hz. unfold liquidity_indicator. split.
  - eapply Permutation_in; [symmetry; apply order_by_year_permutation|].
    apply in_map_iff. exists (d, b). split.
    + simpl. now rewrite divide_by_zero.
    + apply in_join. auto.
  - rewrite (Permutation_length (order_by_year_permutation _ _)).
    apply length_map.
Qed.

Lemma zero_liabilities_give_null_witness :
  In ("2020", SNull)
     (liquidity_indicator
        (fst (fst (save_financial_data
                     [("aapl-20200926.pdf", filing "2020" (PInt 100) (PInt 0))]
                     init_database)))) /\
  List.length
    (liquidity_indicator
       (fst (fst (save_financial_data
                    [("aapl-20200926.pdf", filing "2020" (PInt 100) (PInt 0))]
                    init_database))))
  = List.length
      (join (fst (fst (save_financial_data
                         [("aapl-20200926.pdf",
                           filing "2020" (PInt 100) (PInt 0))]
                         init_database))) balance_sheets).
Proof.
  apply (zero_liabilities_give_null
           (fst (fst (save_financial_data
                        [("aapl-20200926.pdf",
                          filing "2020" (PInt 100) (PInt 0))]
                        init_database)))
           {| id := 1; company_name := "Apple Inc."; fiscal_year := "2020";
              document_type := "10-K" |}
           {| row_id := 1; document_id := 1;
              first_metric := SReal 300; second_metric := SReal 0;
              third_metric := SReal 100 |}).
  - vm_compute. left. reflexivity.
  - vm_compute. left. reflexivity.
  - reflexivity.
  - vm_compute. reflexivity.
Defined.

(** ** Scenario A *)

Lemma Permutation_filter {A : Type} (p : A -> bool) (l l' : list A) :
  Permutation l l' -> Permutation (filter p l) (filter p l').
Proof.
  induction 1 as [|x l l' _ IH|x y l|l1 l2 l3 _ IH1 _ IH2]; simpl.
  - constructor.
  - destruct (p x); [now constructor|exact IH].
  - destruct (p x), (p y); try reflexivity. apply perm_swap.
  - now rewrite IH1.
Qed.

Lemma Permutation_length_3_inv {A : Type} (a b c : A) (l : list A) :
  Permutation l [a; b; c] ->
  l = [a; b; c] \/ l = [a; c; b] \/ l = [b; a; c] \/
  l = [b; c; a] \/ l = [c; a; b] \/ l = [c; b; a].
Proof.
  intros H.
  assert (Hin : In a l) by (eapply Permutation_in; [symmetry; exact H|now left]).
  apply in_split in Hin as (l1 & l2 & ->).
  apply Permutation_sym, Permutation_cons_app_inv in H.
  apply Permutation_length_2_inv in H.
  destruct l1 as [|x [|y [|z l1]]]; simpl in H; destruct H as [H|H];
    inversion H; subst; simpl; auto 10.
Qed.

Section ThreeYears.
Variable t : tables.
Variables d0 d1 d2 : document_row.
Variables i0 i1 i2 : statement_row.
Hypothesis three_documents : Permutation (documents t) [d0; d1; d2].
Hypothesis three_statements : Permutation (income_rows t) [i0; i1; i2].
Hypothesis keys01 : id d0 <> id d1.
Hypothesis keys02 : id d0 <> id d2.
Hypothesis keys12 : id d1 <> id d2.
Hypothesis of0 : document_id i0 = id d0.
Hypothesis of1 : document_id i1 = id d1.
Hypothesis of2 : document_id i2 = id d2.

Lemma statements_of_document (d : document_row) (x : statement_row) :
  (d, x) = (d0, i0) \/ (d, x) = (d1, i1) \/ (d, x) = (d2, i2) ->
  Permutation
    (map (pair d) (filter (fun y => id d =? document_id y) (income_rows t)))
    [(d, x)].
Proof.
  intros H. change [(d, x)] with (map (pair d) [x]).
  apply Permutation_map.
  rewrite (Permutation_filter _ _ _ three_statements). simpl.
  rewrite of0, of1, of2.
  destruct H as [[= -> ->]|[[= -> ->]|[= -> ->]]];
    rewrite Z.eqb_refl;
    repeat match goal with
           | |- context [?a =? ?b] =>
               let H := fresh in
               destruct (Z.eqb_spec a b) as [H|H]; [congruence|]
           end; reflexivity.
Qed.

Lemma joined_three :
  Permutation (join t income_statements) [(d0, i0); (d1, i1); (d2, i2)].
Proof.
  unfold join. rewrite three_documents. simpl.
  change [(d0, i0); (d1, i1); (d2, i2)]
    with ([(d0, i0)] ++ [(d1, i1)] ++ [(d2, i2)] ++ []).
  repeat apply Permutation_app; try reflexivity;
    apply statements_of_document; auto.
Qed.

End ThreeYears.

Lemma order_by_year_three (l : list (string * sqlval)) (r0 r1 r2 : sqlval) :
  Permutation l [("2020", r0); ("2021", r1); ("2022", r2)] ->
  order_by_year fst l = [("2020", r0); ("2021", r1); ("2022", r2)].
Proof.
  intros H. apply Permutation_length_3_inv in H.
  destruct H as [->|[->|[->|[->|[->| ->]]]]]; reflexivity.
Qed.

(** C7: in every store that holds exactly three documents, of the fiscal
    years 2020, 2021 and 2022, each with one income statement, the
    revenues being 100, 120 and 150, the growth query returns exactly two
    rows: 20.0 for 2021 and 25.0 for 2022.  The rows may stand in the
    tables in any order and carry any keys. *)
Theorem revenue_growth_of_three_years (t : tables)
  (d0 d1 d2 : document_row) (i0 i1 i2 : statement_row) :
  Permutation (documents t) [d0; d1; d2] ->
  Permutation (income_rows t) [i0; i1; i2] ->
  id d0 <> id d1 -> id d0 <> id d2 -> id d1 <> id d2 ->
  document_id i0 = id d0 -> document_id i1 = id d1 ->
  document_id i2 = id d2 ->
  fiscal_year d0 = "2020" -> fiscal_year d1 = "2021" ->
  fiscal_year d2 = "2022" ->
  revenue i0 = SReal 100 -> revenue i1 = SReal 120 ->
  revenue i2 = SReal 150 ->
  year_over_year_revenue_growth t
  = [("2021", SReal 20); ("2022", SReal 25)].
Proof.
  intros Hd Hi K01 K02 K12 O0 O1 O2 Y0 Y1 Y2 R0 R1 R2.
  pose proof (joined_three t d0 d1 d2 i0 i1 i2 Hd Hi K01 K02 K12 O0 O1 O2)
    as Hj.
  assert (Hrows :
    order_by_year fst
      (map (fun di => (fiscal_year (fst di), revenue (snd di)))
           (join t income_statements))
    = [("2020", SReal 100); ("2021", SReal 120); ("2022", SReal 150)]).
  { apply order_by_year_three.
    rewrite (Permutation_map _ Hj). simpl.
    now rewrite Y0, Y1, Y2, R0, R1, R2. }
  unfold year_over_year_revenue_growth, revenue_data. rewrite Hrows.
  vm_compute. reflexivity.
Qed.

Lemma revenue_growth_of_three_years_witness :
  year_over_year_revenue_growth
    (fst (fst (save_financial_data three_years init_database)))
  = [("2021", SReal 20); ("2022", SReal 25)].
Proof.
  apply (revenue_growth_of_three_years
           (fst (fst (save_financial_data three_years init_database)))
           (mk_document 1 "Apple Inc." "2020" "10-K")
           (mk_document 2 "Apple Inc." "2021" "10-K")
           (mk_document 3 "Apple Inc." "2022" "10-K")
           (mk_statement 1 1 (SReal 100) (SReal 30) (SReal 20))
           (mk_statement 2 2 (SReal 120) (SReal 30) (SReal 20))
           (mk_statement 3 3 (SReal 150) (SReal 30) (SReal 20)));
    try reflexivity; discriminate.
Defined.

End QueryFacts.

(* ================================================================== *)
(** * Facts about the flow *)
(* ================================================================== *)

Section FlowFacts.
Import Remote Flow.

Lemma dict_get_set {V : Type} (d : list (string * V)) (k k' : string) (v : V) :
  dict_get (dict_set d k v) k' =
  if String.eqb k' k then Some v else dict_get d k'.
Proof.
  induction d as [|[k0 v0] d IH]; simpl.
  - reflexivity.
  - destruct (String.eqb_spec k k0) as [->|Hk]; simpl.
    + destruct (String.eqb_spec k' k0); reflexivity.
    + rewrite IH. destruct (String.eqb_spec k' k0) as [->|Hk'];
        [|reflexivity].
      destruct (String.eqb_spec k0 k); [congruence|reflexivity].
Qed.

Lemma in_keys_set {V : Type} (d : list (string * V)) (k k' : string) (v : V) :
  In k' (keys (dict_set d k v)) <-> k' = k \/ In k' (keys d).
Proof.
  unfold keys. induction d as [|[k0 v0] d IH]; simpl.
  - intuition.
  - destruct (String.eqb_spec k k0) as [->|Hk]; simpl; [intuition|].
    rewrite IH. intuition.
Qed.

Lemma keys_set_nodup {V : Type} (d : list (string * V)) (k : string) (v : V) :
  NoDup (keys d) -> NoDup (keys (dict_set d k v)).
Proof.
  unfold keys. induction d as [|[k0 v0] d IH]; simpl; intros H.
  - repeat constructor. intros [].
  - inversion H as [|? ? Hn Hd]; subst.
    destruct (String.eqb_spec k k0) as [->|Hk]; simpl; [exact H|].
    constructor; [|now apply IH].
    intros Hin. apply (in_keys_set d k k0 v) in Hin as [Heq|Hin];
      [congruence|contradiction].
Qed.

Lemma accumulate_keys (entries results : list (string * pyval)) :
  NoDup (keys results) ->
  NoDup (keys (accumulate results entries)) /\
  forall k, In k (keys (accumulate results entries)) <->
            In k (keys results) \/ In k (map (fun e => basename (fst e)) entries).
Proof.
  revert results. induction entries as [|[p v] entries IH]; intros results H.
  - simpl. intuition.
  - simpl. destruct (IH _ (keys_set_nodup results (basename p) v H)) as [Hn Hk].
    split; [exact Hn|]. intros k. unfold accumulate in Hk. rewrite Hk.
    rewrite in_keys_set. intuition.
Qed.

(** A later entry of a name replaces the earlier ones. *)
Lemma accumulate_last (entries results : list (string * pyval))
  (pre post : list (string * pyval)) (p : string) (v : pyval) :
  entries = pre ++ (p, v) :: post ->
  (forall e, In e post -> basename (fst e) <> basename p) ->
  dict_get (accumulate results entries) (basename p) = Some v.
Proof.
  intros -> Hpost. unfold accumulate. rewrite fold_left_app. simpl.
  generalize (fold_left
                (fun d entry => dict_set d (basename (fst entry)) (snd entry))
                pre results).
  intros d.
  assert (H : dict_get (dict_set d (basename p) v) (basename p) = Some v)
    by (rewrite dict_get_set; now rewrite String.eqb_refl).
  revert H. generalize (dict_set d (basename p) v). clear d.
  induction post as [|[q w] post IH]; intros d H; simpl; [exact H|].
  apply IH.
  - intros e He. apply Hpost. now right.
  - rewrite dict_get_set.
    destruct (String.eqb_spec (basename p) (basename q)) as [Heq|_];
      [|exact H].
    exfalso. apply (Hpost (q, w)); [now left|]. simpl. congruence.
Qed.

Lemma combine_append {A B : Type} (l1 l2 : list A) (v1 v2 : list B) :
  List.length l1 = List.length v1 ->
  combine (l1 ++ l2) (v1 ++ v2) = combine l1 v1 ++ combine l2 v2.
Proof.
  revert v1. induction l1 as [|a l1 IH]; intros [|b v1] H; simpl in *;
    try discriminate; [reflexivity|].
  f_equal. apply IH. lia.
Qed.

(** When the loop returns, every file was processed and the batch map
    is the accumulation of what was extracted. *)
Lemma process_files_returned (fuel : nat) (jobs : list (string * service)) :
  forall (results : list (string * pyval)) (t : list event)
         (out : list (string * pyval)),
    process_files fuel jobs results = (t, Returned out) ->
    exists values,
      Forall2 (fun job v => ending (process_file fuel job) = Returned v)
              jobs values /\
      out = accumulate results (combine (map fst jobs) values).
Proof.
  induction jobs as [|job jobs IH]; intros results t out H; simpl in H.
  - injection H as _ <-. exists []. split; [constructor|reflexivity].
  - unfold bind in H.
    destruct (process_file fuel job) as [t1 [v|e|]] eqn:Hp; try discriminate.
    destruct (process_files fuel jobs _) as [t2 o] eqn:Hrest.
    injection H as _ ->.
    apply IH in Hrest as (values & Hall & ->).
    exists (v :: values). split.
    + constructor; [now rewrite Hp|exact Hall].
    + reflexivity.
Qed.

(** C10: the batch map is keyed by the base names of the paths.  It has
    one record for each base name; when several paths have one base name
    the record is the one extracted for the last of them; the map is what
    persistence receives and what the flow has to return; and with two
    paths of one base name it has fewer records than there are input
    files. *)
Theorem batch_is_keyed_by_basename (fuel : nat)
  (jobs : list (string * service)) (t : list event)
  (results : list (string * pyval))
  (persisted : option (Sqlite.tables * list string * option exn)) :
  main_flow fuel jobs = ((t, Returned results), persisted) ->
  exists values,
    Forall2 (fun job v => ending (process_file fuel job) = Returned v)
            jobs values /\
    results = accumulate [] (combine (map fst jobs) values) /\
    NoDup (keys results) /\
    (forall k, In k (keys results) <->
               In k (map (fun job => basename (fst job)) jobs)) /\
    (forall pre post vpre vpost path svc v,
       jobs = pre ++ (path, svc) :: post ->
       values = vpre ++ v :: vpost ->
       List.length pre = List.length vpre ->
       (forall job, In job post -> basename (fst job) <> basename path) ->
       dict_get results (basename path) = Some v) /\
    persisted
      = Some (Sqlite.save_financial_data results Sqlite.init_database) /\
    (~ NoDup (map (fun job => basename (fst job)) jobs) ->
     List.length results < List.length jobs).
Proof.
  unfold main_flow. intros H.
  destruct (process_files fuel jobs []) as [t1 [out|e|]] eqn:Hp;
    try discriminate.
  injection H as <- <- <-.
  apply process_files_returned in Hp as (values & Hall & ->).
  exists values. split; [exact Hall|]. split; [reflexivity|].
  assert (Hlen : List.length values = List.length jobs)
    by (symmetry; eapply Forall2_length; exact Hall).
  assert (Hnames :
    map (fun e => basename (fst e)) (combine (map fst jobs) values)
    = map (fun job => basename (fst job)) jobs).
  { clear Hall. revert values Hlen.
    induction jobs as [|job jobs IH]; intros [|v values] Hlen;
      simpl in *; try discriminate; [reflexivity|].
    f_equal. apply IH. lia. }
  destruct (accumulate_keys (combine (map fst jobs) values) []
              ltac:(constructor)) as [Hnodup Hkeys].
  split; [exact Hnodup|]. split; [|split; [|split]].
  - intros k. rewrite Hkeys, Hnames. simpl. intuition.
  - intros pre post vpre vpost path svc v -> -> Hl Hpost.
    apply (accumulate_last _ _ (combine (map fst pre) vpre)
             (combine (map fst post) vpost)).
    + rewrite map_app. simpl.
      rewrite combine_append by now rewrite length_map. reflexivity.
    + intros [q w] Hin. apply in_combine_l in Hin.
      apply in_map_iff in Hin as (job & <- & Hjob). now apply Hpost.
  - reflexivity.
  - intros Hdup.
    destruct (Nat.lt_ge_cases
                (List.length (accumulate [] (combine (map fst jobs) values)))
                (List.length jobs)) as [Hlt|Hge]; [exact Hlt|exfalso].
    apply Hdup.
    apply (@NoDup_incl_NoDup _
             (keys (accumulate [] (combine (map fst jobs) values)))).
    + exact Hnodup.
    + unfold keys. now rewrite !length_map.
    + intros k Hk. apply Hkeys in Hk as [[]|Hk]. now rewrite <- Hnames.
Qed.

Lemma batch_is_keyed_by_basename_witness :
  exists values,
    Forall2 (fun job v => ending (process_file 5 job) = Returned v)
            two_reports values /\
    [("report.pdf", whole_record "2022")]
      = accumulate [] (combine (map fst two_reports) values) /\
    NoDup (keys [("report.pdf", whole_record "2022")]) /\
    (forall k, In k (keys [("report.pdf", whole_record "2022")]) <->
               In k (map (fun job => basename (fst job)) two_reports)) /\
    (forall pre post vpre vpost path svc v,
       two_reports = pre ++ (path, svc) :: post ->
       values = vpre ++ v :: vpost ->
       List.length pre = List.length vpre ->
       (forall job, In job post -> basename (fst job) <> basename path) ->
       dict_get [("report.pdf", whole_record "2022")] (basename path)
       = Some v) /\
    snd (main_flow 5 two_reports)
      = Some (Sqlite.save_financial_data [("report.pdf", whole_record "2022")]
                                         Sqlite.init_database) /\
    (~ NoDup (map (fun job => basename (fst job)) two_reports) ->
     List.length [("report.pdf", whole_record "2022")]
     < List.length two_reports).
Proof.
  apply (batch_is_keyed_by_basename 5 two_reports
           (trace (fst (main_flow 5 two_reports)))).
  vm_compute. reflexivity.
Defined.

(** The two reports at work: both files are processed, one record is
    left in the batch map and one document is stored. *)
Lemma one_of_two_reports_is_kept :
  ending (fst (main_flow 5 two_reports))
    = Returned [("report.pdf", whole_record "2022")] /\
  option_map (fun r => map Sqlite.fiscal_year (Sqlite.documents (fst (fst r))))
             (snd (main_flow 5 two_reports)) = Some ["2022"].
Proof. split; vm_compute; reflexivity. Qed.

End FlowFacts.

(* ================================================================== *)
(** * Further facts about the tag scanner *)
(* ================================================================== *)

Section TableFacts.
Import Text Soup.

Lemma flat_map_yield_length (l : list node) :
  List.length (flat_map yield l)
  = List.length (filter (fun e => re_match_numeral (numeric_text e)) l).
Proof.
  induction l as [|e l IH]; simpl; [reflexivity|].
  rewrite length_app, IH. unfold yield.
  destruct (re_match_numeral (numeric_text e)); reflexivity.
Qed.

Lemma yield_rows_are_not_nonnumeric (l : list node) :
  filter is_nonnumeric_row (flat_map yield l) = [].
Proof.
  induction l as [|e l IH]; simpl; [reflexivity|].
  rewrite filter_app, IH. unfold yield.
  destruct (re_match_numeral (numeric_text e)); reflexivity.
Qed.

Lemma nonnumeric_rows_are_nonnumeric (l : list node) :
  filter is_nonnumeric_row (map nonnumeric_row l) = map nonnumeric_row l.
Proof. induction l as [|e l IH]; simpl; [reflexivity|now rewrite IH]. Qed.

(** X1: every [ix:nonnumeric] element gives exactly one row, whatever
    its text, with the trimmed text for value and N/A for unit and
    decimals, in document order; the table has these rows and one row
    for each numeric element the pattern accepts, so it is empty exactly
    when the document has neither. *)
Theorem every_nonnumeric_element_gives_a_row (soup : list node) :
  filter is_nonnumeric_row (extract_features soup)
    = map (fun e => {| row_tag := "nonnumeric";
                       row_name := get e "name" "Unknown";
                       row_value := PStr (strip (get_text e));
                       row_unit := "N/A";
                       row_decimals := "N/A" |})
          (find_all "ix:nonnumeric" soup) /\
  List.length (extract_features soup)
    = List.length (accepted soup)
      + List.length (find_all "ix:nonnumeric" soup) /\
  (extract_features soup = [] <->
   accepted soup = [] /\ find_all "ix:nonnumeric" soup = []).
Proof.
  rewrite extract_features_two_passes.
  assert (Hlen : List.length
                   (flat_map yield (find_all "ix:nonfraction" soup)
                    ++ map nonnumeric_row (find_all "ix:nonnumeric" soup))
                 = List.length (accepted soup)
                   + List.length (find_all "ix:nonnumeric" soup)).
  { rewrite length_app, flat_map_yield_length, length_map. reflexivity. }
  split; [|split].
  - rewrite filter_app, yield_rows_are_not_nonnumeric,
      nonnumeric_rows_are_nonnumeric. reflexivity.
  - exact Hlen.
  - split.
    + intros H. rewrite H in Hlen. simpl in Hlen.
      destruct (accepted soup); [|simpl in Hlen; lia].
      destruct (find_all "ix:nonnumeric" soup); [|simpl in Hlen; lia].
      auto.
    + intros [Ha Hn]. apply length_zero_iff_nil.
      rewrite Hlen, Ha, Hn. reflexivity.
Qed.

Lemma unit_of_parsed_node (e : node) :
  parsed_node e -> get e "unitRef" "Unknown" = "Unknown".
Proof.
  destruct e as [s|s|name attrs contents]; try reflexivity.
  simpl. intros H.
  induction H as [|[k v] attrs Hk _ IH]; [reflexivity|].
  cbn [dict_get].
  destruct (String.eqb_spec "unitRef" k) as [<-|_]; [discriminate Hk|exact IH].
Qed.

Lemma find_all_parsed (name : string) (soup : list node) :
  parsed soup -> Forall parsed_node (find_all name soup).
Proof.
  unfold parsed, find_all. intros H.
  apply Forall_forall. intros e He. apply filter_In in He as [He _].
  rewrite Forall_forall in H. now apply H.
Qed.

(** X2: the unit of a fact is never read from the document.  The scanner
    asks for the attribute [unitRef], and the parser hands over attribute
    names in lower case; so in the table of a parsed document every
    numeric fact has the unit Unknown, whatever unit the element
    declares, and every other fact has N/A. *)
Theorem unit_is_never_read (soup : list node) :
  parsed soup ->
  Forall (fun r => row_unit r
                   = if is_nonfraction_row r then "Unknown" else "N/A")
         (extract_features soup).
Proof.
  intros H. rewrite extract_features_two_passes. apply Forall_app. split.
  - pose proof (find_all_parsed "ix:nonfraction" soup H) as Hp.
    induction Hp as [|e l He _ IH]; simpl; [constructor|].
    apply Forall_app. split; [|exact IH]. unfold yield.
    destruct (re_match_numeral (numeric_text e)); constructor; [|constructor].
    simpl. now apply unit_of_parsed_node.
  - induction (find_all "ix:nonnumeric" soup) as [|e l IH]; simpl;
      constructor; [reflexivity|exact IH].
Qed.

Lemma unit_is_never_read_witness :
  get (nth 1 filing_fragment (Comment "")) "unitref" "Unknown" = "usd" /\
  Forall (fun r => row_unit r
                   = if is_nonfraction_row r then "Unknown" else "N/A")
         (extract_features filing_fragment).
Proof.
  split; [reflexivity|].
  apply (unit_is_never_read filing_fragment).
  unfold parsed. simpl. repeat constructor.
Defined.

(** ** Trimmed texts *)

Lemma lstrip_fuel_head (n : nat) (s : string) :
  String.length s <= n -> ws_head (lstrip_fuel n s) = None.
Proof.
  revert s. induction n as [|n IH]; intros s Hn; simpl.
  - destruct s; [reflexivity|simpl in Hn; lia].
  - destruct (ws_head s) as [r|] eqn:Hr; [|exact Hr].
    apply ws_head_length in Hr. apply IH. lia.
Qed.

Lemma rstrip_fuel_last (n : nat) (l : list ascii) :
  List.length l <= n -> ws_last (rstrip_fuel n l) = None.
Proof.
  revert l. induction n as [|n IH]; intros l Hn; simpl.
  - destruct l; [reflexivity|simpl in Hn; lia].
  - destruct (ws_last l) as [r|] eqn:Hr; [|exact Hr].
    apply ws_last_length in Hr. apply IH. lia.
Qed.

(** What [rstrip_fuel] leaves is the end of the reversed text. *)
Lemma rstrip_fuel_keeps_the_end (n : nat) (l : list ascii) :
  exists p, l = p ++ rstrip_fuel n l.
Proof.
  revert l. induction n as [|n IH]; intros l; simpl; [now exists []|].
  destruct (ws_last l) as [r|] eqn:Hr; [|now exists []].
  destruct (IH r) as [p Hp].
  assert (Hq : exists q, l = q ++ r).
  { unfold ws_last in Hr.
    destruct l as [|a [|b [|c r3]]]; simpl in *;
      repeat match type of Hr with
             | (if ?b then _ else _) = _ => destruct b
             end;
      try discriminate; injection Hr as <-;
      first [now exists [a] | now exists [a; b] | now exists [a; b; c]]. }
  destruct Hq as [q ->]. exists (q ++ p). now rewrite <- app_assoc, <- Hp.
Qed.

Lemma length_list_ascii_of_string (s : string) :
  List.length (list_ascii_of_string s) = String.length s.
Proof. induction s; simpl; congruence. Qed.

Lemma list_ascii_of_string_app (a b : string) :
  list_ascii_of_string (a ++ b)
  = list_ascii_of_string a ++ list_ascii_of_string b.
Proof. induction a; simpl; congruence. Qed.

(** White space at the head of a text is at the head of every text that
    starts with it. *)
Lemma ws_head_of_longer_text (a b r : string) :
  ws_head a = Some r -> ws_head (a ++ b) = Some (r ++ b)%string.
Proof.
  unfold ws_head. intros H.
  destruct a as [|x [|y [|z a3]]]; simpl in *;
    repeat match type of H with
           | (if ?c then _ else _) = _ => destruct c
           end;
    try discriminate; injection H as <-; reflexivity.
Qed.

Lemma string_of_list_ascii_app (a b : list ascii) :
  string_of_list_ascii (a ++ b)
  = (string_of_list_ascii a ++ string_of_list_ascii b)%string.
Proof. induction a as [|c a IH]; simpl; [reflexivity|now rewrite IH]. Qed.

Lemma rstrip_is_a_prefix (s : string) :
  exists q, s = (rstrip s ++ q)%string.
Proof.
  unfold rstrip.
  destruct (rstrip_fuel_keeps_the_end (String.length s)
              (rev (list_ascii_of_string s))) as [p Hp].
  exists (string_of_list_ascii (rev p)).
  apply (f_equal (@rev ascii)) in Hp.
  rewrite rev_involutive, rev_app_distr in Hp.
  rewrite <- string_of_list_ascii_app, <- Hp.
  symmetry. apply string_of_list_ascii_of_string.
Qed.

Lemma strip_is_trimmed (s : string) : trimmed (strip s).
Proof.
  unfold trimmed, strip. split.
  - destruct (rstrip_is_a_prefix (lstrip s)) as [q Hq].
    destruct (ws_head (rstrip (lstrip s))) as [r|] eqn:Hr; [|reflexivity].
    apply (ws_head_of_longer_text _ q) in Hr. rewrite <- Hq in Hr.
    unfold lstrip in Hr. rewrite lstrip_fuel_head in Hr by lia.
    discriminate Hr.
  - unfold rstrip.
    rewrite list_ascii_of_string_of_list_ascii, rev_involutive.
    apply rstrip_fuel_last.
    now rewrite length_rev, length_list_ascii_of_string.
Qed.

Lemma strip_of_trimmed (s : string) : trimmed s -> strip s = s.
Proof.
  intros [Hh Hl]. unfold strip.
  assert (H1 : lstrip s = s).
  { unfold lstrip. destruct (String.length s); simpl; [reflexivity|].
    now rewrite Hh. }
  rewrite H1. unfold rstrip.
  assert (H2 : rstrip_fuel (String.length s) (rev (list_ascii_of_string s))
               = rev (list_ascii_of_string s)).
  { destruct (String.length s); simpl; [reflexivity|]. now rewrite Hl. }
  rewrite H2, rev_involutive. apply string_of_list_ascii_of_string.
Qed.

(** X3: the value of a non-numeric fact is a trimmed text: it has no
    white space at its head or at its end (white space as [str.strip]
    counts it, the Unicode spaces included), and trimming it again
    changes nothing. *)
Theorem values_are_trimmed (soup : list node) :
  Forall (fun r => exists v, row_value r = PStr v /\ trimmed v /\ strip v = v)
         (filter is_nonnumeric_row (extract_features soup)).
Proof.
  rewrite extract_features_two_passes, filter_app,
    yield_rows_are_not_nonnumeric, nonnumeric_rows_are_nonnumeric. simpl.
  induction (find_all "ix:nonnumeric" soup) as [|e l IH]; simpl;
    constructor; [|exact IH].
  exists (strip (get_text e)). split; [reflexivity|].
  pose proof (strip_is_trimmed (get_text e)) as Ht.
  split; [exact Ht|now apply strip_of_trimmed].
Qed.

End TableFacts.

(* ================================================================== *)
(** * Further facts about the remote assistant *)
(* ================================================================== *)

Section SessionFacts.
Import Remote.

(** X4: [create_financial_assistant] deletes nothing.  When it returns,
    the three ids it hands back are the ones the service gave, and the
    file, the assistant and the thread were created in that order; when
    the creation of the assistant or of the thread raises, what was
    created before stays behind. *)
Theorem creation_releases_nothing (svc : service) (file_path : string) :
  let run := create_financial_assistant svc file_path in
  Forall (fun ev => is_release ev = false) (trace run) /\
  (forall info, ending run = Returned info ->
     files_create svc = inr (file_id info) /\
     assistants_create svc = inr (assistant_id info) /\
     threads_create svc = inr (thread_id info) /\
     trace run = [ FileCreated (file_id info);
                   AssistantCreated (assistant_id info);
                   ThreadCreated (thread_id info) ]) /\
  (forall e fid, ending run = Raised e -> files_create svc = inr fid ->
     In (FileCreated fid) (trace run) /\
     forall aid, assistants_create svc = inr aid ->
                 In (AssistantCreated aid) (trace run)).
Proof.
  unfold create_financial_assistant, trace, ending.
  destruct (files_create svc) as [e1|fid]; simpl.
  { split; [constructor|]. split; [discriminate|]. discriminate. }
  destruct (assistants_create svc) as [e2|aid]; simpl.
  { split; [repeat constructor|]. split; [discriminate|].
    intros e fid' _ [= <-]. split; [now left|discriminate]. }
  destruct (threads_create svc) as [e3|tid]; simpl.
  { split; [repeat constructor|]. split; [discriminate|].
    intros e fid' _ [= <-]. split; [now left|].
    intros aid' [= <-]. right. now left. }
  split; [repeat constructor|]. split; [|discriminate].
  intros info [= <-]. simpl. auto.
Qed.

Lemma poll_trace (svc : service) (info : assistant_info)
  (runs : nat -> run_object) (k : nat) :
  forall fuel n,
    (forall i, i < k -> runs_retrieve svc (n + i) = inr (runs (S (n + i)))) ->
    (forall i, i < k -> still_running (runs (n + i)) = true) ->
    still_running (runs (n + k)) = false ->
    k <= fuel ->
    poll svc info fuel n (runs n)
    = (flat_map (fun i => [Slept 2;
                           RunRetrieved (thread_id info) (run_id (runs i))])
                (seq n k),
       Returned (runs (n + k))).
Proof.
  induction k as [|k IH]; intros fuel n Hget Hrun Hstop Hfuel.
  - rewrite Nat.add_0_r in *. destruct fuel; simpl; now rewrite Hstop.
  - destruct fuel as [|fuel]; [lia|]. simpl.
    pose proof (Hrun 0 ltac:(lia)) as H0. rewrite Nat.add_0_r in H0.
    rewrite H0.
    pose proof (Hget 0 ltac:(lia)) as G0. rewrite Nat.add_0_r in G0.
    rewrite G0. simpl.
    rewrite (IH fuel (S n)).
    + simpl. now rewrite Nat.add_succ_r.
    + intros i Hi. specialize (Hget (S i) ltac:(lia)).
      now rewrite Nat.add_succ_r in Hget.
    + intros i Hi. specialize (Hrun (S i) ltac:(lia)).
      now rewrite Nat.add_succ_r in Hrun.
    + now rewrite Nat.add_succ_r in Hstop.
    + lia.
Qed.

Lemma polling_events_are_polling (thread : string) (runs : nat -> run_object)
  (l : list nat) :
  filter is_polling
    (flat_map (fun i => [Slept 2; RunRetrieved thread (run_id (runs i))]) l)
  = flat_map (fun i => [Slept 2; RunRetrieved thread (run_id (runs i))]) l.
Proof. induction l as [|i l IH]; simpl; [reflexivity|now rewrite IH]. Qed.

Lemma reading_is_no_polling (data : list message) :
  filter is_polling (trace (first_assistant_message data)) = [].
Proof.
  induction data as [|m data IH]; simpl; [reflexivity|].
  destruct (String.eqb (role m) "assistant"); [|exact IH].
  destruct (message_payload m); reflexivity.
Qed.

(** X5: the run is polled until it shows the first state that is
    neither queued nor in progress, whatever that state is, with a pause
    of two seconds before each poll; a run that is settled when it is
    created is not polled at all.  [runs 0] is the run as created and
    [runs (S i)] what the poll number [i] shows. *)
Theorem polling_stops_at_the_first_settled_state (svc : service)
  (info : assistant_info) (fuel k : nat) (runs : nat -> run_object) :
  runs_create svc = inr (runs 0) ->
  (forall i, i < k -> runs_retrieve svc i = inr (runs (S i))) ->
  (forall i, i < k -> still_running (runs i) = true) ->
  still_running (runs k) = false ->
  k <= fuel ->
  filter is_polling (trace (extract_financial_data svc info fuel))
    = polling_events (thread_id info) runs k /\
  seconds_slept (trace (extract_financial_data svc info fuel)) = 2 * k /\
  ending (extract_financial_data svc info fuel) <> Polling.
Proof.
  intros Hc Hget Hrun Hstop Hfuel.
  pose proof (poll_trace svc info runs k fuel 0 Hget Hrun Hstop Hfuel) as Hp.
  unfold extract_financial_data, trace, ending, polling_events.
  rewrite Hc. simpl. rewrite Hp. simpl.
  set (ev := flat_map _ (seq 0 k)).
  assert (Hsec : forall l rest,
             seconds_slept
               (flat_map (fun i => [Slept 2;
                    RunRetrieved (thread_id info) (run_id (runs i))]) l ++ rest)
             = 2 * List.length l + seconds_slept rest).
  { induction l as [|i l IH]; intros rest; simpl; [reflexivity|].
    rewrite IH. lia. }
  destruct (messages_list svc) as [e|data]; simpl.
  { rewrite app_nil_r. unfold ev. rewrite polling_events_are_polling.
    split; [reflexivity|]. split; [|discriminate].
    rewrite <- (app_nil_r (flat_map _ _)), Hsec, length_seq. simpl. lia. }
  pose proof (reading_is_no_polling data) as Hread.
  pose proof (first_assistant_message_returns data) as Hret.
  unfold trace, ending in Hread, Hret.
  destruct (first_assistant_message data) as [tr o]. simpl in Hread, Hret.
  assert (Hnone : seconds_slept tr = 0).
  { clear - Hread. induction tr as [|ev' tr IH]; [reflexivity|].
    simpl in Hread. destruct ev'; simpl in *; try discriminate; auto. }
  destruct (assistants_delete svc) as [e|u]; simpl.
  { rewrite filter_app. unfold ev. rewrite polling_events_are_polling. simpl.
    rewrite app_nil_r. split; [reflexivity|]. split; [|discriminate].
    rewrite Hsec, length_seq. simpl. lia. }
  destruct (files_delete svc) as [e|u']; simpl.
  { rewrite filter_app. unfold ev. rewrite polling_events_are_polling. simpl.
    rewrite app_nil_r. split; [reflexivity|]. split; [|discriminate].
    rewrite Hsec, length_seq. simpl. lia. }
  rewrite filter_app. unfold ev. rewrite polling_events_are_polling. simpl.
  rewrite Hread, app_nil_r. split; [reflexivity|]. split.
  - rewrite Hsec, length_seq. simpl. rewrite Hnone. lia.
  - subst o. discriminate.
Qed.

Lemma polling_stops_at_the_first_settled_state_witness :
  filter is_polling (trace (extract_financial_data (answering "{}") session 5))
    = polling_events "thread_1" answering_run 2 /\
  seconds_slept (trace (extract_financial_data (answering "{}") session 5))
    = 2 * 2 /\
  ending (extract_financial_data (answering "{}") session 5) <> Polling.
Proof.
  apply (polling_stops_at_the_first_settled_state (answering "{}") session 5 2
           answering_run).
  - reflexivity.
  - intros [|[|i]] Hi; [reflexivity|reflexivity|lia].
  - intros [|[|i]] Hi; [reflexivity|reflexivity|lia].
  - reflexivity.
  - lia.
Defined.

Lemma poll_never_ends (svc : service) (info : assistant_info) :
  (forall n, exists r, runs_retrieve svc n = inr r /\ still_running r = true) ->
  forall fuel n r,
    still_running r = true ->
    ending (poll svc info fuel n r) = Polling /\
    seconds_slept (trace (poll svc info fuel n r)) = 2 * fuel.
Proof.
  intros Hall. induction fuel as [|fuel IH]; intros n r Hr; simpl; rewrite Hr.
  - split; reflexivity.
  - destruct (Hall n) as (r' & -> & Hr'). simpl.
    destruct (IH (S n) r' Hr') as [He Hs]. unfold ending, trace in *.
    destruct (poll svc info fuel (S n) r') as [t o]. simpl in *.
    subst o. split; [reflexivity|]. lia.
Qed.

(** X6: the polling loop has no time limit.  When the run is created
    queued or in progress and every poll shows it queued or in progress,
    the function never gets out of the loop: however many turns it is
    given it is still polling, it has slept two seconds for each turn,
    and it has released neither the assistant nor the file. *)
Theorem polling_has_no_time_limit (svc : service) (info : assistant_info)
  (r0 : run_object) :
  runs_create svc = inr r0 -> still_running r0 = true ->
  (forall n, exists r, runs_retrieve svc n = inr r /\ still_running r = true) ->
  forall fuel,
    ending (extract_financial_data svc info fuel) = Polling /\
    seconds_slept (trace (extract_financial_data svc info fuel)) = 2 * fuel /\
    Forall (fun ev => is_release ev = false)
           (trace (extract_financial_data svc info fuel)).
Proof.
  intros Hc Hr0 Hall fuel.
  destruct (poll_never_ends svc info Hall fuel 0 r0 Hr0) as [He Hs].
  pose proof (poll_releases_nothing svc info fuel 0 r0) as Hn.
  unfold extract_financial_data, ending, trace in *. rewrite Hc. simpl.
  destruct (poll svc info fuel 0 r0) as [t o]. simpl in *. subst o.
  split; [reflexivity|]. split; [exact Hs|].
  constructor; [reflexivity|exact Hn].
Qed.

Lemma polling_has_no_time_limit_witness :
  ending (extract_financial_data stalled session 1800) = Polling /\
  seconds_slept (trace (extract_financial_data stalled session 1800))
    = 2 * 1800 /\
  Forall (fun ev => is_release ev = false)
         (trace (extract_financial_data stalled session 1800)).
Proof.
  apply (polling_has_no_time_limit stalled session
           {| run_id := "run_1"; status := "queued" |}).
  - reflexivity.
  - reflexivity.
  - intros n. eexists. split; reflexivity.
Defined.

(** X7: the clean-up is not protected.  Once the run has settled and the
    messages are listed, an exception of the call that deletes the
    assistant leaves the function: the file is not deleted and the
    answer, though fetched, is not returned; an exception of the call
    that deletes the file comes after the assistant was deleted and loses
    the answer too. *)
Theorem failed_clean_up_loses_the_answer (svc : service)
  (info : assistant_info) (fuel : nat) (r0 r : run_object)
  (t_poll : list event) (data : list message) (e : exn) :
  runs_create svc = inr r0 ->
  poll svc info fuel 0 r0 = (t_poll, Returned r) ->
  messages_list svc = inr data ->
  assistants_delete svc = inl e \/
  (assistants_delete svc = inr tt /\ files_delete svc = inl e) ->
  let run := extract_financial_data svc info fuel in
  ending run = Raised e /\
  releases_of_file (file_id info) (trace run) = 0 /\
  releases_of_assistant (assistant_id info) (trace run)
  = match assistants_delete svc with inl _ => 0 | inr _ => 1 end.
Proof.
  intros Hc Hp Hm Hdel.
  pose proof (poll_releases_nothing svc info fuel 0 r0) as Hn.
  rewrite Hp in Hn. simpl in Hn.
  destruct (no_release_counts (assistant_id info) _ Hn) as [Ha _].
  destruct (no_release_counts (file_id info) _ Hn) as [_ Hf].
  unfold extract_financial_data, ending, trace.
  rewrite Hc. simpl. rewrite Hp, Hm. simpl.
  unfold releases_of_file, releases_of_assistant in *.
  destruct Hdel as [Hd|[Hd Hd']]; rewrite Hd; simpl;
    [|rewrite Hd'; simpl];
    rewrite !filter_app, !length_app, Ha, Hf; simpl;
    rewrite ?String.eqb_refl; auto.
Qed.

Lemma failed_clean_up_loses_the_answer_witness :
  ending (extract_financial_data (undeletable "{}") session 5)
    = Raised (APIError "Internal server error") /\
  releases_of_file "file_1"
    (trace (extract_financial_data (undeletable "{}") session 5)) = 0 /\
  releases_of_assistant "asst_1"
    (trace (extract_financial_data (undeletable "{}") session 5)) = 0.
Proof.
  apply (failed_clean_up_loses_the_answer (undeletable "{}") session 5
           {| run_id := "run_1"; status := "completed" |}
           {| run_id := "run_1"; status := "completed" |} []
           [ {| role := "assistant"; content := [TextBlock "{}"] |} ]).
  - reflexivity.
  - reflexivity.
  - reflexivity.
  - left. reflexivity.
Defined.

End SessionFacts.

(* ================================================================== *)
(** * Further facts about the store *)
(* ================================================================== *)

Section BatchFacts.
Import Sqlite.
Local Open Scope Z_scope.


Lemma write_document_at_rest (doc_info data : pyval) (c c' : connection) :
  at_rest c -> write_document doc_info data c = (c', inr tt) -> at_rest c'.
Proof.
  intros [Hw Hf] H.
  destruct (write_document_inv _ _ _ _ _ H)
    as (Hk & d & x1 & x2 & x3 & _ & _ & _ & _ & _ & _ & _ & _ & Hwk).
  split; congruence.
Qed.






(** ** Keys *)

Lemma consecutive_cons (from : Z) (n : nat) :
  consecutive from (S n) = (from + 1) :: consecutive (from + 1) n.
Proof.
  unfold consecutive. simpl. f_equal.
  rewrite <- seq_shift, map_map. apply map_ext. intros i. lia.
Qed.

Lemma added_in_order_nil (t : tables) : added_in_order t t [].
Proof.
  split; [now rewrite app_nil_r|]. split; [reflexivity|].
  split; [simpl; lia|]. intros k. exists [].
  rewrite app_nil_r. simpl. repeat split; lia.
Qed.

Lemma added_in_order_step (t t' : tables) (d : document_row)
  (x1 x2 x3 : statement_row) (ds : list document_row) :
  id d = documents_seq t + 1 ->
  document_id x1 = id d -> document_id x2 = id d -> document_id x3 = id d ->
  row_id x1 = income_seq t + 1 -> row_id x2 = balance_seq t + 1 ->
  row_id x3 = cash_seq t + 1 ->
  added_in_order (with_document t d x1 x2 x3) t' ds ->
  added_in_order t t' (d :: ds).
Proof.
  intros Hd H1 H2 H3 R1 R2 R3 (Hdocs & Hids & Hseq & Hrows).
  simpl in Hdocs, Hids, Hseq.
  split; [rewrite Hdocs, <- app_assoc; reflexivity|].
  split; [simpl List.length; rewrite consecutive_cons; simpl;
          rewrite Hids, Hd; reflexivity|].
  split; [simpl List.length; rewrite Hseq, Hd; lia|].
  intros k. destruct (Hrows k) as (xs & Hx & Hdx & Hrx & Hsx).
  exists (match k with
          | income_statements => x1
          | balance_sheets => x2
          | cash_flows => x3
          end :: xs).
  simpl List.length. rewrite consecutive_cons.
  destruct k; simpl in *; rewrite Hx, <- app_assoc;
    (split; [reflexivity|]); (split; [congruence|]);
    (split; [congruence|lia]).
Qed.

Lemma save_documents_keys (items : list (string * pyval)) :
  forall (c : connection) (log : list string) (c' : connection)
         (log' : list string) (raised : option exn),
    save_documents items c log = (c', log', raised) ->
    at_rest c ->
    exists ds, added_in_order (committed c) (committed c') ds.
Proof.
  induction items as [|[filename data] rest IH];
    intros c log c' log' raised H Hc; simpl in H.
  - injection H as <- _ _. exists []. apply added_in_order_nil.
  - destruct (getitem data "document_info") as [e|doc_info] eqn:Hi.
    { injection H as <- _ _. exists []. apply added_in_order_nil. }
    destruct (write_document doc_info data c) as [c1 [e|[]]] eqn:Hw.
    + destruct (write_failure_is_isolated filename data doc_info rest c c1
                  log e Hc Hi Hw) as [Hr _].
      rewrite Hr in H. exact (IH _ _ _ _ _ H Hc).
    + pose proof (write_document_at_rest _ _ _ _ Hc Hw) as Hc1.
      destruct (IH _ _ _ _ _ H Hc1) as [ds Hds].
      destruct (write_document_inv _ _ _ _ _ Hw)
        as (_ & d & x1 & x2 & x3 & Hd & H1 & H2 & H3 & R1 & R2 & R3 & Hcm & _).
      destruct Hc as [Hw0 _]. rewrite Hw0 in *. rewrite Hcm in Hds.
      exists (d :: ds).
      apply (added_in_order_step _ _ d x1 x2 x3 ds); assumption.
Qed.

(** X9: keys are given without gaps and in batch order.  The documents
    one call commits get the keys that follow the counter of the table,
    one after the other, also when documents in between were rejected
    after their document row had been inserted (the rollback takes the
    key back); the rows of the three statement tables are numbered the
    same way, and each carries the key of its document. *)
Theorem keys_are_given_without_gaps (batch : list (string * pyval))
  (t0 : tables) :
  let t' := fst (fst (save_financial_data batch t0)) in
  exists ds : list document_row,
    documents t' = documents t0 ++ ds /\
    map id ds = consecutive (documents_seq t0) (List.length ds) /\
    documents_seq t' = documents_seq t0 + Z.of_nat (List.length ds) /\
    forall k, exists xs,
      rows_of t' k = rows_of t0 k ++ xs /\
      map document_id xs = map id ds /\
      map row_id xs = consecutive (seq_of t0 k) (List.length ds) /\
      seq_of t' k = seq_of t0 k + Z.of_nat (List.length ds).
Proof.
  destruct (save_financial_data_store batch t0) as (c' & Hloop & Hst & _).
  simpl. rewrite Hst.
  exact (save_documents_keys _ _ _ _ _ _ Hloop (connect_at_rest t0)).
Qed.

(** ** What the rows hold *)







(** How the columns keep the values of a record. *)
Lemma kept_values (s : string) (n : Z) :
  (has_surrogate s = false -> text_column (PStr s) = Some s) /\
  (int64_min <= n <= int64_max ->
   text_column (PInt n) = Some (int_to_text n) /\
   real_column (PInt n) = Some (SReal (Text.float_of_Z n))) /\
  text_column PNone = None /\
  real_column PNone = Some SNull /\
  (has_surrogate s = false ->
   read_extent (read_number s) <> WholeText ->
   real_column (PStr s) = Some (SText s)).
Proof.
  unfold text_column, real_column. simpl.
  split; [now intros ->|]. split.
  - intros [H0 H1].
    destruct (Z.leb_spec int64_min n); [|lia].
    destruct (Z.leb_spec n int64_max); [|lia]. simpl. auto.
  - split; [reflexivity|]. split; [reflexivity|].
    intros -> Hr. simpl.
    destruct (read_extent (read_number s)); congruence.
Qed.

End BatchFacts.

(* ================================================================== *)
(** * Facts about the snapshot files *)
(* ================================================================== *)

Section SnapshotFacts.
Import Sqlite Snapshot.

Lemma rstrip_s_categories :
  map rstrip_s categories = ["income_statement"; "balance_sheet"; "cash_flow"].
Proof. reflexivity. Qed.

Lemma snapshot_row_needs (category : string) (data : pyval)
  (row : list (string * pyval)) :
  snapshot_row category data = inr row ->
  has_value (field data "document_info" "company_name") = true /\
  has_value (field data "document_info" "fiscal_year") = true /\
  is_object (getitem data (rstrip_s category)) = true.
Proof.
  unfold snapshot_row, field, and_then.
  destruct (getitem data "document_info") as [e|info]; [discriminate|].
  destruct (getitem info "company_name") as [e|company]; [discriminate|].
  destruct (getitem info "fiscal_year") as [e|year]; [discriminate|].
  destruct (getitem data (rstrip_s category)) as [e|group]; [discriminate|].
  destruct group; try discriminate. auto.
Qed.

Lemma snapshot_rows_need (category : string) (items : list (string * pyval)) :
  forall rows,
    snapshot_rows category items = inr rows ->
    List.length rows = List.length items /\
    Forall (fun item =>
              has_value (field (snd item) "document_info" "company_name") = true
              /\ has_value (field (snd item) "document_info" "fiscal_year")
                 = true
              /\ is_object (getitem (snd item) (rstrip_s category)) = true)
           items.
Proof.
  induction items as [|[document data] rest IH]; intros rows; simpl.
  - intros [= <-]. split; [reflexivity|constructor].
  - unfold and_then.
    destruct (snapshot_row category data) as [e|row] eqn:Hrow; [discriminate|].
    destruct (snapshot_rows category rest) as [e|rows']; [discriminate|].
    intros [= <-]. destruct (IH _ eq_refl) as [Hl Hall].
    split; [simpl; congruence|]. constructor; [|exact Hall].
    exact (snapshot_row_needs _ _ _ Hrow).
Qed.

Lemma snapshot_row_of_exportable (category : string) (data : pyval) :
  In category categories -> exportable data = true ->
  exists row, snapshot_row category data = inr row.
Proof.
  unfold exportable, snapshot_row, field, and_then. intros Hc H.
  apply andb_true_iff in H as [H H5]. apply andb_true_iff in H as [H H4].
  apply andb_true_iff in H as [H H3]. apply andb_true_iff in H as [H1 H2].
  destruct (getitem data "document_info") as [e|info]; [discriminate|].
  destruct (getitem info "company_name") as [e|company]; [discriminate|].
  destruct (getitem info "fiscal_year") as [e|year]; [discriminate|].
  destruct Hc as [<-|[<-|[<-|[]]]];
    change (rstrip_s _) with "income_statement" ||
    change (rstrip_s _) with "balance_sheet" ||
    change (rstrip_s _) with "cash_flow".
  - destruct (getitem data "income_statement") as [e|[]]; try discriminate.
    simpl. eauto.
  - destruct (getitem data "balance_sheet") as [e|[]]; try discriminate.
    simpl. eauto.
  - destruct (getitem data "cash_flow") as [e|[]]; try discriminate.
    simpl. eauto.
Qed.

Lemma snapshot_rows_of_exportable (category : string)
  (items : list (string * pyval)) :
  In category categories ->
  Forall (fun item => exportable (snd item) = true) items ->
  exists rows, snapshot_rows category items = inr rows.
Proof.
  intros Hc. induction 1 as [|[document data] rest Hd _ [rows IH]]; simpl.
  - eauto.
  - destruct (snapshot_row_of_exportable category data Hc Hd) as [row ->].
    rewrite IH. simpl. eauto.
Qed.

Lemma save_snapshots_returned (fs : filesystem) (timestamp : string)
  (results : list (string * pyval)) (cats : list string) :
  snd (save_snapshots fs timestamp cats results) = None ->
  Forall (fun category =>
            exists rows, snapshot_rows category results = inr rows) cats /\
  fst (save_snapshots fs timestamp cats results)
  = flat_map (fun category =>
                DirectoryMade (directory category)
                :: match snapshot_rows category results with
                   | inr (row :: rows) =>
                       [SnapshotWritten (snapshot_path category timestamp)
                                        (row :: rows)]
                   | _ => []
                   end) cats.
Proof.
  induction cats as [|category rest IH]; simpl.
  - intros _. split; [constructor|reflexivity].
  - destruct (makedirs fs (directory category)); [discriminate|].
    destruct (snapshot_rows category results) as [e|[|row rows]] eqn:Hrows;
      [discriminate| |].
    + destruct (save_snapshots fs timestamp rest results) as [done raised].
      simpl in *. intros H. destruct (IH H) as [Hall Hdone].
      split; [constructor; eauto|]. now rewrite Hdone.
    + destruct (to_parquet fs _ _); [discriminate|].
      destruct (save_snapshots fs timestamp rest results) as [done raised].
      simpl in *. intros H. destruct (IH H) as [Hall Hdone].
      split; [constructor; eauto|]. now rewrite Hdone.
Qed.

Lemma save_snapshots_on_working_filesystem (timestamp : string)
  (results : list (string * pyval)) (cats : list string) :
  Forall (fun category =>
            exists rows, snapshot_rows category results = inr rows) cats ->
  snd (save_snapshots working_filesystem timestamp cats results) = None.
Proof.
  induction 1 as [|category rest [rows Hrows] _ IH]; simpl; [reflexivity|].
  rewrite Hrows.
  destruct (save_snapshots working_filesystem timestamp rest results)
    as [done raised].
  destruct rows; exact IH.
Qed.

Lemma exportable_by_categories (data : pyval) :
  exportable data = true <->
  has_value (field data "document_info" "company_name") = true /\
  has_value (field data "document_info" "fiscal_year") = true /\
  Forall (fun category => is_object (getitem data (rstrip_s category)) = true)
         categories.
Proof.
  unfold exportable, categories.
  change (rstrip_s "income_statements") with "income_statement".
  change (rstrip_s "balance_sheets") with "balance_sheet".
  change (rstrip_s "cash_flows") with "cash_flow".
  rewrite !andb_true_iff. split.
  - intros [[[[H1 H2] H3] H4] H5]. repeat split; auto.
  - intros (H1 & H2 & H). inversion H as [|? ? H3 H']; subst.
    inversion H' as [|? ? H4 H'']; subst.
    inversion H'' as [|? ? H5 _]; subst. auto.
Qed.

(** X11: the function returns only for a batch of whole records.  When
    [save_financial_data] returns without an exception, every record of
    the batch has a company name and a fiscal year in [document_info] and
    has its three groups as objects; so a record that the relational
    phase merely rejected for a missing group makes the function raise in
    the snapshot phase, after the database was committed.  On a file
    system that works, the snapshot phase returns exactly for such
    batches. *)
Theorem snapshots_need_whole_records (fs : filesystem) (timestamp : string)
  (results : list (string * pyval)) (file : tables) :
  (snd (Snapshot.save_financial_data fs timestamp results file) = None ->
   Forall (fun item => exportable (snd item) = true) results) /\
  (snd (save_snapshots working_filesystem timestamp categories results) = None
   <-> Forall (fun item => exportable (snd item) = true) results).
Proof.
  assert (Hneed : forall fs',
             snd (save_snapshots fs' timestamp categories results) = None ->
             Forall (fun item => exportable (snd item) = true) results).
  { intros fs' H. apply save_snapshots_returned in H as [Hall _].
    apply Forall_forall. intros item Hin.
    apply exportable_by_categories.
    assert (Hcat : forall category, In category categories ->
              has_value (field (snd item) "document_info" "company_name")
              = true /\
              has_value (field (snd item) "document_info" "fiscal_year")
              = true /\
              is_object (getitem (snd item) (rstrip_s category)) = true).
    { intros category Hc. rewrite Forall_forall in Hall.
      destruct (Hall _ Hc) as [rows Hrows].
      destruct (snapshot_rows_need _ _ _ Hrows) as [_ Hitems].
      rewrite Forall_forall in Hitems. now apply Hitems. }
    destruct (Hcat "income_statements" ltac:(simpl; auto)) as (H1 & H2 & _).
    split; [exact H1|]. split; [exact H2|].
    apply Forall_forall. intros category Hc. now apply Hcat. }
  split.
  - unfold Snapshot.save_financial_data.
    destruct (Sqlite.save_financial_data results file) as [[t log] [e|]];
      [discriminate|].
    specialize (Hneed fs).
    destruct (save_snapshots fs timestamp categories results) as [done raised].
    exact Hneed.
  - split; [apply Hneed|]. intros Hall.
    apply save_snapshots_on_working_filesystem.
    apply Forall_forall. intros category Hc.
    now apply snapshot_rows_of_exportable.
Qed.

(** X12: the snapshots and the database can disagree.  When the function
    returns for a batch that is not empty, it has written one file for
    each of the three categories, and each file has one row for every
    record of the batch, also for the records the database rejected,
    while the documents table has only the storable ones; for an empty
    batch it makes the three directories and writes no file. *)
Theorem snapshots_hold_every_record (fs : filesystem) (timestamp : string)
  (results : list (string * pyval)) (file t' : tables) (log : list string)
  (done : list file_event) :
  room file (Z.of_nat (List.length results)) ->
  Snapshot.save_financial_data fs timestamp results file
  = (t', log, done, None) ->
  List.length (documents t')
  = List.length (documents file) + storable_count results /\
  map rows_written done
  = flat_map (fun _ => None :: match results with
                               | [] => []
                               | _ => [Some (List.length results)]
                               end) categories /\
  filter (fun ev => negb (is_written ev)) done
  = map (fun category => DirectoryMade (directory category)) categories.
Proof.
  intros Hroom. unfold Snapshot.save_financial_data.
  destruct (Sqlite.save_financial_data results file) as [[t log'] [e|]] eqn:Hs;
    [discriminate|].
  pose proof (save_snapshots_returned fs timestamp results categories) as Hr.
  destruct (save_snapshots fs timestamp categories results) as [ev raised].
  intros [= -> -> -> ->]. destruct (Hr eq_refl) as [Hall Hev]. simpl in Hev.
  split.
  { destruct (save_financial_data_store results file) as (c' & Hloop & Hst & _).
    rewrite Hs in Hloop, Hst. simpl in Hloop, Hst. subst t'.
    exact (save_documents_count _ _ _ _ _ Hloop (connect_at_rest file) Hroom). }
  assert (Hrows : forall category, In category categories ->
            match snapshot_rows category results with
            | inr (row :: rows) =>
                [SnapshotWritten (snapshot_path category timestamp)
                                 (row :: rows)]
            | _ => []
            end
            = match results with
              | [] => []
              | _ => match snapshot_rows category results with
                     | inr data =>
                         [SnapshotWritten (snapshot_path category timestamp)
                                          data]
                     | inl _ => []
                     end
              end /\
            (forall data, snapshot_rows category results = inr data ->
                          List.length data = List.length results)).
  { intros category Hc. rewrite Forall_forall in Hall.
    destruct (Hall _ Hc) as [rows Hrows]. rewrite Hrows.
    destruct (snapshot_rows_need _ _ _ Hrows) as [Hlen _].
    split.
    - destruct results; [destruct rows; [reflexivity|discriminate Hlen]|].
      destruct rows; [discriminate Hlen|reflexivity].
    - intros data [= <-]. exact Hlen. }
  destruct (Hrows "income_statements" ltac:(simpl; auto)) as [E1 L1].
  destruct (Hrows "balance_sheets" ltac:(simpl; auto)) as [E2 L2].
  destruct (Hrows "cash_flows" ltac:(simpl; auto)) as [E3 L3].
  rewrite Forall_forall in Hall.
  destruct (Hall "income_statements" ltac:(simpl; auto)) as [r1 H1].
  destruct (Hall "balance_sheets" ltac:(simpl; auto)) as [r2 H2].
  destruct (Hall "cash_flows" ltac:(simpl; auto)) as [r3 H3].
  rewrite Hev, E1, E2, E3, H1, H2, H3.
  specialize (L1 _ H1). specialize (L2 _ H2). specialize (L3 _ H3).
  destruct results as [|item results]; simpl; [auto|].
  rewrite L1, L2, L3. auto.
Qed.

Lemma snapshots_hold_every_record_witness :
  List.length
    (documents
       (fst (fst (fst (Snapshot.save_financial_data working_filesystem
                         "20240101_120000" batch_with_anonymous
                         init_database)))))
  = List.length (documents init_database)
    + storable_count batch_with_anonymous /\
  map rows_written
      (snd (fst (Snapshot.save_financial_data working_filesystem
                   "20240101_120000" batch_with_anonymous init_database)))
  = flat_map (fun _ => None :: match batch_with_anonymous with
                               | [] => []
                               | _ => [Some (List.length batch_with_anonymous)]
                               end) categories /\
  filter (fun ev => negb (is_written ev))
         (snd (fst (Snapshot.save_financial_data working_filesystem
                      "20240101_120000" batch_with_anonymous init_database)))
  = map (fun category => DirectoryMade (directory category)) categories.
Proof.
  apply (snapshots_hold_every_record working_filesystem "20240101_120000"
           batch_with_anonymous init_database _
           (snd (fst (fst (Snapshot.save_financial_data working_filesystem
                             "20240101_120000" batch_with_anonymous
                             init_database))))).
  - apply (room_in_new_database 2). vm_compute. discriminate.
  - vm_compute. reflexivity.
Defined.

(** The batch of the witness: two rows in every snapshot, one document
    in the database. *)
Lemma anonymous_filing_is_exported_only :
  storable_count batch_with_anonymous = 1%nat /\
  List.length batch_with_anonymous = 2%nat /\
  snd (fst (fst (Snapshot.save_financial_data working_filesystem
                   "20240101_120000" batch_with_anonymous init_database)))
  = ["Error saving data for anonymous.pdf: NOT NULL constraint failed: documents.company_name"].
Proof. repeat split; vm_compute; reflexivity. Qed.

End SnapshotFacts.

(* ================================================================== *)
(** * Facts about the report *)
(* ================================================================== *)

Section ReportFacts.
Import Sqlite.
Local Open Scope Z_scope.

(** ** The order of the rows *)

Lemma insert_by_year_sorted {A : Type} (year_of : A -> string) (x : A)
  (l : list A) :
  Sorted (in_year_order year_of) l ->
  Sorted (in_year_order year_of) (insert_by_year year_of x l).
Proof.
  induction 1 as [|y l Hl IH Hy]; simpl; [repeat constructor|].
  destruct (String.leb (year_of x) (year_of y)) eqn:Hxy.
  - constructor; [now constructor|]. now constructor.
  - assert (Hyx : in_year_order year_of y x).
    { unfold in_year_order.
      destruct (String.leb_total (year_of x) (year_of y)); congruence. }
    constructor; [exact IH|].
    destruct l as [|z l]; simpl; [now constructor|].
    destruct (String.leb (year_of x) (year_of z)); constructor;
      [exact Hyx|now inversion Hy].
Qed.

Lemma order_by_year_sorted {A : Type} (year_of : A -> string) (l : list A) :
  Sorted (in_year_order year_of) (order_by_year year_of l).
Proof.
  induction l as [|x l IH]; simpl; [constructor|].
  now apply insert_by_year_sorted.
Qed.

(** X13: every table of the report is in the order of its fiscal
    years, the fiscal years being compared as texts, byte by byte. *)
Theorem report_is_in_text_order_of_years (t : tables) :
  Sorted (in_year_order fst) (year_over_year_revenue_growth t) /\
  Sorted (in_year_order fst) (net_margin_by_year t) /\
  Sorted (in_year_order (fun row => fst (fst row)))
         (assets_vs_liabilities_change t) /\
  Sorted (in_year_order (fun row => fst (fst row)))
         (operating_cash_flow_trend t) /\
  Sorted (in_year_order fst) (liquidity_indicator t).
Proof. repeat split; apply order_by_year_sorted. Qed.

(** ** One row for each document *)

Lemma filter_by_key_length (z : Z) (l : list Z) :
  NoDup l -> In z l -> List.length (filter (Z.eqb z) l) = 1%nat.
Proof.
  induction 1 as [|y l Hy Hl IH]; [intros []|]. simpl.
  destruct (Z.eqb_spec z y) as [->|Hne].
  - intros _. simpl. f_equal.
    assert (Hnone : forall l', ~ In y l' -> filter (Z.eqb y) l' = []).
    { induction l' as [|w l' IH']; simpl; [reflexivity|]. intros Hn.
      destruct (Z.eqb_spec y w) as [->|_]; [exfalso; apply Hn; now left|].
      apply IH'. intros H. apply Hn. now right. }
    now rewrite Hnone.
  - intros [->|Hin]; [congruence|]. now apply IH.
Qed.

Lemma filter_by_document_length (z : Z) (rows : list statement_row) :
  List.length (filter (fun x => z =? document_id x) rows)
  = List.length (filter (Z.eqb z) (map document_id rows)).
Proof.
  induction rows as [|x rows IH]; simpl; [reflexivity|].
  destruct (z =? document_id x); simpl; now rewrite IH.
Qed.

Lemma one_statement_per_document (t : tables) (k : statement)
  (d : document_row) :
  sound t -> In d (documents t) ->
  List.length (filter (fun x => id d =? document_id x) (rows_of t k)) = 1%nat.
Proof.
  intros [Hrows Hkeys _] Hd.
  rewrite filter_by_document_length, Hrows.
  apply filter_by_key_length; [exact Hkeys|now apply in_map].
Qed.

Lemma flat_map_length_ones {A B : Type} (f : A -> list B) (l : list A) :
  (forall a, In a l -> List.length (f a) = 1%nat) ->
  List.length (flat_map f l) = List.length l.
Proof.
  induction l as [|a l IH]; intros H; simpl; [reflexivity|].
  rewrite length_app, H by now left. simpl. f_equal. apply IH.
  intros b Hb. apply H. now right.
Qed.

Lemma join_length (t : tables) (k : statement) :
  sound t -> List.length (join t k) = List.length (documents t).
Proof.
  intros Hs. unfold join. apply flat_map_length_ones. intros d Hd.
  rewrite length_map. now apply one_statement_per_document.
Qed.

Lemma join_cash_income_length (t : tables) :
  sound t -> List.length (join_cash_income t) = List.length (documents t).
Proof.
  intros Hs. unfold join_cash_income.
  rewrite flat_map_length_ones; [now apply join_length|].
  intros [d c] Hdc. rewrite length_map. apply in_join in Hdc as (Hd & _ & _).
  exact (one_statement_per_document t income_statements d Hs Hd).
Qed.

Lemma order_by_year_length {A : Type} (year_of : A -> string) (l : list A) :
  List.length (order_by_year year_of l) = List.length l.
Proof. apply Permutation_length, order_by_year_permutation. Qed.

Lemma save_financial_data_sound (batch : list (string * pyval)) (t0 : tables) :
  sound t0 -> sound (fst (fst (save_financial_data batch t0))).
Proof.
  intros Hs.
  destruct (save_financial_data_store batch t0) as (c' & Hloop & -> & _).
  destruct (save_documents_inv _ _ _ _ _ _ Hloop (connect_at_rest t0) Hs)
    as (_ & Hs' & _). exact Hs'.
Qed.

(** X14: from the batch to the report.  When persistence returns, the
    net margin, the cash flow trend and the liquidity indicator each have
    exactly one row for every document that was in the database before
    and one for every storable record of the batch: no record is lost in
    a join and none is counted twice. *)
Theorem every_stored_record_is_reported (batch : list (string * pyval))
  (t0 t' : tables) (log : list string) :
  sound t0 -> room t0 (Z.of_nat (List.length batch)) ->
  save_financial_data batch t0 = (t', log, None) ->
  List.length (net_margin_by_year t')
  = (List.length (documents t0) + storable_count batch)%nat /\
  List.length (operating_cash_flow_trend t')
  = (List.length (documents t0) + storable_count batch)%nat /\
  List.length (liquidity_indicator t')
  = (List.length (documents t0) + storable_count batch)%nat.
Proof.
  intros Hs0 Hroom Hsave.
  assert (Hs : sound t').
  { pose proof (save_financial_data_sound batch t0 Hs0) as H.
    now rewrite Hsave in H. }
  assert (Hn : List.length (documents t')
               = (List.length (documents t0) + storable_count batch)%nat).
  { destruct (save_financial_data_store batch t0) as (c' & Hloop & Hst & _).
    rewrite Hsave in Hloop, Hst. simpl in Hloop, Hst. subst t'.
    exact (save_documents_count _ _ _ _ _ Hloop (connect_at_rest t0) Hroom). }
  unfold net_margin_by_year, operating_cash_flow_trend, liquidity_indicator.
  rewrite !order_by_year_length, !length_map, join_cash_income_length,
    !join_length by exact Hs.
  auto.
Qed.

Lemma every_stored_record_is_reported_witness :
  List.length (net_margin_by_year
                 (fst (fst (save_financial_data three_years init_database))))
  = (List.length (documents init_database) + storable_count three_years)%nat /\
  List.length (operating_cash_flow_trend
                 (fst (fst (save_financial_data three_years init_database))))
  = (List.length (documents init_database) + storable_count three_years)%nat /\
  List.length (liquidity_indicator
                 (fst (fst (save_financial_data three_years init_database))))
  = (List.length (documents init_database) + storable_count three_years)%nat.
Proof.
  apply (every_stored_record_is_reported three_years init_database _
           (snd (fst (save_financial_data three_years init_database)))).
  - exact init_database_sound.
  - apply (room_in_new_database 3). vm_compute. discriminate.
  - vm_compute. reflexivity.
Defined.

(** ** The growth of the revenue *)

Lemma with_lag_neighbours (rows : list (string * sqlval)) :
  forall previous,
    with_lag previous rows
    = match rows with
      | [] => []
      | r :: rest =>
          (fst r, snd r, previous)
          :: map (fun pr => (fst (snd pr), snd (snd pr), snd (fst pr)))
                 (combine rows rest)
      end.
Proof.
  induction rows as [|[y v] rest IH]; intros previous; simpl; [reflexivity|].
  f_equal. rewrite IH. destruct rest as [|[y' v'] rest']; reflexivity.
Qed.

Lemma growth_rows (t : tables) :
  Permutation
    (year_over_year_revenue_growth t)
    (map (fun pr => (fst (snd pr),
                     change_percent (snd (snd pr)) (snd (fst pr))))
         (filter (fun pr => is_not_null (snd (fst pr)))
                 (combine (revenues_in_year_order t)
                          (tl (revenues_in_year_order t))))).
Proof.
  assert (Hrows : filter (fun row => is_not_null (snd row)) (revenue_data t)
                  = map (fun pr => (fst (snd pr), snd (snd pr), snd (fst pr)))
                      (filter (fun pr => is_not_null (snd (fst pr)))
                         (combine (revenues_in_year_order t)
                                  (tl (revenues_in_year_order t))))).
  { unfold revenue_data. fold (revenues_in_year_order t).
    rewrite with_lag_neighbours.
    destruct (revenues_in_year_order t) as [|r rest]; [reflexivity|].
    cbn [filter snd is_not_null tl]. now rewrite filter_map_swap. }
  unfold year_over_year_revenue_growth. rewrite Hrows, map_map.
  apply order_by_year_permutation.
Qed.

(** X15: the growth report has a row exactly for each pair of documents
    that follow each other in the order of the fiscal years and whose
    first document has a revenue that is not NULL: the row carries the
    year of the second document and the change from the first revenue to
    the second.  The first document in that order has no row. *)
Theorem growth_compares_neighbours (t : tables) :
  Permutation
    (year_over_year_revenue_growth t)
    (map (fun pr => (fst (snd pr),
                     change_percent (snd (snd pr)) (snd (fst pr))))
         (filter (fun pr => is_not_null (snd (fst pr)))
                 (combine (revenues_in_year_order t)
                          (tl (revenues_in_year_order t))))) /\
  (List.length (year_over_year_revenue_growth t)
   <= Nat.pred (List.length (revenues_in_year_order t)))%nat.
Proof.
  split; [apply growth_rows|].
  rewrite (Permutation_length (growth_rows t)), length_map.
  etransitivity; [apply filter_length_le|].
  rewrite length_combine.
  destruct (revenues_in_year_order t) as [|r rest]; [apply Nat.le_refl|].
  apply Nat.le_min_r.
Qed.

(** ** Ratios without a denominator *)

Lemma percent_of_zero (a b : sqlval) :
  zero_valued b = true -> percent a b = SNull.
Proof. intros H. unfold percent. now rewrite divide_by_zero. Qed.

Lemma zero_is_not_null (v : sqlval) :
  zero_valued v = true -> is_not_null v = true.
Proof. destruct v; [discriminate|reflexivity..]. Qed.

Lemma in_order_by_year {A : Type} (year_of : A -> string) (x : A)
  (l : list A) : In x l -> In x (order_by_year year_of l).
Proof.
  apply Permutation_in, Permutation_sym, order_by_year_permutation.
Qed.

(** X16: a revenue of zero raises nothing in the report: the net margin
    and the cash flow ratio of the document are NULL, and so is the
    growth of the document that follows it in the order of the fiscal
    years. *)
Theorem zero_revenue_gives_null (t : tables) (d : document_row)
  (i : statement_row) :
  In (d, i) (join t income_statements) ->
  zero_valued (revenue i) = true ->
  In (fiscal_year d, SNull) (net_margin_by_year t) /\
  (forall c, In (d, c, i) (join_cash_income t) ->
     In (fiscal_year d, operating_cash_flow c, SNull)
        (operating_cash_flow_trend t)) /\
  (forall next,
     In ((fiscal_year d, revenue i), next)
        (combine (revenues_in_year_order t)
                 (tl (revenues_in_year_order t))) ->
     In (fst next, SNull) (year_over_year_revenue_growth t)).
Proof.
  intros Hdi Hz. repeat split.
  - unfold net_margin_by_year. apply in_order_by_year.
    apply in_map_iff. exists (d, i). split; [|exact Hdi].
    cbn [fst snd]. now rewrite percent_of_zero.
  - intros c Hc. unfold operating_cash_flow_trend. apply in_order_by_year.
    apply in_map_iff. exists (d, c, i). split; [|exact Hc].
    now rewrite percent_of_zero.
  - intros next Hnext.
    pose proof (growth_rows t) as Hperm.
    apply (Permutation_in _ (Permutation_sym Hperm)).
    apply in_map_iff. exists ((fiscal_year d, revenue i), next).
    cbn [fst snd]. split.
    + unfold change_percent. now rewrite percent_of_zero.
    + apply filter_In. split; [exact Hnext|].
      cbn [fst snd]. now apply zero_is_not_null.
Qed.

Lemma zero_revenue_gives_null_witness :
  In ("2023", SNull)
     (net_margin_by_year
        (fst (fst (save_financial_data two_defaults init_database)))) /\
  (forall c,
     In (mk_document 1 "Unknown" "2023" "10-K", c,
         mk_statement 1 1 (SReal PrimFloat.zero) (SReal PrimFloat.zero)
                      (SReal PrimFloat.zero))
        (join_cash_income
           (fst (fst (save_financial_data two_defaults init_database)))) ->
     In ("2023", operating_cash_flow c, SNull)
        (operating_cash_flow_trend
           (fst (fst (save_financial_data two_defaults init_database))))) /\
  (forall next,
     In (("2023", SReal PrimFloat.zero), next)
        (combine
           (revenues_in_year_order
              (fst (fst (save_financial_data two_defaults init_database))))
           (tl (revenues_in_year_order
                  (fst (fst (save_financial_data two_defaults
                               init_database)))))) ->
     In (fst next, SNull)
        (year_over_year_revenue_growth
           (fst (fst (save_financial_data two_defaults init_database))))).
Proof.
  apply (zero_revenue_gives_null
           (fst (fst (save_financial_data two_defaults init_database)))
           (mk_document 1 "Unknown" "2023" "10-K")
           (mk_statement 1 1 (SReal PrimFloat.zero) (SReal PrimFloat.zero)
                         (SReal PrimFloat.zero))).
  - vm_compute. left. reflexivity.
  - vm_compute. reflexivity.
Defined.

(** ** A batch without a storable record *)

Lemma report_of_no_documents (t : tables) :
  documents t = [] -> run_analysis_queries t = empty_report.
Proof.
  intros H.
  unfold run_analysis_queries, summary_statistics, join_income_cash,
    year_over_year_revenue_growth, revenue_data, net_margin_by_year,
    assets_vs_liabilities_change, balance_data, operating_cash_flow_trend,
    join_cash_income, liquidity_indicator, join.
  rewrite H. reflexivity.
Qed.

(** X17: when no record of the batch can be stored in a database without
    documents, the report is still produced: its five tables are empty
    and the three averages of the summary are NULL. *)
Theorem report_of_a_rejected_batch (batch : list (string * pyval))
  (t0 t' : tables) (log : list string) :
  documents t0 = [] -> room t0 (Z.of_nat (List.length batch)) ->
  save_financial_data batch t0 = (t', log, None) ->
  storable_count batch = 0%nat ->
  run_analysis_queries t' = empty_report.
Proof.
  intros Hdocs Hroom Hsave Hcount.
  apply report_of_no_documents, length_zero_iff_nil.
  destruct (save_financial_data_store batch t0) as (c' & Hloop & Hst & _).
  rewrite Hsave in Hloop, Hst. simpl in Hloop, Hst. subst t'.
  rewrite (save_documents_count _ _ _ _ _ Hloop (connect_at_rest t0) Hroom).
  simpl. now rewrite Hdocs, Hcount.
Qed.

Lemma report_of_a_rejected_batch_witness :
  run_analysis_queries
    (fst (fst (save_financial_data [("nameless.pdf", nameless)]
                 init_database)))
  = empty_report.
Proof.
  apply (report_of_a_rejected_batch [("nameless.pdf", nameless)]
           init_database _
           (snd (fst (save_financial_data [("nameless.pdf", nameless)]
                        init_database)))).
  - reflexivity.
  - apply (room_in_new_database 1). vm_compute. discriminate.
  - vm_compute. reflexivity.
  - vm_compute. reflexivity.
Defined.

End ReportFacts.

(* ================================================================== *)
(** * Further facts about the flow *)
(* ================================================================== *)

Section LoopFacts.
Import Remote Flow.

Lemma creations_of_assistant_app (id : string) (t1 t2 : list event) :
  creations_of_assistant id (t1 ++ t2) =
  creations_of_assistant id t1 + creations_of_assistant id t2.
Proof. unfold creations_of_assistant. now rewrite filter_app, length_app. Qed.

Lemma creations_of_file_app (id : string) (t1 t2 : list event) :
  creations_of_file id (t1 ++ t2) =
  creations_of_file id t1 + creations_of_file id t2.
Proof. unfold creations_of_file. now rewrite filter_app, length_app. Qed.

Lemma no_creation_counts (t : list event) :
  Forall no_creation t ->
  (forall id, creations_of_assistant id t = 0 /\ creations_of_file id t = 0) /\
  List.length (filter is_thread_created t) = 0.
Proof.
  unfold creations_of_assistant, creations_of_file.
  induction 1 as [|ev t Hev _ [IH1 IH2]]; simpl; [auto|].
  destruct ev; simpl in *; try contradiction; auto.
Qed.

Lemma poll_creates_nothing (svc : service) (info : assistant_info)
  (fuel n : nat) (r : run_object) :
  Forall no_creation (trace (poll svc info fuel n r)).
Proof.
  revert n r. induction fuel as [|fuel IH]; intros n r; simpl;
    destruct (still_running r); try (constructor; fail).
  destruct (runs_retrieve svc n) as [e|r']; simpl.
  - repeat constructor.
  - specialize (IH (S n) r'). unfold trace in *.
    destruct (poll svc info fuel (S n) r') as [t o]. simpl in *.
    destruct o; repeat constructor; auto.
Qed.

Lemma reading_creates_nothing (data : list message) :
  Forall no_creation (trace (first_assistant_message data)).
Proof.
  induction data as [|m data IH]; simpl; [constructor|].
  destruct (String.eqb (role m) "assistant"); [|exact IH].
  destruct (message_payload m); simpl; repeat constructor.
Qed.

(** The events of one file whose processing returns. *)
Lemma process_file_returned (fuel : nat) (job : string * service)
  (t : list event) (v : pyval) :
  process_file fuel job = (t, Returned v) ->
  exists fid aid tid t_poll t_read,
    Forall (fun ev => is_release ev = false) t_poll /\
    Forall no_creation t_poll /\
    Forall (fun ev => is_release ev = false) t_read /\
    Forall no_creation t_read /\
    t = [ Printed ("Processing " ++ fst job ++ "...");
          FileCreated fid; AssistantCreated aid; ThreadCreated tid;
          RunCreated tid aid ]
        ++ t_poll
        ++ [ MessagesListed tid; AssistantDeleted aid; FileDeleted fid ]
        ++ t_read.
Proof.
  destruct job as [file_path svc]. unfold process_file. intros H.
  apply bind_returned in H as (t0 & u & ta & H0 & H & ->).
  injection H0 as <- _.
  apply bind_returned in H as (t1 & info & tb & H1 & H & ->).
  unfold create_financial_assistant in H1.
  apply bind_returned in H1 as (tf & fid & tc & Hf & H1 & ->).
  apply call_returned in Hf as [_ ->].
  apply bind_returned in H1 as (tg & aid & td & Hg & H1 & ->).
  apply call_returned in Hg as [_ ->].
  apply bind_returned in H1 as (th & tid & te & Hh & H1 & ->).
  apply call_returned in Hh as [_ ->].
  injection H1 as <- <-.
  unfold extract_financial_data in H.
  apply bind_returned in H as (t2 & r & tr1 & H2 & H & ->).
  apply call_returned in H2 as [_ ->].
  apply bind_returned in H as (t_poll & r2 & tr2 & Hp & H & ->).
  apply bind_returned in H as (t3 & data & tr3 & H3 & H & ->).
  apply call_returned in H3 as [_ ->].
  apply bind_returned in H as (t4 & u4 & tr4 & H4 & H & ->).
  apply call_returned in H4 as [_ ->].
  apply bind_returned in H as (t5 & u5 & t_read & H5 & H & ->).
  apply call_returned in H5 as [_ ->].
  exists fid, aid, tid, t_poll, t_read. simpl.
  pose proof (poll_releases_nothing svc
                {| assistant_id := aid; thread_id := tid; file_id := fid |}
                fuel 0 r) as P1.
  pose proof (poll_creates_nothing svc
                {| assistant_id := aid; thread_id := tid; file_id := fid |}
                fuel 0 r) as P2.
  rewrite Hp in P1, P2.
  pose proof (first_assistant_message_releases_nothing data) as R1.
  pose proof (reading_creates_nothing data) as R2.
  rewrite H in R1, R2. simpl in *.
  repeat split; auto.
Qed.

(** X18: when the loop of [main_flow] returns, it has released every
    assistant and every file it created: for each id the service gave
    out, the creations and the deletions under that id are equally many.
    One thread was created for each input file. *)
Theorem loop_releases_what_it_creates (fuel : nat)
  (jobs : list (string * service)) (results out : list (string * pyval))
  (t : list event) :
  process_files fuel jobs results = (t, Returned out) ->
  (forall id,
     creations_of_assistant id t = releases_of_assistant id t /\
     creations_of_file id t = releases_of_file id t) /\
  List.length (filter is_thread_created t) = List.length jobs.
Proof.
  revert results t. induction jobs as [|job jobs IH]; intros results t H.
  - injection H as <- _. split; [intros id; split; reflexivity|reflexivity].
  - simpl in H.
    apply bind_returned in H as (t1 & v & t2 & H1 & H2 & ->).
    apply IH in H2 as [IHc IHt].
    apply process_file_returned in H1
      as (fid & aid & tid & t_poll & t_read & P1 & P2 & R1 & R2 & ->).
    destruct (no_creation_counts _ P2) as [Pc Pt].
    destruct (no_creation_counts _ R2) as [Rc Rt].
    split.
    + intros id. destruct (IHc id) as [Ia If].
      destruct (Pc id) as [Pa Pf]. destruct (Rc id) as [Ra Rf].
      destruct (no_release_counts id _ P1) as [Qa Qf].
      destruct (no_release_counts id _ R1) as [Sa Sf].
      rewrite !creations_of_assistant_app, !creations_of_file_app,
        !releases_of_assistant_app, !releases_of_file_app.
      rewrite Pa, Pf, Ra, Rf, Qa, Qf, Sa, Sf, Ia, If.
      unfold creations_of_assistant, creations_of_file,
        releases_of_assistant, releases_of_file. simpl.
      destruct (String.eqb aid id), (String.eqb fid id); simpl; lia.
    + rewrite !filter_app, !length_app, Pt, Rt, IHt. simpl. lia.
Qed.

Lemma loop_releases_what_it_creates_witness :
  (forall id,
     creations_of_assistant id (trace (process_files 5 two_reports []))
     = releases_of_assistant id (trace (process_files 5 two_reports [])) /\
     creations_of_file id (trace (process_files 5 two_reports []))
     = releases_of_file id (trace (process_files 5 two_reports []))) /\
  List.length (filter is_thread_created (trace (process_files 5 two_reports [])))
  = List.length two_reports.
Proof.
  apply (loop_releases_what_it_creates 5 two_reports []
           [("report.pdf", whole_record "2022")]).
  vm_compute. reflexivity.
Defined.

(** X19: the summary never prints the cross.  A line is printed only
    after [data['document_info']['fiscal_year']] was found, and a record
    in which it is found is an object with a key, which counts as true:
    every line carries the check mark, and the first record without that
    entry ends the loop with its exception. *)
Theorem summary_never_prints_the_cross (items : list (string * pyval)) :
  Forall (fun line => fst (fst line) = check_mark) (fst (print_summary items)) /\
  (snd (print_summary items) = None <->
   Forall (fun item => exists fiscal_year,
             Sqlite.field (snd item) "document_info" "fiscal_year"
             = inr fiscal_year) items).
Proof.
  induction items as [|[file_name data] rest [IH1 IH2]]; simpl.
  - split; [constructor|]. split; [constructor|reflexivity].
  - unfold Sqlite.field, Sqlite.and_then.
    destruct (getitem data "document_info") as [e|info] eqn:Hi.
    { split; [constructor|]. split; [discriminate|].
      intros H. inversion H as [|? ? [fy Hfy] _].
      unfold Sqlite.field, Sqlite.and_then in Hfy. simpl in Hfy.
      rewrite Hi in Hfy. discriminate Hfy. }
    destruct (getitem info "fiscal_year") as [e|fy] eqn:Hy.
    { split; [constructor|]. split; [discriminate|].
      intros H. inversion H as [|? ? [fy Hfy] _].
      unfold Sqlite.field, Sqlite.and_then in Hfy. simpl in Hfy.
      rewrite Hi, Hy in Hfy. discriminate Hfy. }
    destruct (print_summary rest) as [lines raised]. simpl in *.
    split.
    + constructor; [|exact IH1]. simpl.
      destruct data as [| | | | | |d]; try discriminate Hi.
      destruct d; [discriminate Hi|reflexivity].
    + rewrite IH2. split.
      * intros H. constructor; [|exact H]. exists fy.
        unfold Sqlite.field, Sqlite.and_then. simpl. now rewrite Hi, Hy.
      * intros H. now inversion H.
Qed.

End LoopFacts.
